(** * pipenv [cli.py]: manifest-lock reconciliation and installation

    A shallow embedding of the parts of [pipenv/cli.py] that decide whether a
    lock file is stale, synthesise and write a lock file, install the pinned
    packages through pip, and parse pip's textual output.

    Python values are modelled as follows.
    - [str] is [string], a sequence of characters with codes below 256: a
      byte string of Python 2, or a text of Python 3 within Latin-1.  Where
      the two interpreters differ on such strings (the whitespace of
      [strip] and [split], the digits of [isdigit], percent-decoding), the
      primitive is a parameter of the development, and the byte-string
      version is used in the examples.
    - a JSON document ([dict], [list], [str], [int], [bool], [None]) is
      [json]; a [dict] keeps its entries in insertion order.
    - a function that touches the outside world is a state transformer over
      [World] returning an [Outcome]: a value, [sys.exit(code)] or a raised
      exception. *)

From Stdlib Require Import String Ascii List Bool ZArith Lia Arith.
From Stdlib Require Import Numbers.DecimalString.
From Stdlib Require Import Sorting.Permutation Sorting.Sorted.
From Stdlib Require Import Structures.OrdersEx Classes.RelationClasses Setoid.
Import ListNotations.

Local Open Scope string_scope.
Local Open Scope list_scope.
Local Open Scope Z_scope.

(* ===================================================================== *)
(** ** Python string primitives                                           *)
(* ===================================================================== *)

Module Py.

(** [len(s)] *)
Definition len (s : string) : Z := Z.of_nat (String.length s).

Definition chars (s : string) : list ascii := list_ascii_of_string s.

(** [s.startswith(p)] *)
Definition startswith (p s : string) : bool := String.prefix p s.

(** [sub in s] *)
Fixpoint contains (sub s : string) : bool :=
  String.prefix sub s ||
  match s with
  | EmptyString => false
  | String _ t => contains sub t
  end.

(** [s[n:]] for [n >= 0] *)
Fixpoint drop (n : nat) (s : string) : string :=
  match n, s with
  | O, _ => s
  | S _, EmptyString => EmptyString
  | S k, String _ t => drop k t
  end.

(** [s[:n]] for [n >= 0] *)
Fixpoint take (n : nat) (s : string) : string :=
  match n, s with
  | O, _ => EmptyString
  | S _, EmptyString => EmptyString
  | S k, String c t => String c (take k t)
  end.

(** [s.endswith(suf)] *)
Definition endswith (suf s : string) : bool :=
  (String.length suf <=? String.length s)%nat &&
  String.eqb (drop (String.length s - String.length suf) s) suf.

(** [s.split(sep)] for a non-empty separator: occurrences are found left
    to right and do not overlap.  [skip] counts the characters of a
    separator that was just matched and still has to be passed over;
    [cur] is the piece collected so far. *)
Fixpoint split_go (sep : string) (skip : nat) (cur : string) (s : string)
  : list string :=
  match s with
  | EmptyString => [cur]
  | String c t =>
      match skip with
      | S k => split_go sep k cur t
      | O =>
          if String.prefix sep s
          then cur :: split_go sep (String.length sep - 1) EmptyString t
          else split_go sep 0 (cur ++ String c EmptyString) t
      end
  end.

Definition split (sep s : string) : list string :=
  split_go sep 0 EmptyString s.

(** [sep.join(l)] *)
Definition join (sep : string) (l : list string) : string :=
  String.concat sep l.

(** [l[0]] and [l[1]] and [l[-1]] on lists of strings known to be long
    enough at the call sites; the default is never reached there. *)
Definition item0 (l : list string) : string := nth 0 l EmptyString.
Definition item1 (l : list string) : string := nth 1 l EmptyString.
Definition item_last (l : list string) : string := last l EmptyString.

(** [l[:-3]] *)
Definition drop_last3 {A} (l : list A) : list A :=
  firstn (List.length l - 3) l.

(** Which characters count as whitespace, and which as digits, is decided
    by the interpreter and by the kind of string: for a byte string
    (Python 2 [str]) these are the classes of the C locale below; for a
    text string (Python 2 [unicode], Python 3 [str]) the Unicode database
    adds, among the characters below 256, the codes 28 to 31, 133 and 160
    to the whitespace and 178, 179 and 185 to the digits.  The functions of
    this module therefore take the class as an argument. *)
Definition bytes_isspace (c : ascii) : bool :=
  let n := nat_of_ascii c in
  ((9 <=? n) && (n <=? 13))%nat || (n =? 32)%nat.

(** [s.lstrip()], [space] being the whitespace *)
Fixpoint lstrip_by (space : ascii -> bool) (s : string) : string :=
  match s with
  | EmptyString => EmptyString
  | String c t => if space c then lstrip_by space t else s
  end.

(** [rstrip_by p s] removes the longest suffix of characters satisfying
    [p]. *)
Fixpoint rstrip_by (p : ascii -> bool) (s : string) : string :=
  match s with
  | EmptyString => EmptyString
  | String c t =>
      match rstrip_by p t with
      | EmptyString => if p c then EmptyString else String c EmptyString
      | t' => String c t'
      end
  end.

(** [s.strip()], [space] being the whitespace *)
Definition strip_by (space : ascii -> bool) (s : string) : string :=
  rstrip_by space (lstrip_by space s).

(** [s.rstrip(set)] *)
Definition rstrip_chars (set : string) (s : string) : string :=
  rstrip_by (fun c => existsb (Ascii.eqb c) (chars set)) s.

Definition lower_char (c : ascii) : ascii :=
  let n := nat_of_ascii c in
  if ((65 <=? n) && (n <=? 90))%nat then ascii_of_nat (n + 32) else c.

(** [s.lower()] on ASCII letters *)
Fixpoint lower (s : string) : string :=
  match s with
  | EmptyString => EmptyString
  | String c t => String (lower_char c) (lower t)
  end.

Definition bytes_isdigit (c : ascii) : bool :=
  let n := nat_of_ascii c in ((48 <=? n) && (n <=? 57))%nat.

(** [s.isdigit()]: at least one character, and all of them digits, [digit]
    being the digits *)
Definition isdigit_by (digit : ascii -> bool) (s : string) : bool :=
  match s with
  | EmptyString => false
  | _ => forallb digit (chars s)
  end.

(** [s.replace(old, new)] for non-empty [old] *)
Fixpoint replace_go (old new : string) (skip : nat) (s : string) : string :=
  match s with
  | EmptyString => EmptyString
  | String c t =>
      match skip with
      | S k => replace_go old new k t
      | O =>
          if String.prefix old s
          then new ++ replace_go old new (String.length old - 1) t
          else String c (replace_go old new 0 t)
      end
  end.

Definition replace (old new s : string) : string := replace_go old new 0 s.

(** [s.find(sub)] as a number of characters before the first occurrence *)
Fixpoint find (sub s : string) : option nat :=
  if String.prefix sub s then Some O
  else match s with
       | EmptyString => None
       | String _ t => option_map S (find sub t)
       end.

(** [s.rfind(c)] for a one-character [c]; [-1] when absent *)
Fixpoint rfind_char_go (c : ascii) (i : Z) (best : Z) (s : string) : Z :=
  match s with
  | EmptyString => best
  | String d t => rfind_char_go c (i + 1) (if Ascii.eqb c d then i else best) t
  end.

Definition rfind_char (c : ascii) (s : string) : Z := rfind_char_go c 0 (-1) s.

(** [s[i:j]] for [0 <= i] *)
Definition slice (i j : Z) (s : string) : string :=
  take (Z.to_nat (j - i)) (drop (Z.to_nat i) s).

(** Decimal rendering of an [int], as [str(n)] *)
Definition str_of_int (z : Z) : string := NilEmpty.string_of_int (Z.to_int z).

Definition hex_val (c : ascii) : option nat :=
  let n := nat_of_ascii c in
  if ((48 <=? n) && (n <=? 57))%nat then Some (n - 48)%nat
  else if ((65 <=? n) && (n <=? 70))%nat then Some (n - 55)%nat
  else if ((97 <=? n) && (n <=? 102))%nat then Some (n - 87)%nat
  else None.

(** [urllib.unquote] on a byte string (what [requests.compat.unquote] is
    under Python 2): every [%XY] with two hexadecimal digits is replaced by
    the byte of that code; anything else is kept. *)
Fixpoint unquote_go (skip : nat) (s : string) : string :=
  match s with
  | EmptyString => EmptyString
  | String c t =>
      match skip with
      | S k => unquote_go k t
      | O =>
          if Ascii.eqb c "%" then
            match t with
            | String a (String b _) =>
                match hex_val a, hex_val b with
                | Some x, Some y =>
                    String (ascii_of_nat (16 * x + y)) (unquote_go 2 t)
                | _, _ => String c (unquote_go 0 t)
                end
            | _ => String c (unquote_go 0 t)
            end
          else String c (unquote_go 0 t)
      end
  end.

Definition bytes_unquote (s : string) : string := unquote_go 0 s.

End Py.

(** The two characters that cannot be written inside a string literal. *)
Definition nl : string := String (ascii_of_nat 10) EmptyString.
Definition dquote : string := String (ascii_of_nat 34) EmptyString.
Definition backslash : string := String (ascii_of_nat 92) EmptyString.

(* ===================================================================== *)
(** ** JSON documents and [json.dump]                                     *)
(* ===================================================================== *)

#[local] Set Warnings "-register-all".

Inductive json : Type :=
| JNull
| JBool (b : bool)
| JInt (n : Z)
| JStr (s : string)
| JList (l : list json)
| JDict (d : list (string * json)).

(** Python exceptions that the modelled code can raise. *)
Inductive Exn : Type :=
| KeyError (key : string)
| TypeError
| AttributeError
| UnboundLocalError (var : string)
| IOError (path : string)
| ValueError
| KeyboardInterrupt.

(** How a call ends: it returns, it calls [sys.exit(code)], or it raises. *)
Inductive Outcome (A : Type) : Type :=
| Done (a : A)
| Exited (code : Z)
| Raised (e : Exn).
Arguments Done {A} a.
Arguments Exited {A} code.
Arguments Raised {A} e.

Definition obind {A B} (o : Outcome A) (k : A -> Outcome B) : Outcome B :=
  match o with
  | Done a => k a
  | Exited c => Exited c
  | Raised e => Raised e
  end.

Module Dict.
Section Ops.
Context {V : Type}.

(** [d.get(k)] *)
Fixpoint get (k : string) (d : list (string * V)) : option V :=
  match d with
  | [] => None
  | (k', v) :: t => if String.eqb k k' then Some v else get k t
  end.

(** [d[k] = v]: an existing key keeps its place, a new one goes last *)
Fixpoint set (k : string) (v : V) (d : list (string * V))
  : list (string * V) :=
  match d with
  | [] => [(k, v)]
  | (k', v') :: t =>
      if String.eqb k k' then (k', v) :: t else (k', v') :: set k v t
  end.

(** [del d[k]] for a key that is present *)
Fixpoint del (k : string) (d : list (string * V)) : list (string * V) :=
  match d with
  | [] => []
  | (k', v') :: t => if String.eqb k k' then t else (k', v') :: del k t
  end.

Definition keys (d : list (string * V)) : list string := map fst d.
End Ops.
End Dict.

Module Json.

(** [hasattr(v, 'keys')] on a JSON value: only a [dict] has [keys]. *)
Definition is_dict (j : json) : bool :=
  match j with JDict _ => true | _ => false end.

(** [j[k]] *)
Definition getitem (j : json) (k : string) : Outcome json :=
  match j with
  | JDict d =>
      match Dict.get k d with
      | Some v => Done v
      | None => Raised (KeyError k)
      end
  | _ => Raised TypeError
  end.

(** [j[k] = v] *)
Definition setitem (j : json) (k : string) (v : json) : Outcome json :=
  match j with
  | JDict d => Done (JDict (Dict.set k v d))
  | _ => Raised TypeError
  end.

(** [j.get(k, default)]; the Python value [None] is [JNull] *)
Definition get (j : json) (k : string) (default : json) : Outcome json :=
  match j with
  | JDict d =>
      match Dict.get k d with
      | Some v => Done v
      | None => Done default
      end
  | _ => Raised AttributeError
  end.

(** [dict.update]: every entry of [other] is assigned in turn. *)
Definition update_entries (d other : list (string * json))
  : list (string * json) :=
  fold_left (fun acc kv => Dict.set (fst kv) (snd kv) acc) other d.

(** One element of an iterable given to [dict.update]: a sequence of
    length two, the key and the value.  A string of two characters is such
    a sequence, and so is a dictionary with two entries, whose iteration
    gives its keys.  Something that is no sequence is a [TypeError], a
    sequence of another length a [ValueError], a key that is a list or a
    dictionary (unhashable) a [TypeError].  A key that is a number, a
    boolean or [None] would make a dictionary that is no JSON object and
    that [JDict] cannot hold; the model has [TypeError] for it as well. *)
Definition update_item (x : json) : Outcome (string * json) :=
  match x with
  | JList [k; v] =>
      match k with
      | JStr key => Done (key, v)
      | _ => Raised TypeError
      end
  | JList _ => Raised ValueError
  | JStr (String a (String b EmptyString)) =>
      Done (String a EmptyString, JStr (String b EmptyString))
  | JStr _ => Raised ValueError
  | JDict [(k1, _); (k2, _)] => Done (k1, JStr k2)
  | JDict _ => Raised ValueError
  | JNull | JBool _ | JInt _ => Raised TypeError
  end.

(** The elements are assigned one after the other; the first one that is
    not a pair ends the update. *)
Fixpoint update_items (d : list (string * json)) (items : list json)
  : Outcome (list (string * json)) :=
  match items with
  | [] => Done d
  | x :: rest =>
      obind (update_item x) (fun kv =>
      update_items (Dict.set (fst kv) (snd kv) d) rest)
  end.

(** [j.update(other)] on JSON values: [other] is a dictionary, or an
    iterable of pairs (a list, or a string, whose elements are its
    characters). *)
Definition update (j other : json) : Outcome json :=
  match j with
  | JDict d =>
      match other with
      | JDict o => Done (JDict (update_entries d o))
      | JList l => obind (update_items d l) (fun d' => Done (JDict d'))
      | JStr s =>
          obind (update_items d
                   (map (fun c => JStr (String c EmptyString)) (Py.chars s)))
                (fun d' => Done (JDict d'))
      | JNull | JBool _ | JInt _ => Raised TypeError
      end
  | _ => Raised AttributeError
  end.

(** The attribute lookup [j.update], [j.get], [j.items] or [j.copy]: only
    a dictionary has them. *)
Definition dict_method (j : json) : Outcome (list (string * json)) :=
  match j with
  | JDict d => Done d
  | _ => Raised AttributeError
  end.

(** [len(j)] *)
Definition len (j : json) : Outcome Z :=
  match j with
  | JDict d => Done (Z.of_nat (List.length d))
  | JList l => Done (Z.of_nat (List.length l))
  | JStr s => Done (Py.len s)
  | _ => Raised TypeError
  end.

(** *** [json.dump(obj, f, indent=4, separators=(',', ': '), sort_keys=True)] *)

Definition hex_digit (n : nat) : ascii :=
  if (n <? 10)%nat then ascii_of_nat (48 + n) else ascii_of_nat (87 + n).

Definition escape_char (c : ascii) : string :=
  let n := nat_of_ascii c in
  if (n =? 34)%nat then backslash ++ dquote
  else if (n =? 92)%nat then backslash ++ backslash
  else if (n =? 10)%nat then backslash ++ "n"
  else if (n =? 13)%nat then backslash ++ "r"
  else if (n =? 9)%nat then backslash ++ "t"
  else if (n =? 12)%nat then backslash ++ "f"
  else if (n =? 8)%nat then backslash ++ "b"
  else if ((32 <=? n) && (n <=? 126))%nat then String c EmptyString
  else backslash ++ "u00" ++ String (hex_digit (n / 16)) (String (hex_digit (n mod 16)) EmptyString).

Fixpoint escape (s : string) : string :=
  match s with
  | EmptyString => EmptyString
  | String c t => escape_char c ++ escape t
  end.

(** [encode_basestring_ascii] *)
Definition encode_string (s : string) : string := dquote ++ escape s ++ dquote.

Fixpoint spaces (n : nat) : string :=
  match n with
  | O => EmptyString
  | S k => String " " (spaces k)
  end.

(** ['\n' + ' ' * (indent * level)] with [indent = 4] *)
Definition newline_indent (level : nat) : string := nl ++ spaces (4 * level).

(** Order of [sorted(dct.items())] on entries with distinct string keys:
    the keys compared code point by code point. *)
Definition key_leb (a b : string) : bool :=
  match String_as_OT.compare a b with
  | Gt => false
  | _ => true
  end.

Fixpoint insert_item (x : string * string) (l : list (string * string))
  : list (string * string) :=
  match l with
  | [] => [x]
  | y :: t => if key_leb (fst x) (fst y) then x :: l else y :: insert_item x t
  end.

Definition sort_items (l : list (string * string)) : list (string * string) :=
  fold_right insert_item [] l.

(** One [key: value] line of a dictionary, the value already encoded. *)
Definition render_item (kv : string * string) : string :=
  encode_string (fst kv) ++ ": " ++ snd kv.

Definition render_block (opening closing : string) (level : nat)
           (items : list string) : string :=
  match items with
  | [] => opening ++ closing
  | _ =>
      opening ++ newline_indent (S level)
      ++ Py.join ("," ++ newline_indent (S level)) items
      ++ newline_indent level ++ closing
  end.

(** The text [json.dumps] produces for a value nested [level] deep.  The
    encoder sorts a dictionary's entries and then encodes each value; here
    each value is encoded first and the encoded entries are sorted by key,
    which yields the same text because the encoding of an entry does not
    depend on its position. *)
Fixpoint encode (level : nat) (j : json) {struct j} : string :=
  match j with
  | JNull => "null"
  | JBool true => "true"
  | JBool false => "false"
  | JInt n => Py.str_of_int n
  | JStr s => encode_string s
  | JList l => render_block "[" "]" level (map (encode (S level)) l)
  | JDict d =>
      render_block "{" "}" level
        (map render_item
           (sort_items
              (map (fun kv => (fst kv, encode (S level) (snd kv))) d)))
  end.

Definition dumps (j : json) : string := encode 0 j.

End Json.

(* ===================================================================== *)
(** ** The outside world                                                  *)
(* ===================================================================== *)

(** What [delegator.run] hands back. *)
Record CmdResult : Type := mkCmdResult {
  return_code : Z;
  out : string;
  err : string
}.

Inductive Stream : Type := Stdout | Stderr.

(** The part of the machine the modelled functions read or change: the
    files they open, the number of temporary files made so far, the external
    commands run (each with its result, oldest first) and the lines printed
    by [click.echo]. *)
Record World : Type := mkWorld {
  files : list (string * string);
  tmp_count : nat;
  commands : list (string * CmdResult);
  echoed : list (Stream * string)
}.

(** An entry of [project.sources]. *)
Record Source : Type := mkSource {
  source_name : string;
  url : string;
  verify_ssl : bool
}.

(** An entry of the list returned by [resolve_deps]: [dep['name']],
    [dep['version']] and, when hashes were asked for, [dep['hashes']]. *)
Record Resolved : Type := mkResolved {
  dep_name : string;
  dep_version : string;
  dep_hashes : option json
}.

(** The attributes of the global [project] object that [cli.py] reads. *)
Record Project : Type := mkProject {
  pipfile_location : string;
  lockfile_location : string;
  _lockfile : json;
  packages : json;
  dev_packages : json;
  sources : list Source;
  virtualenv_location : string;
  download_location : string;
  (** [project.virtualenv_exists], which looks at the machine *)
  virtualenv_exists : World -> bool
}.

Inductive OS : Type := Posix | NT.

Inductive Color : Type := Red | Yellow | Blue | Green.

(** Everything [cli.py] imports and the platform it runs on.  The functions
    of [pipenv.utils] and of third-party packages are not part of [cli.py];
    they are parameters of the development. *)
Class Env : Type := {
  os : OS;
  project : Project;
  (** the result of running an external command in a given world *)
  process : World -> string -> CmdResult;
  (** [tempfile]: the directory, and the random middle part of the name
      that the n-th call of [mkstemp] picks when the given files exist;
      [mkstemp] never picks the name of a file that exists *)
  tmp_dir : string;
  tmp_random : list (string * string) -> nat -> string;
  tmp_fresh : forall fs n prefix suffix,
      Dict.get (tmp_dir ++ prefix ++ tmp_random fs n ++ suffix)%string fs
      = None;
  (** [distutils.spawn.find_executable] *)
  find_executable : string -> option string;
  (** [crayons.<color>(text, bold=...)] rendered as text *)
  crayons : Color -> bool -> string -> string;
  (** [pipenv.utils] *)
  pep423_name : string -> string;
  convert_deps_to_pip : json -> list string;
  split_vcs : json -> json;
  shellquote : string -> string;
  resolve_deps : list string -> list Source -> bool -> bool -> World ->
                 Outcome (list Resolved);
  (** [pep508checker.__file__] *)
  pep508checker_file : string;
  (** [json.loads]; a malformed text raises [ValueError] *)
  json_loads : string -> option json;
  (** [pipfile.load(path).hash] as a function of the text of the Pipfile *)
  pipfile_hash : string -> string;
  (** the whitespace of [str.strip()] and [str.split()] and the digits of
      [str.isdigit()], for the interpreter and the kind of string in use *)
  is_space : ascii -> bool;
  is_digit : ascii -> bool;
  (** [requests.compat.unquote] *)
  unquote : string -> string
}.

Definition os_name (o : OS) : string :=
  match o with Posix => "posix" | NT => "nt" end.

Definition os_sep_char (o : OS) : ascii :=
  match o with Posix => "/"%char | NT => ascii_of_nat 92 end.

Definition os_sep (o : OS) : string := String (os_sep_char o) EmptyString.

Definition os_altsep (o : OS) : option ascii :=
  match o with Posix => None | NT => Some "/"%char end.

(** *** The monad of effectful functions *)

Definition ST (S A : Type) : Type := S -> Outcome A * S.

Definition ret {S A} (a : A) : ST S A := fun s => (Done a, s).

Definition bind {S A B} (m : ST S A) (k : A -> ST S B) : ST S B :=
  fun s =>
    match m s with
    | (Done a, s') => k a s'
    | (Exited c, s') => (Exited c, s')
    | (Raised e, s') => (Raised e, s')
    end.

(** Functions of [cli.py] act on the [World]. *)
Definition M : Type -> Type := ST World.

Declare Scope py_scope.
Delimit Scope py_scope with py.
Notation "x <- m ;; k" := (bind m (fun x => k))
  (at level 61, m at next level, right associativity) : py_scope.
Notation "m ;; k" := (bind m (fun _ => k))
  (at level 61, right associativity) : py_scope.
Local Open Scope py_scope.

(** [sys.exit(code)] *)
Definition sys_exit {S A} (code : Z) : ST S A := fun s => (Exited code, s).

Definition raise {S A} (e : Exn) : ST S A := fun s => (Raised e, s).

Definition lift {S A} (o : Outcome A) : ST S A := fun s => (o, s).

(** [click.echo(text)] and [click.echo(text, err=True)] *)
Definition echo_to (st : Stream) (text : string) : M unit :=
  fun w => (Done tt,
            mkWorld (files w) (tmp_count w) (commands w)
                    (echoed w ++ [(st, text)])).

Definition echo : string -> M unit := echo_to Stdout.
Definition echo_err : string -> M unit := echo_to Stderr.

(** [open(path, 'w')]: the file is created, or emptied if it exists. *)
Definition open_w (path : string) : M unit :=
  fun w => (Done tt,
            mkWorld (Dict.set path EmptyString (files w)) (tmp_count w)
                    (commands w) (echoed w)).

(** [f.write(data)] on a file opened for writing *)
Definition write (path data : string) : M unit :=
  fun w =>
    match Dict.get path (files w) with
    | Some old =>
        (Done tt,
         mkWorld (Dict.set path (old ++ data)%string (files w)) (tmp_count w)
                 (commands w) (echoed w))
    | None => (Raised (IOError path), w)
    end.

(** [open(path).read()] *)
Definition read_file (path : string) : M string :=
  fun w =>
    match Dict.get path (files w) with
    | Some text => (Done text, w)
    | None => (Raised (IOError path), w)
    end.

(** [os.path.isfile(path)] *)
Definition isfile (path : string) : M bool :=
  fun w => (Done (match Dict.get path (files w) with
                  | Some _ => true
                  | None => false
                  end), w).

Fixpoint run_steps (steps : list (M unit)) : M unit :=
  match steps with
  | [] => ret tt
  | s :: rest => s ;; run_steps rest
  end.

(* ===================================================================== *)
(** ** [cli.py]                                                           *)
(* ===================================================================== *)

(** [parse.parse(prefix + '{file}', line)] of the [parse] package: the
    pattern has to match the whole line, letters are compared without regard
    to case, and the field takes at least one character.  The result is
    [r['file']], or [None] when the line does not match. *)
Definition parse_field (prefix line : string) : option string :=
  if String.prefix (Py.lower prefix) (Py.lower line)
     && (String.length prefix <? String.length line)%nat
  then Some (Py.drop (String.length prefix) line)
  else None.

Section Cli.
Context {E : Env}.

(** ['{0}'.format(x)] for a value that is a string or [None] *)
Definition format_opt (x : option string) : string :=
  match x with Some s => s | None => "None" end.

(** [if r:] for a string or [None] *)
Definition truthy (r : option string) : bool :=
  match r with
  | Some s => negb (String.eqb s EmptyString)
  | None => false
  end.

(** [delegator.run(cmd)]: the command is run and logged with its result.
    External commands leave the files of the model (Pipfile, lock file,
    requirement files) as they are. *)
Definition delegator_run (cmd : string) : M CmdResult :=
  fun w =>
    let c := process w cmd in
    (Done c,
     mkWorld (files w) (tmp_count w) (commands w ++ [(cmd, c)]) (echoed w)).

(** [tempfile.mkstemp(prefix=..., suffix=...)[1]]: a new empty file, under
    a name that no file has *)
Definition mkstemp (prefix suffix : string) : M string :=
  fun w =>
    let path :=
      (tmp_dir ++ prefix ++ tmp_random (files w) (tmp_count w) ++ suffix)%string in
    (Done path,
     mkWorld (Dict.set path EmptyString (files w)) (S (tmp_count w))
             (commands w) (echoed w)).

(** [project.lockfile_exists] *)
Definition lockfile_exists : M bool := isfile (lockfile_location project).

(** [json.loads(text)] *)
Definition loads (text : string) : Outcome json :=
  match json_loads text with
  | Some j => Done j
  | None => Raised ValueError
  end.

(** *** [which], [which_pip] *)

Definition which (command : string) : string :=
  if String.eqb (os_name os) "nt" then
    if Py.endswith ".py" command
    then virtualenv_location project ++ os_sep os
         ++ ("Scripts" ++ backslash ++ command)
    else virtualenv_location project ++ os_sep os
         ++ ("Scripts" ++ backslash ++ command ++ ".exe")
  else virtualenv_location project ++ os_sep os ++ ("bin/" ++ command).

Definition which_pip (allow_global : bool) : option string :=
  if allow_global then find_executable "pip" else Some (which "pip").

(** *** [format_pip_error], [format_pip_output] *)

Definition format_pip_error (error : string) : string :=
  let error := Py.replace "Expected" (crayons Green true "Expected") error in
  let error := Py.replace "Got" (crayons Red true "Got") error in
  let error :=
    Py.replace
      "THESE PACKAGES DO NOT MATCH THE HASHES FROM THE REQUIREMENTS FILE"
      (crayons Red true
         "THESE PACKAGES DO NOT MATCH THE HASHES FROM Pipfile.lock!")
      error in
  let error :=
    Py.replace "someone may have tampered with them"
      (crayons Red false "someone may have tampered with them") error in
  Py.replace "option to pip install" "option to 'pipenv install'" error.

(** The generator [gen]: a line holding ["(from -r"] is cut there. *)
Definition format_pip_output_line (line : string) : string :=
  match Py.find "(from -r" line with
  | Some i => Py.take i line
  | None => line
  end.

Definition format_pip_output (text : string) : string :=
  Py.join nl (map format_pip_output_line (Py.split nl text)).

(** *** [pip_install] *)

(** ['"{0}" install {3} {1} -i {2} --exists-action w'.format(...)] *)
Definition pip_command (pip : option string) (install_reqs url : string)
           (no_deps : bool) : string :=
  dquote ++ format_opt pip ++ dquote ++ " install "
  ++ (if no_deps then "--no-deps" else "") ++ " " ++ install_reqs
  ++ " -i " ++ url ++ " --exists-action w".

(** [install_reqs] as first assigned in the loop body *)
Definition install_reqs_of (r : option string) (package_name : string)
  : string :=
  if truthy r then " -r " ++ format_opt r
  else if Py.startswith "-e " package_name
       then " -e " ++ dquote ++ Py.item1 (Py.split "-e " package_name) ++ dquote
       else " " ++ dquote ++ package_name ++ dquote.

Definition require_hashes (ignore_hashes : bool) (install_reqs : string)
  : string :=
  if negb ignore_hashes then install_reqs ++ " --require-hashes"
  else install_reqs.

(** The [for source in project.sources] loop.  [c] is the result bound so
    far; [ignore_hashes] is carried from one iteration to the next, as the
    local variable is.  [no_deps] is rebound to a string in the body, with
    the same truth value, so the flag itself is carried. *)
Fixpoint pip_install_loop (srcs : list Source) (package_name : string)
         (r : option string)
         (allow_global ignore_hashes no_deps verbose : bool)
         (c : option CmdResult) : M CmdResult :=
  match srcs with
  | [] =>
      match c with
      | Some c => ret c
      | None => raise (UnboundLocalError "c")
      end
  | source :: rest =>
      let install_reqs := install_reqs_of r package_name in
      ignore_hashes <-
        (if truthy r then
           text <- read_file (format_opt r) ;;
           ret (if negb (Py.contains "--hash" text) then true
                else ignore_hashes)
         else
           ret (if negb (Py.contains "--hash" install_reqs) then true
                else ignore_hashes)) ;;
      let install_reqs := require_hashes ignore_hashes install_reqs in
      let pip_command :=
        pip_command (which_pip allow_global) install_reqs (url source)
                    no_deps in
      (if verbose then echo_err ("$ " ++ pip_command) else ret tt) ;;
      c <- delegator_run pip_command ;;
      if return_code c =? 0 then ret c
      else pip_install_loop rest package_name r allow_global ignore_hashes
                            no_deps verbose (Some c)
  end.

Definition pip_install (package_name : string) (r : option string)
           (allow_global ignore_hashes no_deps verbose : bool)
  : M CmdResult :=
  r <- (if negb ignore_hashes && (match r with None => true | Some _ => false end)
        then
          r <- mkstemp "pipenv-" "-requirement.txt" ;;
          open_w r ;;
          write r package_name ;;
          ret (Some r)
        else ret r) ;;
  pip_install_loop (sources project) package_name r allow_global
                   ignore_hashes no_deps verbose None.

(** *** [pip_download] *)

Definition pip_download_command (package_name url : string) : string :=
  dquote ++ format_opt (which_pip false) ++ dquote ++ " download "
  ++ dquote ++ package_name ++ dquote ++ " -i " ++ url
  ++ " -d " ++ download_location project.

Fixpoint pip_download_loop (srcs : list Source) (package_name : string)
         (c : option CmdResult) : M CmdResult :=
  match srcs with
  | [] =>
      match c with
      | Some c => ret c
      | None => raise (UnboundLocalError "c")
      end
  | source :: rest =>
      c <- delegator_run (pip_download_command package_name (url source)) ;;
      if return_code c =? 0 then ret c
      else pip_download_loop rest package_name (Some c)
  end.

Definition pip_download (package_name : string) : M CmdResult :=
  pip_download_loop (sources project) package_name None.

(** *** [do_install_dependencies] *)

(** The [pip install:] loop over [deps_list] (through [progress.bar],
    which only draws). *)
Fixpoint install_deps_list (deps_list : list (string * bool))
         (allow_global no_deps verbose : bool) : M unit :=
  match deps_list with
  | [] => ret tt
  | (dep, ignore_hash) :: rest =>
      c <- pip_install dep None allow_global ignore_hash no_deps verbose ;;
      if negb (return_code c =? 0) then
        echo (crayons Red false "An error occured while installing!") ;;
        echo (crayons Blue false (format_pip_output (out c))) ;;
        echo (crayons Blue false (format_pip_error (err c))) ;;
        sys_exit (return_code c)
      else install_deps_list rest allow_global no_deps verbose
  end.

(** A local variable that may not have been assigned. *)
Definition bound {A} (var : string) (x : option A) : M A :=
  match x with
  | Some a => ret a
  | None => raise (UnboundLocalError var)
  end.

(** [if 'hash' in v: del v['hash']] for one value of [deps] *)
Definition remove_hash (v : json) : Outcome json :=
  match v with
  | JDict d =>
      match Dict.get "hash" d with
      | Some _ => Done (JDict (Dict.del "hash" d))
      | None => Done v
      end
  | JStr s => if Py.contains "hash" s then Raised TypeError else Done v
  | JList l =>
      if existsb (fun x => match x with
                           | JStr s => String.eqb s "hash"
                           | _ => false
                           end) l
      then Raised TypeError else Done v
  | _ => Raised TypeError
  end.

Fixpoint remove_hashes (d : list (string * json))
  : Outcome (list (string * json)) :=
  match d with
  | [] => Done []
  | (k, v) :: t =>
      obind (remove_hash v) (fun v' =>
      obind (remove_hashes t) (fun t' => Done ((k, v') :: t')))
  end.

(** Lines 287-322: [deps_list], the installation plan, as it stands when
    the [# --requirements was passed.] test is reached. *)
Definition deps_list_of
           (dev only bare requirements ignore_hashes skip_lock : bool)
  : M (list (string * bool)) :=
  let bare := if requirements then true else bare in
  (* Load the lockfile if it exists, or if only is being used. *)
  present <- lockfile_exists ;;
  lockfile <-
    (if skip_lock || only || negb present then
       if negb bare then
         echo (crayons Yellow false "Installing dependencies from Pipfile...") ;;
         ret (Some (split_vcs (_lockfile project)))
       else ret None
     else
       (if negb bare
        then echo (crayons Yellow false
                     "Installing dependencies from Pipfile.lock...")
        else ret tt) ;;
       text <- read_file (lockfile_location project) ;;
       j <- lift (loads text) ;;
       ret (Some (split_vcs j))) ;;
  (* Install default dependencies, always. *)
  deps <- (if negb only
           then l <- bound "lockfile" lockfile ;; lift (Json.getitem l "default")
           else ret (JDict [])) ;;
  lockfile <- bound "lockfile" lockfile ;;
  vcs_deps <- lift (Json.get lockfile "default-vcs" (JDict [])) ;;
  (* Add development deps if --dev was passed. *)
  both <-
    (if dev then
       _ <- lift (Json.dict_method deps) ;;
       develop <- lift (Json.getitem lockfile "develop") ;;
       deps <- lift (Json.update deps develop) ;;
       _ <- lift (Json.dict_method vcs_deps) ;;
       develop_vcs <- lift (Json.get lockfile "develop-vcs" (JDict [])) ;;
       vcs_deps <- lift (Json.update vcs_deps develop_vcs) ;;
       ret (deps, vcs_deps)
     else ret (deps, vcs_deps)) ;;
  let deps := fst both in
  let vcs_deps := snd both in
  deps <-
    (if ignore_hashes then
       (* Remove hashes from generated requirements. *)
       d <- lift (Json.dict_method deps) ;;
       d <- lift (remove_hashes d) ;;
       ret (JDict d)
     else ret deps) ;;
  (* Convert the deps to pip-compatible arguments. *)
  let deps_list :=
    map (fun d => (d, ignore_hashes)) (convert_deps_to_pip deps) in
  n <- lift (Json.len vcs_deps) ;;
  ret (if negb (n =? 0)
       then (deps_list
             ++ map (fun d => (d, true)) (convert_deps_to_pip vcs_deps))%list
       else deps_list).

Definition do_install_dependencies
           (dev only bare requirements allow_global ignore_hashes
            skip_lock verbose : bool) : M unit :=
  deps_list <- deps_list_of dev only bare requirements ignore_hashes
                            skip_lock ;;
  (* Allow pip to resolve dependencies when in skip-lock mode. *)
  let no_deps := negb skip_lock in
  (* --requirements was passed. *)
  if requirements then
    echo (Py.join nl (map fst deps_list)) ;;
    sys_exit 0
  else
    (* pip install: *)
    install_deps_list deps_list allow_global no_deps verbose.

(** *** [parse_install_output] *)

(** [s.strip()] *)
Definition strip (s : string) : string := Py.strip_by is_space s.

(** [s.isdigit()] *)
Definition isdigit (s : string) : bool := Py.isdigit_by is_digit s.

(** The two [parse.parse] attempts on one line. *)
Definition parse_saved (line : string) : option string :=
  match parse_field "Saved " (strip line) with
  | Some file => Some file
  | None => parse_field "Using cached " (strip line)
  end.

(** From [r['file']] to the name appended to [names]. *)
Definition saved_fname (file : string) : string :=
  let fname := Py.item_last (Py.split (os_sep os) file) in
  let fname := if Py.startswith "./" fname then Py.drop 2 fname else fname in
  (* Unencode percent-encoded values like ``!`` in version number. *)
  unquote fname.

(** [for line in lines]: the first matching line appends a pair and
    breaks; a line that does not match is skipped. *)
Fixpoint scan_lines (names : list (string * string)) (name : string)
         (lines : list string) : list (string * string) :=
  match lines with
  | [] => names
  | line :: rest =>
      match parse_saved line with
      | None => scan_lines names name rest
      | Some file => (names ++ [(saved_fname file, name)])%list
      end
  end.

(** The body of [for section in output_sections]. *)
Definition parse_section (names : list (string * string)) (section : string)
  : list (string * string) :=
  let lines := Py.split nl section in
  (* Strip dependency parens from name line. *)
  let name := Py.item0 (Py.split "(" (Py.item0 lines)) in
  (* Strip version specification. *)
  let name := Py.item0 (Py.split ";" name) in
  (* Standardize name to PEP 423. *)
  let name := pep423_name (strip name) in
  scan_lines names name lines.

Definition parse_install_output (output : string) : list (string * string) :=
  let output_sections := Py.split "Collecting " output in
  fold_left parse_section output_sections [].

(** *** [parse_download_fname] *)

(** [os.path.splitext] *)
Definition splitext (p : string) : string * string :=
  let sepIndex := Py.rfind_char (os_sep_char os) p in
  let sepIndex :=
    match os_altsep os with
    | Some a => Z.max sepIndex (Py.rfind_char a p)
    | None => sepIndex
    end in
  let dotIndex := Py.rfind_char "." p in
  if sepIndex <? dotIndex then
    (* skip all leading dots *)
    if existsb (fun c => negb (Ascii.eqb c "."))
               (Py.chars (Py.slice (sepIndex + 1) dotIndex p))
    then (Py.take (Z.to_nat dotIndex) p, Py.drop (Z.to_nat dotIndex) p)
    else (p, EmptyString)
  else (p, EmptyString).

(** [# Ignore implicit post releases in version number.] *)
Definition ignore_post_release (version : string) : string :=
  if Py.contains "-" version && isdigit (Py.item1 (Py.split "-" version))
  then Py.item0 (Py.split "-" version)
  else version.

(** The value of [version] before the post-release test. *)
Definition fname_version (fname name : string) : string :=
  let fextension := snd (splitext fname) in
  let fname := fst (splitext fname) in
  let fname :=
    if String.eqb fextension ".whl"
    then Py.join "-" (Py.drop_last3 (Py.split "-" fname))
    else fname in
  let fname :=
    if Py.endswith ".tar" fname then fst (splitext fname) else fname in
  (* Substring out package name (plus dash) from file name to get version. *)
  Py.drop (String.length name + 1) fname.

Definition parse_download_fname (fname name : string) : string :=
  ignore_post_release (fname_version fname name).

(** *** [do_lock] *)

(** [# Cleanup lockfile.]  One round of the loop over
    [('default', 'develop')]: every entry of the section whose value has
    no [keys] attribute is deleted. *)
Definition cleanup_section (section : string) (lockfile : json)
  : Outcome json :=
  obind (Json.getitem lockfile section) (fun sec =>
  obind (Json.dict_method sec) (fun d =>
  Json.setitem lockfile section
    (JDict (filter (fun kv => Json.is_dict (snd kv)) d)))).

(** The entry written for one resolved package.  [dep['hashes']] is only
    read when hashes were asked for. *)
Definition add_dep (no_hashes : bool) (dep : Resolved)
           (d : list (string * json)) : Outcome (list (string * json)) :=
  let d := Dict.set (dep_name dep)
                    (JDict [("version", JStr ("==" ++ dep_version dep))]) d in
  if negb no_hashes then
    match dep_hashes dep with
    | Some h =>
        Done (Dict.set (dep_name dep)
                (JDict [("version", JStr ("==" ++ dep_version dep));
                        ("hashes", h)]) d)
    | None => Raised (KeyError "hashes")
    end
  else Done d.

Fixpoint add_deps (no_hashes : bool) (results : list Resolved)
         (d : list (string * json)) : Outcome (list (string * json)) :=
  match results with
  | [] => Done d
  | dep :: rest => obind (add_dep no_hashes dep d) (add_deps no_hashes rest)
  end.

(** [for dep in results: lockfile[section].update(...)] *)
Definition add_results (section : string) (no_hashes : bool)
           (results : list Resolved) (lockfile : json) : Outcome json :=
  match results with
  | [] => Done lockfile
  | _ =>
      obind (Json.getitem lockfile section) (fun sec =>
      obind (Json.dict_method sec) (fun d =>
      obind (add_deps no_hashes results d) (fun d' =>
      Json.setitem lockfile section (JDict d'))))
  end.

(** [lockfile['_meta']['host-environment-markers'] = markers] *)
Definition set_markers (lockfile markers : json) : Outcome json :=
  obind (Json.getitem lockfile "_meta") (fun meta =>
  obind (Json.setitem meta "host-environment-markers" markers) (fun meta' =>
  Json.setitem lockfile "_meta" meta')).

Definition locking_message (section : string) : string :=
  crayons Yellow false
    ("Locking " ++ crayons Red false section ++ " dependencies...").

Definition pep508_command : string :=
  dquote ++ which "python" ++ dquote ++ " "
  ++ shellquote (Py.rstrip_chars "cdo" pep508checker_file).

(** Everything [do_lock] does before it opens the lock file; the result is
    the dictionary that is about to be dumped. *)
Definition do_lock_prepare (no_hashes verbose : bool) : M json :=
  (* Alert the user of progress. *)
  echo_err (locking_message "[dev-packages]") ;;
  (* Create the lockfile. *)
  let lockfile := _lockfile project in
  (* Cleanup lockfile. *)
  lockfile <- lift (cleanup_section "default" lockfile) ;;
  lockfile <- lift (cleanup_section "develop" lockfile) ;;
  (* Resolve dev-package dependencies. *)
  let deps := convert_deps_to_pip (dev_packages project) in
  results <- (fun w => (resolve_deps deps (sources project) verbose
                                     (negb no_hashes) w, w)) ;;
  (* Add develop dependencies to lockfile. *)
  lockfile <- lift (add_results "develop" no_hashes results lockfile) ;;
  (* Alert the user of progress. *)
  echo_err (locking_message "[packages]") ;;
  (* Resolve package dependencies. *)
  let deps := convert_deps_to_pip (packages project) in
  results <- (fun w => (resolve_deps deps (sources project) false
                                     (negb no_hashes) w, w)) ;;
  (* Add default dependencies to lockfile. *)
  lockfile <- lift (add_results "default" no_hashes results lockfile) ;;
  (* Run the PEP 508 checker in the virtualenv, add it to the lockfile. *)
  c <- delegator_run pep508_command ;;
  markers <- lift (loads (out c)) ;;
  lift (set_markers lockfile markers).

(** [# Write out the lockfile.]  The steps of the [with open(...)] block,
    in order; the pieces that [json.dump] writes count as one step. *)
Definition write_lockfile (lockfile : json) : list (M unit) :=
  [ open_w (lockfile_location project);
    write (lockfile_location project) (Json.dumps lockfile);
    (* Write newline at end of document. *)
    write (lockfile_location project) nl ].

Definition updated_message : string :=
  crayons Yellow false "Updated" ++ " Pipfile.lock" ++ crayons Yellow false "!".

Definition do_lock (no_hashes verbose : bool) : M unit :=
  lockfile <- do_lock_prepare no_hashes verbose ;;
  run_steps (write_lockfile lockfile) ;;
  echo_err updated_message.

(** [do_lock] interrupted (for instance by Ctrl-C) after the first [k]
    steps of the write have taken effect. *)
Definition do_lock_interrupted (k : nat) (no_hashes verbose : bool)
  : M unit :=
  lockfile <- do_lock_prepare no_hashes verbose ;;
  run_steps (firstn k (write_lockfile lockfile)) ;;
  raise KeyboardInterrupt.

End Cli.

(* ===================================================================== *)
(** ** [do_init]                                                          *)
(* ===================================================================== *)

(** The functions of [cli.py] that [do_init] calls, with the arguments it
    passes. *)
Inductive Call : Type :=
| Call_ensure_pipfile
| Call_do_where (bare : bool)
| Call_do_create_virtualenv
| Call_cleanup_virtualenv (bare : bool)
| Call_do_lock (no_hashes : bool)
| Call_do_install_dependencies
    (dev requirements allow_global ignore_hashes skip_lock verbose : bool)
| Call_do_activate_virtualenv.

(** What each callee does to the world.  [do_init] is studied for every
    behaviour of its callees. *)
Class Callees : Type := { callee : Call -> M unit }.

(** [do_init] runs in the world and keeps the list of the calls it made. *)
Record InitState : Type := mkInitState {
  world : World;
  calls : list Call
}.

Definition MI : Type -> Type := ST InitState.

Definition in_world {A} (m : M A) : MI A :=
  fun s =>
    match m (world s) with
    | (o, w') => (o, mkInitState w' (calls s))
    end.

Section Init.
Context {E : Env} {C : Callees}.

Definition call (c : Call) : MI unit :=
  fun s =>
    match callee c (world s) with
    | (o, w') => (o, mkInitState w' (calls s ++ [c]))
    end.

(** [try: body / except KeyboardInterrupt: handler] *)
Definition except_KeyboardInterrupt {A} (body handler : MI A) : MI A :=
  fun s =>
    match body s with
    | (Raised KeyboardInterrupt, s') => handler s'
    | r => r
    end.

(** [lockfile['_meta'].get('hash', {}).get('sha256')]; [JNull] is [None] *)
Definition recorded_hash (lockfile : json) : Outcome json :=
  obind (Json.getitem lockfile "_meta") (fun meta =>
  obind (Json.get meta "hash" (JDict [])) (fun h =>
  Json.get h "sha256" JNull)).

(** [x == p.hash], the right-hand side being a string *)
Definition eq_str (x : json) (h : string) : bool :=
  match x with
  | JStr s => String.eqb s h
  | _ => false
  end.

(** Lines 627-638: Pipfile, project location, virtualenv. *)
Definition do_init_prelude (requirements : bool) : MI unit :=
  call Call_ensure_pipfile ;;
  (* Display where the Project is established. *)
  (if negb requirements then call (Call_do_where false) else ret tt) ;;
  venv <- in_world (fun w => (Done (virtualenv_exists project w), w)) ;;
  if negb venv then
    except_KeyboardInterrupt
      (call Call_do_create_virtualenv)
      (call (Call_cleanup_virtualenv false) ;; sys_exit 1)
  else ret tt.

(** Lines 640-659: the lock file is brought up to date. *)
Definition do_init_relock (no_hashes ignore_pipfile skip_lock : bool)
  : MI unit :=
  (* Write out the lockfile if it doesn't exist, but not if the Pipfile is
     being ignored *)
  present <- in_world lockfile_exists ;;
  (if (present && negb ignore_pipfile) && negb skip_lock then
     (* Open the lockfile. *)
     text <- in_world (read_file (lockfile_location project)) ;;
     lockfile <- lift (loads text) ;;
     (* Update the lockfile if it is out-of-date. *)
     p <- in_world (read_file (pipfile_location project)) ;;
     (* Check that the hash of the Lockfile matches the lockfile's hash. *)
     recorded <- lift (recorded_hash lockfile) ;;
     if negb (eq_str recorded (pipfile_hash p)) then
       in_world (echo_err (crayons Red false
                             "Pipfile.lock out of date, updating...")) ;;
       call (Call_do_lock no_hashes)
     else ret tt
   else ret tt) ;;
  (* Write out the lockfile if it doesn't exist. *)
  present <- in_world lockfile_exists ;;
  if negb present && negb skip_lock then
    in_world (echo_err (crayons Yellow false
                          "Pipfile.lock not found, creating...")) ;;
    call (Call_do_lock no_hashes)
  else ret tt.

(** Lines 661-671: installation and the activation hint. *)
Definition do_init_install
           (dev requirements allow_global ignore_hashes no_hashes skip_lock
            verbose : bool) : MI unit :=
  (* Override default `ignore_hashes` value if `no_hashes` set. *)
  let ignore_hashes := ignore_hashes || no_hashes in
  let ignore_hashes := false in
  call (Call_do_install_dependencies dev requirements allow_global
                                     ignore_hashes skip_lock verbose) ;;
  (* Activate virtualenv instructions. *)
  if negb allow_global then call Call_do_activate_virtualenv else ret tt.

Definition do_init
           (dev requirements allow_global ignore_hashes no_hashes
            ignore_pipfile skip_lock verbose : bool) : MI unit :=
  do_init_prelude requirements ;;
  do_init_relock no_hashes ignore_pipfile skip_lock ;;
  do_init_install dev requirements allow_global ignore_hashes no_hashes
                  skip_lock verbose.

End Init.

(* ===================================================================== *)
(** ** Vocabulary of the statements                                       *)
(* ===================================================================== *)

(** The staleness test in the words of the specification: the lock is stale
    when it is absent, when it records no manifest hash, or when the
    recorded hash differs from the hash of the manifest. *)
Definition is_stale (manifest_hash : string) (lock_hash : option (option string))
  : bool :=
  match lock_hash with
  | None => true
  | Some None => true
  | Some (Some h) => negb (String.eqb h manifest_hash)
  end.

(** The recorded hash as the specification sees it: a string, or nothing. *)
Definition as_hash (recorded : json) : option string :=
  match recorded with
  | JStr h => Some h
  | _ => None
  end.

(** The hash a lock document records, as the specification sees it.  The
    document has a [_meta] mapping whose [hash] entry, when there is one,
    is a mapping; [lock_hash] is the string found under
    [_meta.hash.sha256], or nothing when there is none. *)
Definition records_hash (lockfile : json) (lock_hash : option string) : Prop :=
  exists top meta,
    lockfile = JDict top
    /\ Dict.get "_meta" top = Some (JDict meta)
    /\ match Dict.get "hash" meta with
       | None => lock_hash = None
       | Some (JDict h) =>
           lock_hash = match Dict.get "sha256" h with
                       | Some (JStr x) => Some x
                       | _ => None
                       end
       | Some _ => False
       end.

(** No call of [do_lock] among the calls. *)
Definition no_relock (new : list Call) : Prop :=
  forall no_hashes, ~ In (Call_do_lock no_hashes) new.

(** The command lines of the installer, as they are typed: the program,
    the sub-command, what it is applied to, and the index it is pointed
    at. *)
Definition install_line (pip no_deps what index : string) : string :=
  dquote ++ pip ++ dquote ++ " install " ++ no_deps ++ " " ++ what
  ++ " -i " ++ index ++ " --exists-action w".

Definition download_line (pip package index directory : string) : string :=
  dquote ++ pip ++ dquote ++ " download " ++ dquote ++ package ++ dquote
  ++ " -i " ++ index ++ " -d " ++ directory.

(** A package named on the command line itself. *)
Definition named_inline (package_name : string) : string :=
  if Py.startswith "-e " package_name
  then " -e " ++ dquote ++ Py.item1 (Py.split "-e " package_name) ++ dquote
  else " " ++ dquote ++ package_name ++ dquote.

(** The section text of the specification's parsing example. *)
Definition example_output : string :=
  "alpha (from beta)" ++ nl ++ "Saved ./alpha-1.2.3-py3-none-any.whl" ++ nl.

(** A computation of [do_init] only adds calls satisfying [P] to the list. *)
Definition only_calls (P : Call -> Prop) {A} (m : MI A) : Prop :=
  forall s, exists new,
    calls (snd (m s)) = (calls s ++ new)%list /\ Forall P new.

(** The calls [do_init] may make to [do_install_dependencies]. *)
Definition installs_checking_hashes (c : Call) : Prop :=
  match c with
  | Call_do_install_dependencies _ _ _ ignore_hashes _ _ =>
      ignore_hashes = false
  | _ => True
  end.

(** The calls [do_init] may make to [do_lock]. *)
Definition locks_with (no_hashes : bool) (c : Call) : Prop :=
  match c with
  | Call_do_lock nh => nh = no_hashes
  | _ => True
  end.

(** The fallback policy in the words of the specification.  [cmds] are the
    commands for the sources in declared order, [ran] the commands actually
    run with their results, oldest first, and [c] the result returned: the
    sources are tried in order, once each; every attempt before the last one
    failed; and the last attempt either succeeded or was the attempt on the
    last source. *)
Definition first_success_or_last (cmds : list string)
           (ran : list (string * CmdResult)) (c : CmdResult) : Prop :=
  exists failed cmd,
    ran = (failed ++ [(cmd, c)])%list
    /\ map fst ran = firstn (List.length ran) cmds
    /\ Forall (fun e => return_code (snd e) <> 0) failed
    /\ (return_code c = 0 \/ List.length ran = List.length cmds).

(** Two documents that differ only in the order in which the entries of
    their dictionaries were inserted. *)
Inductive json_equiv : json -> json -> Prop :=
| equiv_null : json_equiv JNull JNull
| equiv_bool b : json_equiv (JBool b) (JBool b)
| equiv_int n : json_equiv (JInt n) (JInt n)
| equiv_str s : json_equiv (JStr s) (JStr s)
| equiv_list l1 l2 :
    Forall2 json_equiv l1 l2 -> json_equiv (JList l1) (JList l2)
| equiv_dict d1 d1' d2 :
    NoDup (Dict.keys d1) ->
    Permutation d1 d1' ->
    Forall2 (fun a b => fst a = fst b /\ json_equiv (snd a) (snd b)) d1' d2 ->
    json_equiv (JDict d1) (JDict d2).

(** The canonical text of a document, in the words of the specification:
    four spaces of indentation for each level of nesting; the items of a
    list or of a dictionary one per line, a comma and nothing else between
    an item and the line break; a colon and one space between a key and its
    value; the entries of a dictionary in the order of their keys, compared
    character by character.  An empty list or dictionary is its two
    brackets. *)
Fixpoint indentation (level : nat) : string :=
  match level with
  | O => ""
  | S k => "    " ++ indentation k
  end.

Definition key_le {A} (a b : string * A) : Prop :=
  fst a = fst b \/ String_as_OT.lt (fst a) (fst b).

Definition block (opening closing : string) (level : nat)
           (items : list string) : string :=
  match items with
  | [] => opening ++ closing
  | _ =>
      opening ++ nl ++ indentation (S level)
      ++ String.concat ("," ++ nl ++ indentation (S level)) items
      ++ nl ++ indentation level ++ closing
  end.

Inductive canonical : nat -> json -> string -> Prop :=
| canonical_null level : canonical level JNull "null"
| canonical_true level : canonical level (JBool true) "true"
| canonical_false level : canonical level (JBool false) "false"
| canonical_int level n : canonical level (JInt n) (Py.str_of_int n)
| canonical_str level s :
    canonical level (JStr s) (dquote ++ Json.escape s ++ dquote)
| canonical_list level l texts :
    Forall2 (canonical (S level)) l texts ->
    canonical level (JList l) (block "[" "]" level texts)
| canonical_dict level d entries texts :
    Permutation d entries ->
    StronglySorted key_le entries ->
    Forall2 (fun kv text => canonical (S level) (snd kv) text) entries texts ->
    canonical level (JDict d)
      (block "{" "}" level
         (map (fun item =>
                 dquote ++ Json.escape (fst (fst item)) ++ dquote
                 ++ ": " ++ snd item)%string
              (combine entries texts))).

(** Entries in the order of their keys. *)
Definition items_le (x y : string * string) : Prop :=
  Json.key_leb (fst x) (fst y) = true.

Section Vocabulary.
Context {E : Env}.

(** The requirement file [pip_install] makes in world [w]. *)
Definition requirement_file (w : World) : string :=
  tmp_dir ++ "pipenv-" ++ tmp_random (files w) (tmp_count w)
  ++ "-requirement.txt".

(** The command [pip_install], called with a package name and no
    requirement file, runs for a source. *)
Definition pip_install_command (package_name : string)
           (allow_global ignore_hashes no_deps : bool) (w : World)
           (source : Source) : string :=
  let r := if ignore_hashes then None else Some (requirement_file w) in
  pip_command (which_pip allow_global)
    (require_hashes (ignore_hashes || negb (Py.contains "--hash" package_name))
                    (install_reqs_of r package_name))
    (url source) no_deps.

(** What the hash test of the loop body does to [ignore_hashes], [text]
    being the text that is searched for [--hash]. *)
Definition skip_hash_checking (text : string) (ignore_hashes : bool) : bool :=
  if negb (Py.contains "--hash" text) then true else ignore_hashes.

(** The text searched for [--hash]: the requirement file when there is
    one, the [install_reqs] string otherwise. *)
Definition hash_text (r : option string) (package_name : string) (w : World)
           (text : string) : Prop :=
  if truthy r then Dict.get (format_opt r) (files w) = Some text
  else text = install_reqs_of r package_name.

(** What [pip_install], called without a requirement file, hands to pip
    in world [w]: the package itself when hashes are ignored, and otherwise
    the requirement file it makes, with [--require-hashes] when the entry
    carries a hash. *)
Definition what_is_installed (package_name : string) (ignore_hashes : bool)
           (w : World) : string :=
  if ignore_hashes then named_inline package_name
  else if Py.contains "--hash" package_name
       then " -r " ++ requirement_file w ++ " --require-hashes"
       else " -r " ++ requirement_file w.

(** The entries of a plan were installed one after the other, each by one
    call of [pip_install] that returned a zero exit code, taking the world
    from [w] to [w']. *)
Inductive installed_in_order (allow_global no_deps verbose : bool)
  : list (string * bool) -> World -> World -> Prop :=
| installed_none w :
    installed_in_order allow_global no_deps verbose [] w w
| installed_next dep ignore_hash rest w c w1 w2 :
    pip_install dep None allow_global ignore_hash no_deps verbose w
    = (Done c, w1) ->
    return_code c = 0 ->
    installed_in_order allow_global no_deps verbose rest w1 w2 ->
    installed_in_order allow_global no_deps verbose
                       ((dep, ignore_hash) :: rest) w w2.

(** The world after the failure of one entry has been reported. *)
Definition report_failure (c : CmdResult) (w : World) : World :=
  mkWorld (files w) (tmp_count w) (commands w)
    (echoed w
     ++ [(Stdout, crayons Red false "An error occured while installing!");
         (Stdout, crayons Blue false (format_pip_output (out c)));
         (Stdout, crayons Blue false (format_pip_error (err c)))]).

(** The entry [do_lock] writes for a resolved package. *)
Definition lock_entry (no_hashes : bool) (dep : Resolved) : json :=
  JDict (("version", JStr ("==" ++ dep_version dep))
         :: (if no_hashes then []
             else match dep_hashes dep with
                  | Some h => [("hashes", h)]
                  | None => []
                  end)).

(** The entry of the last result named [k], if there is one. *)
Fixpoint resolved_entry (no_hashes : bool) (results : list Resolved)
         (k : string) : option json :=
  match results with
  | [] => None
  | dep :: rest =>
      match resolved_entry no_hashes rest k with
      | Some e => Some e
      | None => if String.eqb k (dep_name dep)
                then Some (lock_entry no_hashes dep) else None
      end
  end.

(** Every result carries hashes when hashes are to be written. *)
Definition hashes_present (no_hashes : bool) (results : list Resolved) : Prop :=
  no_hashes = false -> Forall (fun dep => dep_hashes dep <> None) results.

(** The section after all results have been merged into it. *)
Definition merged (no_hashes : bool) (results : list Resolved)
           (d : list (string * json)) : list (string * json) :=
  fold_left (fun acc dep => Dict.set (dep_name dep) (lock_entry no_hashes dep) acc)
            results d.

(** The dictionary [do_lock] dumps, as a function of what the resolver
    returned for the two groups and of the markers returned by the probe. *)
Definition synthesize (no_hashes : bool)
           (dev_results default_results : list Resolved) (markers : json)
  : Outcome json :=
  obind (cleanup_section "default" (_lockfile project)) (fun l =>
  obind (cleanup_section "develop" l) (fun l =>
  obind (add_results "develop" no_hashes dev_results l) (fun l =>
  obind (add_results "default" no_hashes default_results l) (fun l =>
  set_markers l markers)))).

(** The resolver and the marker probe, called where [do_lock] calls them
    when started in [w], return the given results. *)
Definition resolves (no_hashes verbose : bool) (w : World)
           (dev_results default_results : list Resolved) (markers : json)
  : Prop :=
  let w1 := snd (echo_err (locking_message "[dev-packages]") w) in
  let w2 := snd (echo_err (locking_message "[packages]") w1) in
  resolve_deps (convert_deps_to_pip (dev_packages project)) (sources project)
               verbose (negb no_hashes) w1 = Done dev_results
  /\ resolve_deps (convert_deps_to_pip (packages project)) (sources project)
                  false (negb no_hashes) w2 = Done default_results
  /\ loads (out (process w2 pep508_command)) = Done markers.

(** [project._lockfile] has its three sections, and they are dictionaries. *)
Definition shell_is (top d0 v0 m0 : list (string * json)) : Prop :=
  _lockfile project = JDict top
  /\ Dict.get "default" top = Some (JDict d0)
  /\ Dict.get "develop" top = Some (JDict v0)
  /\ Dict.get "_meta" top = Some (JDict m0).

(** The entries of a section that survive the cleanup. *)
Definition kept (d : list (string * json)) : list (string * json) :=
  filter (fun kv => Json.is_dict (snd kv)) d.

Definition synthesized (no_hashes : bool)
           (dev_results default_results : list Resolved) (markers : json)
           (top d0 v0 m0 : list (string * json)) : list (string * json) :=
  Dict.set "_meta" (JDict (Dict.set "host-environment-markers" markers m0))
    (Dict.set "default" (JDict (merged no_hashes default_results (kept d0)))
       (Dict.set "develop" (JDict (merged no_hashes dev_results (kept v0)))
          (Dict.set "develop" (JDict (kept v0))
             (Dict.set "default" (JDict (kept d0)) top)))).

(** The world in which the lock file is opened: two lines were printed and
    the marker probe was run. *)
Definition after_prepare (w : World) : World :=
  let w1 := snd (echo_err (locking_message "[dev-packages]") w) in
  let w2 := snd (echo_err (locking_message "[packages]") w1) in
  snd (delegator_run pep508_command w2).

(** The lock file after the first [k] steps of the write. *)
Definition written (k : nat) (lockfile : json) (before : option string)
  : option string :=
  match k with
  | 0%nat => before
  | 1%nat => Some EmptyString
  | 2%nat => Some (Json.dumps lockfile)
  | _ => Some (Json.dumps lockfile ++ nl)%string
  end.

End Vocabulary.

(** *** Shapes of a run *)

(** A step that leaves the world as it is and does not end the process. *)
Definition pure_step {A} (m : M A) : Prop :=
  forall w, snd (m w) = w /\ forall code, fst (m w) <> Exited code.

(** The world after one more line on standard output. *)
Definition with_line (w : World) (text : string) : World :=
  mkWorld (files w) (tmp_count w) (commands w) (echoed w ++ [(Stdout, text)]).

(** A run that ends either with an exception, the world untouched, or
    with [sys.exit(0)] after exactly one line on standard output. *)
Definition prints_once_and_exits {A} (m : M A) : Prop :=
  forall w,
    (exists e, m w = (Raised e, w))
    \/ (exists text, m w = (Exited 0, with_line w text)).

(** The calls that [do_init] may make for given options. *)
Definition allowed_by_options
           (dev requirements allow_global no_hashes skip_lock verbose : bool)
           (c : Call) : Prop :=
  match c with
  | Call_ensure_pipfile => True
  | Call_do_where bare => requirements = false /\ bare = false
  | Call_do_create_virtualenv => True
  | Call_cleanup_virtualenv bare => bare = false
  | Call_do_lock nh => skip_lock = false /\ nh = no_hashes
  | Call_do_install_dependencies d r g _ sl v =>
      d = dev /\ r = requirements /\ g = allow_global /\ sl = skip_lock
      /\ v = verbose
  | Call_do_activate_virtualenv => allow_global = false
  end.

(* ===================================================================== *)
(** ** [proper_case_section]                                              *)
(* ===================================================================== *)

(** The section of the Pipfile that is being recased, the names passed to
    [project.register_proper_name] so far, and the local variable
    [changed_values]. *)
Record Casing : Type := mkCasing {
  entries : list (string * json);
  registered : list string;
  changed_values : bool
}.

Section ProperCase.

(** [pipenv.utils.proper_case]: the name as the package index spells it;
    [None] stands for the [IOError] raised when the index does not know
    the name. *)
Variable proper_case : string -> option string.

(** [project.proper_names] when [proper_case_section] is called *)
Variable proper_names : list string.

(** [old_value = section[dep]] *)
Definition section_getitem (k : string) : ST Casing json :=
  fun st =>
    match Dict.get k (entries st) with
    | Some v => (Done v, st)
    | None => (Raised (KeyError k), st)
    end.

(** [section[k] = v] *)
Definition section_setitem (k : string) (v : json) : ST Casing unit :=
  fun st =>
    (Done tt,
     mkCasing (Dict.set k v (entries st)) (registered st) (changed_values st)).

(** [del section[k]] *)
Definition section_delitem (k : string) : ST Casing unit :=
  fun st =>
    match Dict.get k (entries st) with
    | Some _ =>
        (Done tt,
         mkCasing (Dict.del k (entries st)) (registered st)
                  (changed_values st))
    | None => (Raised (KeyError k), st)
    end.

(** [project.register_proper_name(name)] *)
Definition register_proper_name (name : string) : ST Casing unit :=
  fun st =>
    (Done tt,
     mkCasing (entries st) (registered st ++ [name]) (changed_values st)).

Definition set_changed_values (b : bool) : ST Casing unit :=
  fun st => (Done tt, mkCasing (entries st) (registered st) b).

(** [[k for k in section.keys() if k not in set(project.proper_names)]] *)
Definition unknown_names (section : list (string * json)) : list string :=
  filter (fun k => negb (existsb (String.eqb k) proper_names))
         (Dict.keys section).

(** The body of [for dep in unknown_names]. *)
Definition recase (dep : string) : ST Casing unit :=
  (* Get new casing for package name. *)
  match proper_case dep with
  | None =>
      (* Unable to normalize package name. *)
      ret tt
  | Some new_casing =>
      if negb (String.eqb new_casing dep) then
        set_changed_values true ;;
        register_proper_name new_casing ;;
        (* Replace old value with new value. *)
        old_value <- section_getitem dep ;;
        section_setitem new_casing old_value ;;
        section_delitem dep
      else ret tt
  end.

Fixpoint recase_each (deps : list string) : ST Casing unit :=
  match deps with
  | [] => ret tt
  | dep :: rest => recase dep ;; recase_each rest
  end.

Definition proper_case_section : ST Casing bool :=
  (* Casing for section *)
  set_changed_values false ;;
  names <- (fun st => (Done (unknown_names (entries st)), st)) ;;
  (* Replace each package with proper casing. *)
  recase_each names ;;
  (* Return whether or not values have been changed. *)
  (fun st => (Done (changed_values st), st)).

(** The name under which the entry of [k] is found after the loop, when
    no two entries end up under the same name. *)
Definition proper_name (k : string) : string :=
  if existsb (String.eqb k) proper_names then k
  else match proper_case k with
       | Some new_casing => new_casing
       | None => k
       end.

(** The names of [deps] that the index spells differently, as the index
    spells them. *)
Definition recased (deps : list string) : list string :=
  map proper_name
      (filter (fun k => negb (String.eqb (proper_name k) k)) deps).

(** The name of the entry of [k] while [deps] are still to be looked at. *)
Definition current_name (deps : list string) (k : string) : string :=
  if existsb (String.eqb k) deps then k else proper_name k.

End ProperCase.

(* ===================================================================== *)
(** ** [do_purge]                                                         *)
(* ===================================================================== *)

(** Packages that should be ignored later. *)
Definition BAD_PACKAGES : list string :=
  ["setuptools"; "pip"; "wheel"; "six"; "packaging"; "pyparsing"; "appdirs"].

(** [s.split()]: the pieces between runs of whitespace, [space] being the
    whitespace; no piece is empty.  [cur] is the piece collected so far. *)
Fixpoint split_whitespace_go (space : ascii -> bool) (cur : string)
         (s : string) : list string :=
  match s with
  | EmptyString =>
      match cur with EmptyString => [] | _ => [cur] end
  | String c t =>
      if space c then
        match cur with
        | EmptyString => split_whitespace_go space EmptyString t
        | _ => cur :: split_whitespace_go space EmptyString t
        end
      else split_whitespace_go space (cur ++ String c EmptyString) t
  end.

Definition split_whitespace (space : ascii -> bool) (s : string)
  : list string :=
  split_whitespace_go space EmptyString s.

(** [del l[i]] for an index within the list *)
Definition del_at {A} (i : nat) (l : list A) : list A :=
  (firstn i l ++ skipn (S i) l)%list.

(** [for i, package in enumerate(installed)] with [del installed[i]] in
    its body: the iterator yields the entry at index [i] of the list as
    it is at that moment, and stops when [i] is past its end.  [fuel]
    bounds the number of rounds; the length of the list is enough. *)
Fixpoint purge_scan (fuel : nat) (package_name : string) (i : nat)
         (installed : list string) : list string :=
  match fuel with
  | O => installed
  | S fuel' =>
      match nth_error installed i with
      | None => installed
      | Some package =>
          if Py.startswith package_name package
          then purge_scan fuel' package_name (S i) (del_at i installed)
          else purge_scan fuel' package_name (S i) installed
      end
  end.

(** [# Remove setuptools and friends from installed, if present.] *)
Definition purge_bad_packages (installed : list string) : list string :=
  fold_left (fun installed package_name =>
               purge_scan (List.length installed) package_name 0 installed)
            BAD_PACKAGES installed.

Section Purge.
Context {E : Env}.

(** [shutil.rmtree(path)] *)
Variable rmtree : string -> M unit.

Definition freeze_command (allow_global : bool) : string :=
  dquote ++ format_opt (which_pip allow_global) ++ dquote ++ " freeze".

Definition uninstall_command (allow_global : bool) (installed : list string)
  : string :=
  dquote ++ format_opt (which_pip allow_global) ++ dquote ++ " uninstall "
  ++ Py.join " " installed ++ " -y".

Definition do_purge (bare downloads allow_global : bool) : M unit :=
  if downloads then
    (if negb bare
     then echo (crayons Yellow false "Clearing out downloads directory...")
     else ret tt) ;;
    rmtree (download_location project)
  else
    freeze <- delegator_run (freeze_command allow_global) ;;
    let installed := split_whitespace is_space (out freeze) in
    (* Remove setuptools and friends from installed, if present. *)
    let installed := purge_bad_packages installed in
    (if negb bare
     then echo ("Found "
                ++ Py.str_of_int (Z.of_nat (List.length installed))
                ++ " installed package(s), purging...")
     else ret tt) ;;
    c <- delegator_run (uninstall_command allow_global installed) ;;
    if negb bare then
      echo (crayons Blue false (out c)) ;;
      echo (crayons Yellow false "Environment now purged and fresh!")
    else ret tt.

End Purge.

(** One pass of the purge as it comes out: an entry that starts with
    [package_name] is dropped, and the entry after it is kept without
    being looked at. *)
Fixpoint purge_pass (package_name : string) (installed : list string)
  : list string :=
  match installed with
  | [] => []
  | package :: rest =>
      if Py.startswith package_name package then
        match rest with
        | [] => []
        | next :: rest' => next :: purge_pass package_name rest'
        end
      else package :: purge_pass package_name rest
  end.

(** An entry of [pip freeze] that starts with none of [BAD_PACKAGES]. *)
Definition wanted (package : string) : bool :=
  forallb (fun package_name => negb (Py.startswith package_name package))
          BAD_PACKAGES.

(** *** Plain text *)

(** A character of 7-bit ASCII that prints, or the newline. *)
Definition plain_char (c : ascii) : bool :=
  let n := nat_of_ascii c in
  (n =? 10)%nat || ((32 <=? n) && (n <=? 126))%nat.

Definition plain (s : string) : bool := forallb plain_char (Py.chars s).

(** *** Path separators *)

(** [c] is [os.sep] or [os.altsep]. *)
Definition is_sep (o : OS) (c : ascii) : bool :=
  Ascii.eqb (os_sep_char o) c
  || match os_altsep o with
     | Some a => Ascii.eqb a c
     | None => false
     end.

(** No character of [s] separates directories. *)
Definition no_sep (o : OS) (s : string) : bool :=
  forallb (fun c => negb (is_sep o c)) (Py.chars s).

(* ===================================================================== *)
(** ** [activate_virtualenv]                                              *)
(* ===================================================================== *)

Section Activate.
Context {E : Env}.

(** [os.environ] *)
Variable environ : list (string * string).

(** [os.environ[k]] *)
Definition environ_getitem (k : string) : Outcome string :=
  match Dict.get k environ with
  | Some v => Done v
  | None => Raised (KeyError k)
  end.

Definition activate_virtualenv (source : bool) : Outcome string :=
  (* Suffix for other shells. *)
  let suffix := EmptyString in
  (* Support for fish shell. *)
  obind (environ_getitem "SHELL") (fun shell =>
  let suffix := if Py.contains "fish" shell then ".fish"%string else suffix in
  (* Support for csh shell. *)
  obind (environ_getitem "SHELL") (fun shell =>
  let suffix := if Py.contains "csh" shell then ".csh"%string else suffix in
  (* Escape any spaces located within the virtualenv path to allow
     for proper activation. *)
  let venv_location :=
    Py.replace " " (backslash ++ " ") (virtualenv_location project) in
  if source
  then Done ("source " ++ venv_location ++ "/bin/activate" ++ suffix)%string
  else Done (venv_location ++ "/bin/activate")%string)).

End Activate.

(* ===================================================================== *)
(** ** A sample project                                                   *)
(* ===================================================================== *)

Module Sample.

Definition pypi : Source :=
  mkSource "pypi" "https://pypi.python.org/simple" true.

Definition mirror : Source :=
  mkSource "mirror" "https://mirror.example/simple" true.

(** The lock skeleton derived from the Pipfile: a requirement given as a
    version string, a VCS requirement and a development requirement. *)
Definition meta : list (string * json) :=
  [("hash", JDict [("sha256", JStr "abc")]); ("requires", JDict [])].

Definition default : list (string * json) :=
  [("requests", JStr "*"); ("legacy", JDict [("git", JStr "https://x/y.git")])].

Definition develop : list (string * json) := [("pytest", JStr ">=3")].

Definition top : list (string * json) :=
  [("_meta", JDict meta); ("default", JDict default); ("develop", JDict develop)].

Definition the_project : Project :=
  mkProject "Pipfile" "Pipfile.lock" (JDict top) (JDict []) (JDict [])
            [mirror; pypi] "/venv" "/downloads" (fun _ => true).

(** The mirror is down, and no index has the package [beta]. *)
Definition the_process (w : World) (cmd : string) : CmdResult :=
  if Py.contains "pep508checker" cmd then mkCmdResult 0 "{}" ""
  else if Py.contains "mirror" cmd then mkCmdResult 2 "" "mirror down"
  else if Py.contains "beta" cmd
       then mkCmdResult 1 "Collecting beta (from -r /tmp/req.txt (line 1))"
                        "No matching distribution"
  else mkCmdResult 0 "ok" "".

(** What the resolver returns, for either group, and what the marker probe
    prints. *)
Definition results : list Resolved :=
  [mkResolved "requests" "2.18.4" None; mkResolved "certifi" "2017.7.27" None].

Definition markers : json := JDict [("os_name", JStr "posix")].

(** The document in a lock file written for an earlier state of the
    Pipfile, whose hash was [abc]. *)
Definition old_lock : json :=
  JDict [("_meta", JDict [("hash", JDict [("sha256", JStr "abc")])]);
         ("default", JDict []);
         ("develop", JDict [])].

(** The names of the temporary files: the number of the call, made longer
    than the name of any file that exists. *)
Fixpoint longest (fs : list (string * string)) : nat :=
  match fs with
  | [] => 0
  | (path, _) :: rest => Nat.max (String.length path) (longest rest)
  end.

Fixpoint padding (n : nat) : string :=
  match n with
  | O => EmptyString
  | S k => String "x" (padding k)
  end.

Definition the_tmp_random (fs : list (string * string)) (n : nat) : string :=
  Py.str_of_int (Z.of_nat n) ++ padding (S (longest fs)).

Definition the_tmp_fresh (dir : string) :
  forall fs n prefix suffix,
    Dict.get (dir ++ prefix ++ the_tmp_random fs n ++ suffix)%string fs = None.
Proof.
  intros fs n prefix suffix.
  assert (Hlen : forall a b, String.length (a ++ b)
                             = (String.length a + String.length b)%nat).
  { intros a b. induction a as [|c a IH]; cbn; [reflexivity | now rewrite IH]. }
  assert (Hpad : forall k, String.length (padding k) = k).
  { intros k. induction k as [|k IH]; cbn; [reflexivity | now rewrite IH]. }
  assert (Hlong : (longest fs
                   < String.length
                       (dir ++ prefix ++ the_tmp_random fs n ++ suffix))%nat).
  { unfold the_tmp_random. rewrite !Hlen, Hpad. lia. }
  revert Hlong.
  generalize (dir ++ prefix ++ the_tmp_random fs n ++ suffix)%string.
  intros path. induction fs as [|[k v] fs IH]; cbn; [reflexivity|].
  intros Hlong. destruct (String.eqb path k) eqn:Hk.
  - apply String.eqb_eq in Hk. subst k. lia.
  - apply IH. lia.
Defined.

#[local] Instance env : Env := {|
  os := Posix;
  project := the_project;
  process := the_process;
  tmp_dir := "/tmp/";
  tmp_random := the_tmp_random;
  tmp_fresh := the_tmp_fresh "/tmp/";
  find_executable := fun _ => Some "/usr/bin/pip";
  crayons := fun _ _ text => text;
  pep423_name := fun name => Py.replace "_" "-" (Py.lower name);
  convert_deps_to_pip := fun _ => [];
  split_vcs := fun j => j;
  shellquote := fun text => text;
  resolve_deps := fun _ _ _ _ _ => Done results;
  pep508checker_file := "pep508checker.pyc";
  json_loads := fun text =>
    if String.eqb text "{}" then Some markers
    else if String.eqb text "LOCK abc" then Some old_lock
    else if String.eqb text "LOCK bare" then Some (JDict [])
    else None;
  pipfile_hash := fun text =>
    if String.eqb text "[packages]" then "abc" else "def";
  is_space := Py.bytes_isspace;
  is_digit := Py.bytes_isdigit;
  unquote := Py.bytes_unquote
|}.

(** [do_lock] and [do_install_dependencies] are the functions modelled
    above; the other callees of [do_init] return at once. *)
#[local] Instance cli : Callees := {|
  callee := fun c =>
    match c with
    | Call_do_lock no_hashes => do_lock no_hashes false
    | Call_do_install_dependencies dev requirements allow_global
                                   ignore_hashes skip_lock verbose =>
        do_install_dependencies dev false false requirements allow_global
                                ignore_hashes skip_lock verbose
    | _ => ret tt
    end
|}.

Definition empty_world : World := mkWorld [] 0 [] [].

(** A world whose lock file records the hash [abc]. *)
Definition locked_world (pipfile : string) : World :=
  mkWorld [("Pipfile", pipfile); ("Pipfile.lock", "LOCK abc")] 0 [] [].

(** The Pipfile was edited after locking: it now hashes to [def]. *)
Definition stale_state : InitState := mkInitState (locked_world "changed") [].

(** The Pipfile still hashes to [abc]. *)
Definition fresh_state : InitState :=
  mkInitState (locked_world "[packages]") [].

(** The lock file holds a document without [_meta]. *)
Definition bare_state : InitState :=
  mkInitState (mkWorld [("Pipfile", "changed"); ("Pipfile.lock", "LOCK bare")]
                       0 [] []) [].

(** The document [do_lock] dumps for the sample project. *)
Definition lock : json :=
  JDict (@synthesized true results results markers top default develop meta).

End Sample.

(** The sample project without any configured source and without a
    virtualenv. *)
Module Offline.

Definition the_project : Project :=
  mkProject "Pipfile" "Pipfile.lock" (JDict Sample.top) (JDict []) (JDict [])
            [] "/venv" "/downloads" (fun _ => false).

#[local] Instance env : Env := {|
  os := Posix;
  project := the_project;
  process := Sample.the_process;
  tmp_dir := "/tmp/";
  tmp_random := Sample.the_tmp_random;
  tmp_fresh := Sample.the_tmp_fresh "/tmp/";
  find_executable := fun _ => None;
  crayons := fun _ _ text => text;
  pep423_name := fun name => Py.lower name;
  convert_deps_to_pip := fun _ => [];
  split_vcs := fun j => j;
  shellquote := fun text => text;
  resolve_deps := fun _ _ _ _ _ => Raised (IOError "network");
  pep508checker_file := "pep508checker.py";
  json_loads := fun _ => None;
  pipfile_hash := fun _ => "def";
  is_space := Py.bytes_isspace;
  is_digit := Py.bytes_isdigit;
  unquote := Py.bytes_unquote
|}.

End Offline.

(** The sample project when Ctrl-C is pressed while the virtualenv is
    being created. *)
Module Interrupted.

#[local] Instance cli : Callees := {|
  callee := fun c =>
    match c with
    | Call_do_create_virtualenv => raise KeyboardInterrupt
    | _ => ret tt
    end
|}.

End Interrupted.

(** A project with three packages whose resolver returns hashes when asked
    to, and whose index lacks the package [beta]. *)
Module Hashed.

Definition shell : list (string * json) :=
  [("_meta", JDict [("hash", JDict [("sha256", JStr "abc")])]);
   ("default", JDict [("alpha", JStr "*"); ("beta", JStr "*");
                      ("gamma", JStr "*")]);
   ("develop", JDict [])].

Definition the_project : Project :=
  mkProject "Pipfile" "Pipfile.lock" (JDict shell)
            (JDict [("alpha", JStr "*"); ("beta", JStr "*");
                    ("gamma", JStr "*")])
            (JDict [])
            [Sample.pypi] "/venv" "/downloads" (fun _ => true).

(** [convert_deps_to_pip]: the name, the version unless it is [*], and one
    [--hash] option for each recorded hash. *)
Definition hash_options (d : list (string * json)) : string :=
  (match Dict.get "hashes" d with
   | Some (JList hs) =>
       String.concat ""
         (map (fun h => match h with
                        | JStr x => " --hash=" ++ x
                        | _ => ""
                        end) hs)
   | _ => ""
   end
   ++ match Dict.get "hash" d with
      | Some (JStr x) => " --hash=" ++ x
      | _ => ""
      end)%string.

Definition requirement (kv : string * json) : string :=
  match snd kv with
  | JStr v => (fst kv ++ (if String.eqb v "*" then "" else v))%string
  | JDict d =>
      (fst kv
       ++ match Dict.get "version" d with
          | Some (JStr v) => v
          | _ => ""
          end
       ++ hash_options d)%string
  | _ => fst kv
  end.

Definition the_convert_deps_to_pip (deps : json) : list string :=
  match deps with
  | JDict d => map requirement d
  | _ => []
  end.

(** The resolver pins every requirement at 1.0. *)
Definition the_resolve_deps (deps : list string) (hashes : bool)
  : list Resolved :=
  map (fun d => mkResolved d "1.0"
                  (if hashes then Some (JList [JStr ("sha256:" ++ d)])
                   else None)) deps.

(** The lock document of the project, with and without hashes, as
    [json.load] returns it. *)
Definition entry (no_hashes : bool) (name : string) : string * json :=
  (name,
   JDict ((if no_hashes then []
           else [("hashes", JList [JStr ("sha256:" ++ name)])])
          ++ [("version", JStr "==1.0")])).

Definition lock (no_hashes : bool) : json :=
  JDict [("_meta", JDict [("hash", JDict [("sha256", JStr "abc")]);
                          ("host-environment-markers", JDict [])]);
         ("default", JDict (map (entry no_hashes) ["alpha"; "beta"; "gamma"]));
         ("develop", JDict [])].

Definition lock_text (no_hashes : bool) : string :=
  Json.dumps (lock no_hashes) ++ nl.

Definition the_json_loads (text : string) : option json :=
  if String.eqb text "{}" then Some (JDict [])
  else if String.eqb text (lock_text false) then Some (lock false)
  else if String.eqb text (lock_text true) then Some (lock true)
  else None.

(** pip is asked for [name] when the name is on the command line or in a
    file that the command line names. *)
Definition asks_for (name : string) (w : World) (cmd : string) : bool :=
  Py.contains name cmd
  || existsb (fun kv => Py.contains (fst kv) cmd && Py.contains name (snd kv))
             (files w).

Definition the_process (w : World) (cmd : string) : CmdResult :=
  if Py.contains "pep508checker" cmd then mkCmdResult 0 "{}" ""
  else if asks_for "beta" w cmd
       then mkCmdResult 1 "Collecting beta==1.0 (from -r req.txt (line 1))"
                        "No matching distribution found for beta==1.0"
  else mkCmdResult 0 "Successfully installed" "".

#[local] Instance env : Env := {|
  os := Posix;
  project := the_project;
  process := the_process;
  tmp_dir := "/tmp/";
  tmp_random := Sample.the_tmp_random;
  tmp_fresh := Sample.the_tmp_fresh "/tmp/";
  find_executable := fun _ => Some "/usr/bin/pip";
  crayons := fun _ _ text => text;
  pep423_name := fun name => Py.replace "_" "-" (Py.lower name);
  convert_deps_to_pip := the_convert_deps_to_pip;
  split_vcs := fun j => j;
  shellquote := fun text => text;
  resolve_deps := fun deps _ _ hashes _ => Done (the_resolve_deps deps hashes);
  pep508checker_file := "pep508checker.pyc";
  json_loads := the_json_loads;
  pipfile_hash := fun _ => "abc";
  is_space := Py.bytes_isspace;
  is_digit := Py.bytes_isdigit;
  unquote := Py.bytes_unquote
|}.

(** [do_lock] and [do_install_dependencies] are the functions modelled
    above; the other callees of [do_init] return at once. *)
#[local] Instance cli : Callees := {|
  callee := fun c =>
    match c with
    | Call_do_lock no_hashes => do_lock no_hashes false
    | Call_do_install_dependencies dev requirements allow_global
                                   ignore_hashes skip_lock verbose =>
        do_install_dependencies dev false false requirements allow_global
                                ignore_hashes skip_lock verbose
    | _ => ret tt
    end
|}.

(** A Pipfile, and no lock file yet. *)
Definition unlocked : InitState :=
  mkInitState (mkWorld [("Pipfile", "[packages]")] 0 [] []) [].

(** The project after [pipenv lock]. *)
Definition locked_world (no_hashes : bool) : World :=
  mkWorld [("Pipfile", "[packages]"); ("Pipfile.lock", lock_text no_hashes)]
          0 [] [].

End Hashed.

(* ===================================================================== *)
(** ** Facts about the string primitives                                  *)
(* ===================================================================== *)

Lemma append_nil_r (s : string) : (s ++ "")%string = s.
Proof. induction s as [|c s IH]; simpl; [reflexivity | now rewrite IH]. Qed.

Lemma append_assoc (a b c : string) :
  ((a ++ b) ++ c)%string = (a ++ (b ++ c))%string.
Proof. induction a as [|x a IH]; simpl; [reflexivity | now rewrite IH]. Qed.

Lemma prefix_nil (s : string) : String.prefix "" s = true.
Proof. destruct s; reflexivity. Qed.

(** Whether a string starts with a given character. *)
Lemma prefix_char (c d : ascii) (s : string) :
  String.prefix (String c "") (String d s) = Ascii.eqb c d.
Proof.
  simpl. destruct (ascii_dec c d) as [->|Hne].
  - now rewrite prefix_nil, Ascii.eqb_refl.
  - symmetry. now apply Ascii.eqb_neq.
Qed.

Section DashSplit.

(** A piece without dash is passed over by [split]. *)
Lemma split_go_no_dash (a cur rest : string) :
  Py.contains "-" a = false ->
  Py.split_go "-" 0 cur (a ++ rest) = Py.split_go "-" 0 (cur ++ a) rest.
Proof.
  revert cur. induction a as [|c a IH]; intros cur Ha.
  - now rewrite append_nil_r.
  - cbn [Py.contains] in Ha. apply orb_false_iff in Ha as [Hc Ha].
    rewrite prefix_char in Hc.
    change (String c a ++ rest)%string with (String c (a ++ rest)).
    cbn [Py.split_go]. rewrite prefix_char, Hc.
    rewrite IH by assumption. now rewrite append_assoc.
Qed.

Lemma split_go_dash (cur rest : string) :
  Py.split_go "-" 0 cur ("-" ++ rest) = cur :: Py.split_go "-" 0 "" rest.
Proof.
  change ("-" ++ rest)%string with (String "-" rest).
  cbn [Py.split_go]. now rewrite prefix_char.
Qed.

Lemma split_no_dash (a : string) :
  Py.contains "-" a = false -> Py.split "-" a = [a].
Proof.
  intros Ha. unfold Py.split.
  rewrite <- (append_nil_r a) at 1.
  now rewrite split_go_no_dash.
Qed.

Lemma split_at_dash (a rest : string) :
  Py.contains "-" a = false ->
  Py.split "-" (a ++ "-" ++ rest) = a :: Py.split "-" rest.
Proof.
  intros Ha. unfold Py.split.
  rewrite split_go_no_dash by assumption.
  now rewrite split_go_dash.
Qed.

Lemma contains_app_dash (a rest : string) :
  Py.contains "-" (a ++ "-" ++ rest) = true.
Proof.
  induction a as [|c a IH].
  - change ("" ++ "-" ++ rest)%string with (String "-" rest).
    cbn [Py.contains]. now rewrite prefix_char.
  - change (String c a ++ "-" ++ rest)%string
      with (String c (a ++ "-" ++ rest)).
    cbn [Py.contains]. rewrite IH. apply orb_true_r.
Qed.

End DashSplit.

(* ===================================================================== *)
(** ** Version extraction and output parsing                              *)
(* ===================================================================== *)

Section Parsing.
Context {E : Env}.

Lemma ignore_post_release_no_dash (version : string) :
  Py.contains "-" version = false -> ignore_post_release version = version.
Proof. intros H. unfold ignore_post_release. now rewrite H. Qed.

Lemma ignore_post_release_dash (a seg rest : string) :
  Py.contains "-" a = false ->
  Py.contains "-" seg = false ->
  rest = EmptyString \/ String.prefix "-" rest = true ->
  ignore_post_release (a ++ "-" ++ seg ++ rest) =
    if isdigit seg then a else (a ++ "-" ++ seg ++ rest)%string.
Proof.
  intros Ha Hseg Hrest. unfold ignore_post_release.
  rewrite contains_app_dash, split_at_dash by assumption.
  assert (Hitem : Py.item1 (a :: Py.split "-" (seg ++ rest)) = seg).
  { destruct Hrest as [->|Hp].
    - rewrite append_nil_r, split_no_dash by assumption. reflexivity.
    - destruct rest as [|c rest']; [discriminate|].
      rewrite prefix_char in Hp. apply Ascii.eqb_eq in Hp. subst c.
      change (String "-" rest') with ("-" ++ rest')%string.
      rewrite split_at_dash by assumption. reflexivity. }
  rewrite Hitem. cbn [andb]. destruct (isdigit seg); reflexivity.
Qed.

(** C8, as the code has it.  A wheel name yields its version; a dotted
    [.postN] segment is kept, because only a dash marks an implicit post
    release; and in general the version that is left after the suffixes
    and the name have been taken off is returned as it is when it holds no
    dash, and is cut at its first dash exactly when the text between that
    dash and the next one (or the end) is not empty and [str.isdigit] holds
    of it. *)
Theorem parse_download_fname_version :
  parse_download_fname "alpha-1.2.3-py3-none-any.whl" "alpha" = "1.2.3"
  /\ parse_download_fname "alpha-1.2.3.post1.tar.gz" "alpha" = "1.2.3.post1"
  /\ (forall fname name,
        Py.contains "-" (fname_version fname name) = false ->
        parse_download_fname fname name = fname_version fname name)
  /\ (forall fname name a seg rest,
        fname_version fname name = (a ++ "-" ++ seg ++ rest)%string ->
        Py.contains "-" a = false ->
        Py.contains "-" seg = false ->
        rest = EmptyString \/ String.prefix "-" rest = true ->
        parse_download_fname fname name
        = if match seg with
             | EmptyString => false
             | _ => forallb is_digit (Py.chars seg)
             end
          then a else (a ++ "-" ++ seg ++ rest)%string).
Proof.
  split; [|split; [|split]].
  - unfold parse_download_fname, fname_version, splitext.
    destruct os; reflexivity.
  - unfold parse_download_fname, fname_version, splitext.
    destruct os; reflexivity.
  - intros fname name Hno. unfold parse_download_fname.
    now apply ignore_post_release_no_dash.
  - intros fname name a seg rest Hversion Ha Hseg Hrest.
    unfold parse_download_fname. rewrite Hversion.
    now apply ignore_post_release_dash.
Qed.

End Parsing.

(** C8, witness: for the sample project, whose digits are [0] to [9], the
    version [1.2.3-1] of a source archive is cut at its dash, the version
    [1.2.3-rc1] is not, and [1.2.3.post1] is returned as it is. *)
Lemma parse_download_fname_version_witness :
  @parse_download_fname Sample.env "alpha-1.2.3-1.tar.gz" "alpha" = "1.2.3"
  /\ @parse_download_fname Sample.env "alpha-1.2.3-rc1.tar.gz" "alpha"
     = "1.2.3-rc1"
  /\ @parse_download_fname Sample.env "alpha-1.2.3.post1.tar.gz" "alpha"
     = "1.2.3.post1".
Proof.
  destruct (@parse_download_fname_version Sample.env)
    as (_ & _ & Hno & Hdash).
  split; [|split].
  - apply (Hdash "alpha-1.2.3-1.tar.gz" "alpha" "1.2.3" "1" "")%string;
      [reflexivity | reflexivity | reflexivity | now left].
  - apply (Hdash "alpha-1.2.3-rc1.tar.gz" "alpha" "1.2.3" "rc1" "")%string;
      [reflexivity | reflexivity | reflexivity | now left].
  - apply (Hno "alpha-1.2.3.post1.tar.gz" "alpha")%string. reflexivity.
Defined.

(** C8, as the claim states it, fails: the [.post1] segment is not dropped. *)
Lemma parse_download_fname_keeps_dotted_post :
  @parse_download_fname Sample.env "alpha-1.2.3.post1.tar.gz" "alpha" <> "1.2.3".
Proof. vm_compute. discriminate. Qed.

Section OutputParsing.
Context {E : Env}.

Lemma scan_lines_unmatched names name lines :
  (forall line, In line lines -> parse_saved line = None) ->
  scan_lines names name lines = names.
Proof.
  induction lines as [|line rest IH]; intros Hnone; [reflexivity|].
  cbn [scan_lines]. rewrite (Hnone line) by (left; reflexivity).
  apply IH. intros l Hl. apply Hnone. now right.
Qed.

Lemma parse_section_unmatched names section :
  (forall line, In line (Py.split nl section) -> parse_saved line = None) ->
  parse_section names section = names.
Proof. intros H. unfold parse_section. now apply scan_lines_unmatched. Qed.

Lemma fold_parse_section_unmatched sections names :
  (forall section, In section sections ->
     forall line, In line (Py.split nl section) -> parse_saved line = None) ->
  fold_left parse_section sections names = names.
Proof.
  revert names. induction sections as [|sec rest IH]; intros names H.
  - reflexivity.
  - cbn [fold_left]. rewrite parse_section_unmatched.
    + apply IH. intros s Hs. apply H. now right.
    + apply H. now left.
Qed.

(** *** [strip] on texts whose ends are known *)

Lemma lstrip_keep (c : ascii) (s : string) :
  is_space c = false ->
  Py.lstrip_by is_space (String c s) = String c s.
Proof. intros Hc. cbn [Py.lstrip_by]. now rewrite Hc. Qed.

Lemma rstrip_keep (s : string) (c : ascii) :
  is_space c = false ->
  Py.rstrip_by is_space (s ++ String c "") = (s ++ String c "")%string.
Proof.
  intros Hc. induction s as [|d s IH].
  - cbn. now rewrite Hc.
  - change (String d s ++ String c "")%string
      with (String d (s ++ String c "")).
    cbn [Py.rstrip_by]. rewrite IH.
    destruct (s ++ String c "")%string eqn:Hs; [|reflexivity].
    destruct s; discriminate.
Qed.

Lemma rstrip_drop (s : string) (c d : ascii) :
  is_space c = false -> is_space d = true ->
  Py.rstrip_by is_space (s ++ String c (String d ""))
  = (s ++ String c "")%string.
Proof.
  intros Hc Hd. induction s as [|e s IH].
  - cbn. now rewrite Hd, Hc.
  - change (String e s ++ String c (String d ""))%string
      with (String e (s ++ String c (String d ""))).
    cbn [Py.rstrip_by]. rewrite IH.
    change (String e s ++ String c "")%string
      with (String e (s ++ String c "")).
    destruct (s ++ String c "")%string eqn:Hs; [|reflexivity].
    destruct s; discriminate.
Qed.

(** The pair found in the example of the specification. *)
Lemma example_output_pairs :
  pep423_name "alpha" = "alpha"%string ->
  is_space " " = true ->
  (forall c, (33 <= nat_of_ascii c <= 126)%nat -> is_space c = false) ->
  unquote "alpha-1.2.3-py3-none-any.whl" = "alpha-1.2.3-py3-none-any.whl"%string ->
  parse_install_output example_output
  = [("alpha-1.2.3-py3-none-any.whl"%string, "alpha"%string)].
Proof.
  intros Hname Hspace Hprint Hunquote.
  assert (Hletter : forall c, (33 <=? nat_of_ascii c)%nat
                              && (nat_of_ascii c <=? 126)%nat = true ->
                              is_space c = false).
  { intros c Hc. apply andb_true_iff in Hc as [H1 H2].
    apply Nat.leb_le in H1, H2. apply Hprint. lia. }
  unfold parse_install_output.
  change (Py.split "Collecting " example_output) with [example_output].
  cbn [fold_left]. unfold parse_section.
  change (Py.split nl example_output)
    with ["alpha (from beta)"%string;
          "Saved ./alpha-1.2.3-py3-none-any.whl"%string; ""%string].
  change (Py.item0 (Py.split ";" (Py.item0 (Py.split "("
            (Py.item0 ["alpha (from beta)"%string;
                       "Saved ./alpha-1.2.3-py3-none-any.whl"%string;
                       ""%string])))))
    with "alpha "%string.
  assert (Hstrip_name : strip "alpha " = "alpha"%string).
  { unfold strip, Py.strip_by.
    rewrite lstrip_keep by (now apply Hletter).
    apply (rstrip_drop "alph" "a" " "); [now apply Hletter | exact Hspace]. }
  assert (Hstrip1 : strip "alpha (from beta)" = "alpha (from beta)"%string).
  { unfold strip, Py.strip_by.
    rewrite lstrip_keep by (now apply Hletter).
    apply (rstrip_keep "alpha (from beta" ")"). now apply Hletter. }
  assert (Hstrip2 : strip "Saved ./alpha-1.2.3-py3-none-any.whl"
                    = "Saved ./alpha-1.2.3-py3-none-any.whl"%string).
  { unfold strip, Py.strip_by.
    rewrite lstrip_keep by (now apply Hletter).
    apply (rstrip_keep "Saved ./alpha-1.2.3-py3-none-any.wh" "l").
    now apply Hletter. }
  rewrite Hstrip_name, Hname.
  cbn [scan_lines]. unfold parse_saved. rewrite Hstrip1, Hstrip2.
  change (parse_field "Saved " "alpha (from beta)") with (@None string).
  change (parse_field "Using cached " "alpha (from beta)") with (@None string).
  change (parse_field "Saved " "Saved ./alpha-1.2.3-py3-none-any.whl")
    with (Some "./alpha-1.2.3-py3-none-any.whl"%string).
  cbv iota. unfold saved_fname.
  assert (Hfname :
            (let fname := Py.item_last
                            (Py.split (os_sep os)
                                      "./alpha-1.2.3-py3-none-any.whl") in
             if Py.startswith "./" fname then Py.drop 2 fname else fname)
            = "alpha-1.2.3-py3-none-any.whl"%string)
    by (destruct os; reflexivity).
  cbv zeta in Hfname. cbv zeta. rewrite Hfname, Hunquote. reflexivity.
Qed.

End OutputParsing.

(** C9, as the code has it.  On the example text the parser returns
    exactly one pair, the file name first: the file name
    [alpha-1.2.3-py3-none-any.whl], its leading [./] removed, and the
    declared name [alpha], its parenthetical note removed and normalised by
    [pep423_name].  The example needs of the interpreter only that the
    space is whitespace and no other printing ASCII character is, and of
    [unquote] that it keeps that file name.  A section in which no line,
    once stripped, reads [Saved <file>] or [Using cached <file>] leaves the
    list of pairs as it was, and the parser, a total function, returns the
    empty list when no section has such a line. *)
Theorem parse_install_output_pairs (E : Env) :
  (pep423_name "alpha" = "alpha"%string ->
   is_space " " = true ->
   (forall c, (33 <= nat_of_ascii c <= 126)%nat -> is_space c = false) ->
   unquote "alpha-1.2.3-py3-none-any.whl"
   = "alpha-1.2.3-py3-none-any.whl"%string ->
   parse_install_output example_output
   = [("alpha-1.2.3-py3-none-any.whl"%string, "alpha"%string)])
  /\ (forall names section,
        (forall line, In line (Py.split nl section) ->
           parse_field "Saved " (Py.strip_by is_space line) = None
           /\ parse_field "Using cached " (Py.strip_by is_space line) = None) ->
        parse_section names section = names)
  /\ (forall output,
        (forall section, In section (Py.split "Collecting " output) ->
           forall line, In line (Py.split nl section) ->
             parse_field "Saved " (Py.strip_by is_space line) = None
             /\ parse_field "Using cached " (Py.strip_by is_space line)
                = None) ->
        parse_install_output output = []).
Proof.
  assert (Hnone : forall line,
             parse_field "Saved " (Py.strip_by is_space line) = None
             /\ parse_field "Using cached " (Py.strip_by is_space line) = None ->
             parse_saved line = None).
  { intros line [Hsaved Hcached]. unfold parse_saved, strip.
    now rewrite Hsaved. }
  split; [|split].
  - apply example_output_pairs.
  - intros names section H. apply parse_section_unmatched.
    intros line Hin. now apply Hnone, H.
  - intros output H. unfold parse_install_output.
    apply fold_parse_section_unmatched.
    intros section Hsec line Hin. now apply Hnone, (H section).
Qed.

(** C9, witness: the sample project, whose [pep423_name] lower-cases and
    turns underscores into dashes, with the whitespace and [unquote] of
    byte strings. *)
Lemma parse_install_output_pairs_witness :
  @parse_install_output Sample.env example_output
    = [("alpha-1.2.3-py3-none-any.whl"%string, "alpha"%string)]
  /\ @parse_section Sample.env [("x.whl"%string, "x"%string)]
                    ("beta" ++ nl ++ "  Downloading beta.tar.gz")
     = [("x.whl"%string, "x"%string)].
Proof.
  destruct (parse_install_output_pairs Sample.env) as (Hex & Hsec & _).
  split.
  - apply Hex; try reflexivity.
    intros c Hc. unfold is_space, Sample.env, Py.bytes_isspace.
    apply orb_false_iff. split.
    + apply andb_false_iff. right. apply Nat.leb_gt. lia.
    + apply Nat.eqb_neq. lia.
  - apply Hsec. intros line Hin.
    vm_compute in Hin.
    destruct Hin as [<-|[<-|[]]]; split; reflexivity.
Defined.

(** C9, as the claim states it, fails: the pair is not (declared name, file
    name); the file name comes first. *)
Lemma parse_install_output_pair_is_file_first :
  @parse_install_output Sample.env example_output
  <> [("alpha"%string, "alpha-1.2.3-py3-none-any.whl"%string)].
Proof. vm_compute. discriminate. Qed.

(* ===================================================================== *)
(** ** [do_init]: re-locking and the installation call                    *)
(* ===================================================================== *)

Lemma eq_str_is_stale (recorded : json) (h : string) :
  negb (eq_str recorded h) = is_stale h (Some (as_hash recorded)).
Proof. destruct recorded; reflexivity. Qed.

(** *** Evaluation of monadic code *)

Lemma bind_eval {S A B} (m : ST S A) (k : A -> ST S B) (s : S) :
  bind m k s = match m s with
               | (Done a, s') => k a s'
               | (Exited c, s') => (Exited c, s')
               | (Raised e, s') => (Raised e, s')
               end.
Proof. reflexivity. Qed.

Lemma bind_assoc {S A B D} (m : ST S A) (f : A -> ST S B) (g : B -> ST S D)
      (s : S) :
  bind (bind m f) g s = bind m (fun a => bind (f a) g) s.
Proof. unfold bind. destruct (m s) as [[a|c|e] s']; reflexivity. Qed.

Section InitFacts.
Context {E : Env} {C : Callees}.

Lemma in_world_eval {A} (m : M A) (w : World) (log : list Call) :
  in_world m (mkInitState w log) = (fst (m w), mkInitState (snd (m w)) log).
Proof. unfold in_world. cbn. destruct (m w); reflexivity. Qed.

Lemma call_eval (c : Call) (w : World) (log : list Call) :
  call c (mkInitState w log)
  = (fst (callee c w), mkInitState (snd (callee c w)) (log ++ [c])).
Proof. unfold call. cbn. destruct (callee c w); reflexivity. Qed.

Section OnlyCalls.
Variable P : Call -> Prop.

Lemma only_calls_silent {A} (m : MI A) :
  (forall s, calls (snd (m s)) = calls s) -> only_calls P m.
Proof.
  intros H s. exists []. rewrite app_nil_r. split; [apply H | constructor].
Qed.

Lemma only_calls_ret {A} (a : A) : only_calls P (ret a).
Proof. now apply only_calls_silent. Qed.

Lemma only_calls_exit {A} (code : Z) : only_calls P (@sys_exit _ A code).
Proof. now apply only_calls_silent. Qed.

Lemma only_calls_lift {A} (o : Outcome A) : only_calls P (lift o).
Proof. now apply only_calls_silent. Qed.

Lemma only_calls_in_world {A} (m : M A) : only_calls P (in_world m).
Proof.
  apply only_calls_silent. intros [w log]. now rewrite in_world_eval.
Qed.

Lemma only_calls_call (c : Call) : P c -> only_calls P (call c).
Proof.
  intros Hc [w log]. exists [c]. rewrite call_eval.
  split; [reflexivity | now constructor].
Qed.

Lemma only_calls_bind {A B} (m : MI A) (k : A -> MI B) :
  only_calls P m -> (forall a, only_calls P (k a)) ->
  only_calls P (bind m k).
Proof.
  intros Hm Hk s. rewrite bind_eval.
  destruct (Hm s) as (new1 & H1 & HP1).
  destruct (m s) as [[a|c|e] s1]; cbn [snd] in *;
    try (exists new1; now split).
  destruct (Hk a s1) as (new2 & H2 & HP2).
  exists (new1 ++ new2)%list. rewrite H2, H1, app_assoc.
  split; [reflexivity | now apply Forall_app].
Qed.

Lemma only_calls_except {A} (body handler : MI A) :
  only_calls P body -> only_calls P handler ->
  only_calls P (except_KeyboardInterrupt body handler).
Proof.
  intros Hb Hh s. unfold except_KeyboardInterrupt.
  destruct (Hb s) as (new1 & H1 & HP1).
  destruct (body s) as [[a|c|e] s1]; cbn [snd] in *;
    try (exists new1; now split).
  destruct e; try (exists new1; now split).
  destruct (Hh s1) as (new2 & H2 & HP2).
  exists (new1 ++ new2)%list. rewrite H2, H1, app_assoc.
  split; [reflexivity | now apply Forall_app].
Qed.

End OnlyCalls.

(** The checks of this section go through [do_init] one statement at a
    time. *)
Ltac only_calls_steps :=
  repeat first
    [ apply only_calls_bind; [|intros ?]
    | apply only_calls_call; exact I
    | apply only_calls_call; reflexivity
    | apply only_calls_call; intros ?; discriminate
    | apply only_calls_ret
    | apply only_calls_exit
    | apply only_calls_lift
    | apply only_calls_in_world
    | apply only_calls_except
    | match goal with
      | |- only_calls _ (if ?b then _ else _) => destruct b
      end ].

Lemma records_hash_recorded lockfile lock_hash :
  records_hash lockfile lock_hash ->
  exists recorded,
    recorded_hash lockfile = Done recorded /\ as_hash recorded = lock_hash.
Proof.
  intros (top & meta & -> & Hmeta & Hhash).
  unfold recorded_hash. cbn [Json.getitem]. rewrite Hmeta.
  cbn [obind Json.get].
  destruct (Dict.get "hash" meta) as [h|]; cbn [obind].
  - destruct h as [| | | | |h]; try contradiction.
    cbn [Json.get]. subst lock_hash.
    destruct (Dict.get "sha256" h) as [x|];
      eexists; (split; [reflexivity|]); [destruct x|]; reflexivity.
  - cbn [Json.get Dict.get]. eexists. split; [reflexivity|]. now subst.
Qed.

(** The lock file is absent: one call of [do_lock]. *)
Lemma do_init_relock_absent no_hashes ignore_pipfile s :
  Dict.get (lockfile_location project) (files (world s)) = None ->
  calls (snd (do_init_relock no_hashes ignore_pipfile false s))
  = (calls s ++ [Call_do_lock no_hashes])%list.
Proof.
  intros Habsent. destruct s as [w log]. cbn [world calls] in *.
  unfold do_init_relock.
  rewrite bind_eval, in_world_eval. unfold lockfile_exists, isfile.
  cbn [fst snd]. rewrite Habsent. cbn [andb negb].
  rewrite bind_eval. unfold ret at 1. cbv beta iota.
  rewrite bind_eval, in_world_eval. cbn [fst snd]. rewrite Habsent.
  cbn [andb negb].
  rewrite bind_eval, in_world_eval. cbn [fst snd echo_err echo_to].
  rewrite call_eval. reflexivity.
Qed.

(** Under [skip_lock], and under [ignore_pipfile] when there is a lock
    file, the stage does nothing. *)
Lemma do_init_relock_guarded no_hashes ignore_pipfile skip_lock s :
  skip_lock = true
  \/ (ignore_pipfile = true
      /\ Dict.get (lockfile_location project) (files (world s)) <> None) ->
  do_init_relock no_hashes ignore_pipfile skip_lock s = (Done tt, s).
Proof.
  intros Hguard. destruct s as [w log]. cbn [world calls] in *.
  unfold do_init_relock.
  rewrite bind_eval, in_world_eval. unfold lockfile_exists, isfile.
  cbn [fst snd].
  destruct Hguard as [-> | [-> Hpresent]].
  - rewrite andb_false_r. rewrite bind_eval. unfold ret at 1. cbv beta iota.
    rewrite bind_eval, in_world_eval. cbn [fst snd].
    now rewrite andb_false_r.
  - destruct (Dict.get (lockfile_location project) (files w)) as [text|]
      eqn:Htext; [|contradiction].
    cbn [andb negb]. rewrite bind_eval. unfold ret at 1. cbv beta iota.
    rewrite bind_eval, in_world_eval. cbn [fst snd]. now rewrite Htext.
Qed.

(** The lock file is there and is compared with the Pipfile. *)
Lemma do_init_relock_compared no_hashes s text lockfile p lock_hash :
  Dict.get (lockfile_location project) (files (world s)) = Some text ->
  json_loads text = Some lockfile ->
  Dict.get (pipfile_location project) (files (world s)) = Some p ->
  records_hash lockfile lock_hash ->
  (is_stale (pipfile_hash p) (Some lock_hash) = true ->
   exists rest,
     calls (snd (do_init_relock no_hashes false false s))
     = (calls s ++ Call_do_lock no_hashes :: rest)%list)
  /\ (is_stale (pipfile_hash p) (Some lock_hash) = false ->
      do_init_relock no_hashes false false s = (Done tt, s)).
Proof.
  intros Htext Hloads Hp Hrecords.
  destruct (records_hash_recorded _ _ Hrecords) as (recorded & Hrec & <-).
  rewrite <- eq_str_is_stale.
  destruct s as [w log]. cbn [world calls] in *.
  split; intros Hstale; apply (f_equal negb) in Hstale;
    rewrite negb_involutive in Hstale; cbn [negb] in Hstale;
    unfold do_init_relock;
    rewrite bind_eval, in_world_eval; unfold lockfile_exists, isfile;
    cbn [fst snd]; rewrite Htext; cbn [andb negb];
    rewrite !bind_eval, !in_world_eval; unfold read_file; rewrite Htext;
    cbn [fst snd]; unfold lift, loads; rewrite Hloads;
    rewrite !bind_eval, !in_world_eval; rewrite Hp; cbn [fst snd];
    rewrite Hrec, bind_eval; cbv beta iota; rewrite Hstale; cbn [negb].
  - rewrite bind_eval, in_world_eval. cbn [fst snd echo_err echo_to].
    rewrite call_eval.
    destruct (callee (Call_do_lock no_hashes) _) as [[[]|code|e] w'];
      cbn [fst snd]; try (exists []; reflexivity).
    rewrite bind_eval, in_world_eval. cbn [fst snd].
    destruct (Dict.get (lockfile_location project) (files w'));
      cbn [negb andb].
    + exists []. reflexivity.
    + rewrite bind_eval, in_world_eval. cbn [fst snd echo_err echo_to].
      rewrite call_eval. cbn [snd calls].
      exists [Call_do_lock no_hashes]. now rewrite <- app_assoc.
  - unfold ret at 1. cbv beta iota.
    rewrite bind_eval, in_world_eval. cbn [fst snd]. now rewrite Htext.
Qed.

(** The installation stage never calls [do_lock]. *)
Lemma do_init_install_no_relock
      dev requirements allow_global ignore_hashes no_hashes skip_lock verbose :
  only_calls (fun c => forall nh, c <> Call_do_lock nh)
    (do_init_install dev requirements allow_global ignore_hashes no_hashes
                     skip_lock verbose).
Proof. unfold do_init_install. only_calls_steps. Qed.

(** Once the virtualenv is there, the calls of [do_init] are those of the
    re-locking stage followed by calls that are not [do_lock]. *)
Lemma do_init_after_prelude
      dev requirements allow_global ignore_hashes no_hashes ignore_pipfile
      skip_lock verbose s s1 :
  do_init_prelude requirements s = (Done tt, s1) ->
  exists new,
    calls (snd (do_init dev requirements allow_global ignore_hashes no_hashes
                        ignore_pipfile skip_lock verbose s))
    = (calls (snd (do_init_relock no_hashes ignore_pipfile skip_lock s1))
       ++ new)%list
    /\ no_relock new.
Proof.
  intros Hpre. unfold do_init. rewrite bind_eval, Hpre, bind_eval.
  destruct (do_init_relock no_hashes ignore_pipfile skip_lock s1)
    as [[[]|code|e] s2]; cbn [snd];
    try (exists []; rewrite app_nil_r; split; [reflexivity|];
         intros nh []).
  destruct (do_init_install_no_relock dev requirements allow_global
              ignore_hashes no_hashes skip_lock verbose s2)
    as (new & Hnew & HP).
  exists new. split; [exact Hnew|].
  intros nh Hin. rewrite Forall_forall in HP. exact (HP _ Hin nh eq_refl).
Qed.

(** C1, as the code has it.  Let the first stage of [do_init] (Pipfile,
    virtualenv) have returned, leaving the state [s1].
    - A lock file exists, parses to a document with a [_meta] mapping whose
      [hash] entry, if any, is a mapping, and neither [ignore_pipfile] nor
      [skip_lock] is set: if the recorded sha256 is missing or differs from
      the hash of the Pipfile, the next call [do_init] makes is [do_lock];
      if the two are equal, [do_init] never calls [do_lock].
    - No lock file exists and [skip_lock] is not set: the next call is
      [do_lock], and it is the only such call.
    - [skip_lock] is set: [do_lock] is never called.
    - [ignore_pipfile] is set and a lock file exists: [do_lock] is never
      called. *)
Theorem do_init_relock_when_stale
        (dev requirements allow_global ignore_hashes no_hashes verbose : bool)
        (s s1 : InitState) :
  do_init_prelude requirements s = (Done tt, s1) ->
  (forall text lockfile p lock_hash,
      Dict.get (lockfile_location project) (files (world s1)) = Some text ->
      json_loads text = Some lockfile ->
      Dict.get (pipfile_location project) (files (world s1)) = Some p ->
      records_hash lockfile lock_hash ->
      (is_stale (pipfile_hash p) (Some lock_hash) = true ->
       exists rest,
         calls (snd (do_init dev requirements allow_global ignore_hashes
                             no_hashes false false verbose s))
         = (calls s1 ++ Call_do_lock no_hashes :: rest)%list)
      /\ (is_stale (pipfile_hash p) (Some lock_hash) = false ->
          exists new,
            calls (snd (do_init dev requirements allow_global ignore_hashes
                                no_hashes false false verbose s))
            = (calls s1 ++ new)%list
            /\ no_relock new))
  /\ (forall ignore_pipfile,
        Dict.get (lockfile_location project) (files (world s1)) = None ->
        exists rest,
          calls (snd (do_init dev requirements allow_global ignore_hashes
                              no_hashes ignore_pipfile false verbose s))
          = (calls s1 ++ Call_do_lock no_hashes :: rest)%list
          /\ no_relock rest)
  /\ (forall ignore_pipfile,
        exists new,
          calls (snd (do_init dev requirements allow_global ignore_hashes
                              no_hashes ignore_pipfile true verbose s))
          = (calls s1 ++ new)%list
          /\ no_relock new)
  /\ (forall skip_lock text,
        Dict.get (lockfile_location project) (files (world s1)) = Some text ->
        exists new,
          calls (snd (do_init dev requirements allow_global ignore_hashes
                              no_hashes true skip_lock verbose s))
          = (calls s1 ++ new)%list
          /\ no_relock new).
Proof.
  intros Hpre. split; [|split; [|split]].
  - intros text lockfile p lock_hash Htext Hloads Hp Hrecords.
    destruct (do_init_relock_compared no_hashes s1 text lockfile p lock_hash
                Htext Hloads Hp Hrecords) as [Hstale Hfresh].
    destruct (do_init_after_prelude dev requirements allow_global
                ignore_hashes no_hashes false false verbose s s1 Hpre)
      as (new & Hnew & Hno).
    split.
    + intros H. destruct (Hstale H) as (rest & Hrest).
      exists (rest ++ new)%list.
      now rewrite Hnew, Hrest, <- app_assoc.
    + intros H. exists new. rewrite Hnew, (Hfresh H). now split.
  - intros ignore_pipfile Habsent.
    destruct (do_init_after_prelude dev requirements allow_global
                ignore_hashes no_hashes ignore_pipfile false verbose s s1 Hpre)
      as (new & Hnew & Hno).
    exists new. rewrite Hnew, (do_init_relock_absent _ _ _ Habsent).
    now rewrite <- app_assoc.
  - intros ignore_pipfile.
    destruct (do_init_after_prelude dev requirements allow_global
                ignore_hashes no_hashes ignore_pipfile true verbose s s1 Hpre)
      as (new & Hnew & Hno).
    exists new. rewrite Hnew, do_init_relock_guarded by now left.
    now split.
  - intros skip_lock text Htext.
    destruct (do_init_after_prelude dev requirements allow_global
                ignore_hashes no_hashes true skip_lock verbose s s1 Hpre)
      as (new & Hnew & Hno).
    exists new. rewrite Hnew, do_init_relock_guarded.
    + now split.
    + right. split; [reflexivity|]. rewrite Htext. discriminate.
Qed.

Lemma do_init_only_calls
      (dev requirements allow_global ignore_hashes no_hashes ignore_pipfile
       skip_lock verbose : bool) :
  only_calls installs_checking_hashes
    (do_init dev requirements allow_global ignore_hashes no_hashes
             ignore_pipfile skip_lock verbose).
Proof.
  unfold do_init, do_init_prelude, do_init_relock, do_init_install.
  only_calls_steps.
Qed.

Lemma do_init_locks_with_no_hashes
      (dev requirements allow_global ignore_hashes no_hashes ignore_pipfile
       skip_lock verbose : bool) :
  only_calls (locks_with no_hashes)
    (do_init dev requirements allow_global ignore_hashes no_hashes
             ignore_pipfile skip_lock verbose).
Proof.
  unfold do_init, do_init_prelude, do_init_relock, do_init_install.
  only_calls_steps.
Qed.

(** C10, as the code has it.  Whatever [ignore_hashes] and [no_hashes]
    are, every call of [do_install_dependencies] that [do_init] makes
    passes [ignore_hashes=False]; when the steps before the installation
    return, that call is made, with [False]; and the run of [do_init] is
    the same for both values of its [ignore_hashes] argument.  The
    [no_hashes] argument is not lost: it is what every [do_lock] call
    receives. *)
Theorem do_init_installs_with_ignore_hashes_false
        (dev requirements allow_global ignore_hashes no_hashes
         ignore_pipfile skip_lock verbose : bool) (s : InitState) :
  (exists new,
      calls (snd (do_init dev requirements allow_global ignore_hashes
                          no_hashes ignore_pipfile skip_lock verbose s))
      = (calls s ++ new)%list
      /\ (forall d r g ih sl v,
             In (Call_do_install_dependencies d r g ih sl v) new -> ih = false)
      /\ (forall nh, In (Call_do_lock nh) new -> nh = no_hashes))
  /\ (forall s1,
        (do_init_prelude requirements ;;
         do_init_relock no_hashes ignore_pipfile skip_lock) s = (Done tt, s1) ->
        exists new,
          calls (snd (do_init dev requirements allow_global ignore_hashes
                              no_hashes ignore_pipfile skip_lock verbose s))
          = (calls s1
             ++ Call_do_install_dependencies dev requirements allow_global
                  false skip_lock verbose :: new)%list)
  /\ (forall ignore_hashes',
        do_init dev requirements allow_global ignore_hashes' no_hashes
                ignore_pipfile skip_lock verbose s
        = do_init dev requirements allow_global ignore_hashes no_hashes
                  ignore_pipfile skip_lock verbose s).
Proof.
  split; [|split].
  - destruct (do_init_only_calls dev requirements allow_global ignore_hashes
                no_hashes ignore_pipfile skip_lock verbose s)
      as (new & Hnew & HP).
    destruct (do_init_locks_with_no_hashes dev requirements allow_global
                ignore_hashes no_hashes ignore_pipfile skip_lock verbose s)
      as (new' & Hnew' & HQ).
    assert (new' = new) as ->.
    { rewrite Hnew in Hnew'. now apply app_inv_head in Hnew'. }
    exists new. split; [exact Hnew|]. split.
    + intros d r g ih sl v Hin.
      rewrite Forall_forall in HP. exact (HP _ Hin).
    + intros nh Hin. rewrite Forall_forall in HQ. exact (HQ _ Hin).
  - intros s1 Hbefore.
    unfold do_init. rewrite <- bind_assoc, bind_eval, Hbefore.
    destruct s1 as [w1 log1]. unfold do_init_install.
    rewrite bind_eval, call_eval. cbn [calls].
    destruct (callee _ w1) as [[[]|code|e] w2]; cbn [fst snd].
    + destruct allow_global; cbn [negb].
      * exists []. reflexivity.
      * rewrite call_eval. cbn [snd calls].
        exists [Call_do_activate_virtualenv]. now rewrite <- app_assoc.
    + exists []. reflexivity.
    + exists []. reflexivity.
  - intros ignore_hashes'. reflexivity.
Qed.

End InitFacts.

(** C1, witness: in the sample project, a changed Pipfile and an unchanged
    one. *)
Lemma do_init_relock_when_stale_witness :
  (exists rest,
      calls (snd (@do_init Sample.env Sample.cli false false false false true
                           false false false Sample.stale_state))
      = ([Call_ensure_pipfile; Call_do_where false]
         ++ Call_do_lock true :: rest)%list)
  /\ (exists new,
         calls (snd (@do_init Sample.env Sample.cli false false false false
                              true false false false Sample.fresh_state))
         = ([Call_ensure_pipfile; Call_do_where false] ++ new)%list
         /\ no_relock new).
Proof.
  assert (Hrecords : records_hash Sample.old_lock (Some "abc"%string)).
  { exists [("_meta"%string, JDict [("hash"%string,
                                     JDict [("sha256"%string, JStr "abc")])]);
            ("default"%string, JDict []); ("develop"%string, JDict [])],
           [("hash"%string, JDict [("sha256"%string, JStr "abc")])].
    repeat split. }
  split.
  - destruct (@do_init_relock_when_stale Sample.env Sample.cli false false
                false false true false Sample.stale_state
                (mkInitState (Sample.locked_world "changed")
                             [Call_ensure_pipfile; Call_do_where false])
                eq_refl) as (Hpresent & _).
    destruct (Hpresent "LOCK abc"%string Sample.old_lock "changed"%string
                (Some "abc"%string) eq_refl eq_refl eq_refl Hrecords)
      as [Hstale _].
    apply Hstale. reflexivity.
  - destruct (@do_init_relock_when_stale Sample.env Sample.cli false false
                false false true false Sample.fresh_state
                (mkInitState (Sample.locked_world "[packages]")
                             [Call_ensure_pipfile; Call_do_where false])
                eq_refl) as (Hpresent & _).
    destruct (Hpresent "LOCK abc"%string Sample.old_lock "[packages]"%string
                (Some "abc"%string) eq_refl eq_refl eq_refl Hrecords)
      as [_ Hfresh].
    apply Hfresh. reflexivity.
Defined.

(** C1, as the claim states it, fails: the lock records [abc], the Pipfile
    hashes to [def], and neither [do_init(skip_lock=True)] nor
    [do_init(ignore_pipfile=True)] calls [do_lock].  On a lock document
    without [_meta], [do_init] raises [KeyError] and does not call [do_lock]
    either. *)
Lemma do_init_guarded_relock :
  @recorded_hash Sample.old_lock = Done (JStr "abc")
  /\ @pipfile_hash Sample.env "changed" = "def"
  /\ is_stale "def" (Some (Some "abc")) = true
  /\ ~ In (Call_do_lock true)
         (calls (snd (@do_init Sample.env Sample.cli false false false false true
                               false true false Sample.stale_state)))
  /\ ~ In (Call_do_lock true)
         (calls (snd (@do_init Sample.env Sample.cli false false false false true
                               true false false Sample.stale_state)))
  /\ @do_init Sample.env Sample.cli false false false false true false false
              false Sample.bare_state
     = (Raised (KeyError "_meta"),
        mkInitState (world Sample.bare_state)
                    [Call_ensure_pipfile; Call_do_where false]).
Proof.
  repeat split; try reflexivity.
  - vm_compute. intros [H|[H|[H|[H|[]]]]]; discriminate.
  - vm_compute. intros [H|[H|[H|[H|[]]]]]; discriminate.
Qed.

(** C10, witness: [do_init(ignore_hashes=True, no_hashes=True)]. *)
Lemma do_init_installs_with_ignore_hashes_false_witness :
  exists new,
    calls (snd (@do_init Sample.env Sample.cli false false false true true
                         false false false Sample.fresh_state))
    = ([Call_ensure_pipfile; Call_do_where false]
       ++ Call_do_install_dependencies false false false false false false :: new)%list.
Proof.
  exact (proj1 (proj2 (@do_init_installs_with_ignore_hashes_false
                         Sample.env Sample.cli
                         false false false true true false false false
                         Sample.fresh_state))
               (mkInitState (Sample.locked_world "[packages]")
                            [Call_ensure_pipfile; Call_do_where false])
               eq_refl).
Defined.

(** C10, as the claim states it, fails for [no_hashes]: the installation
    is called with [ignore_hashes=False] either way, but [no_hashes]
    decides whether [do_lock] records hashes, and the installation reads
    them back from the lock file.  In a project without a lock file,
    [do_init(no_hashes=False)] runs pip with [--require-hashes] and
    [do_init(no_hashes=True)] runs it without.  The commands are the marker
    probe of [do_lock], the installation of [alpha] and that of [beta]. *)
Lemma do_init_hash_checking_follows_no_hashes :
  let run no_hashes :=
    snd (@do_init Hashed.env Hashed.cli false false false false no_hashes
                  false false false Hashed.unlocked) in
  let flagged no_hashes :=
    map (fun e => Py.contains "--require-hashes" (fst e))
        (commands (world (run no_hashes))) in
  calls (run false)
  = [Call_ensure_pipfile; Call_do_where false; Call_do_lock false;
     Call_do_install_dependencies false false false false false false]
  /\ calls (run true)
     = [Call_ensure_pipfile; Call_do_where false; Call_do_lock true;
        Call_do_install_dependencies false false false false false false]
  /\ flagged false = [false; true; true]
  /\ flagged true = [false; false; false].
Proof. vm_compute. repeat split. Qed.


(* ===================================================================== *)
(** ** Source fallback                                                    *)
(* ===================================================================== *)

Lemma first_success_or_last_stop cmd cmds c :
  return_code c = 0 -> first_success_or_last (cmd :: cmds) [(cmd, c)] c.
Proof.
  intros Hc. exists [], cmd. repeat split; [constructor | now left].
Qed.

Lemma first_success_or_last_single cmd c :
  first_success_or_last [cmd] [(cmd, c)] c.
Proof.
  exists [], cmd. repeat split; [constructor | now right].
Qed.

Lemma first_success_or_last_next cmd c1 cmds ran c :
  return_code c1 <> 0 ->
  first_success_or_last cmds ran c ->
  first_success_or_last (cmd :: cmds) ((cmd, c1) :: ran) c.
Proof.
  intros Hc1 (failed & cmd' & Hran & Hfst & Hfail & Hlast).
  exists ((cmd, c1) :: failed), cmd'. subst ran. repeat split.
  - cbn [map fst List.length firstn]. cbn [map] in Hfst. now rewrite Hfst.
  - now constructor.
  - destruct Hlast as [H0|Hlen]; [now left | right].
    cbn [List.length]. now rewrite Hlen.
Qed.


Section SourceLoops.
Context {E : Env}.

Lemma skip_hash_checking_idem text ih :
  skip_hash_checking text (skip_hash_checking text ih)
  = skip_hash_checking text ih.
Proof. unfold skip_hash_checking. now destruct (Py.contains "--hash" text). Qed.

Lemma pip_download_loop_spec (package_name : string) :
  forall srcs c0 w,
  exists o w' ran,
    pip_download_loop srcs package_name c0 w = (o, w')
    /\ commands w' = (commands w ++ ran)%list
    /\ match srcs with
       | [] => ran = [] /\ o = match c0 with
                              | Some c => Done c
                              | None => Raised (UnboundLocalError "c")
                              end
       | _ => exists c,
           o = Done c
           /\ first_success_or_last
                (map (fun src => pip_download_command package_name (url src)) srcs)
                ran c
       end.
Proof.
  induction srcs as [|src rest IH]; intros c0 w.
  - cbn [pip_download_loop]. destruct c0 as [c|].
    + exists (Done c), w, []. rewrite app_nil_r. repeat split.
    + exists (Raised (UnboundLocalError "c")), w, []. rewrite app_nil_r.
      repeat split.
  - cbn [pip_download_loop]. rewrite bind_eval. unfold delegator_run at 1.
    set (cmd := pip_download_command package_name (url src)).
    set (c1 := process w cmd).
    set (w1 := mkWorld _ _ _ _).
    destruct (return_code c1 =? 0) eqn:Hrc.
    + exists (Done c1), w1, [(cmd, c1)]. repeat split.
      exists c1. split; [reflexivity|].
      apply first_success_or_last_stop. now apply Z.eqb_eq.
    + destruct (IH (Some c1) w1) as (o & w' & ran & Hrun & Hcmds & Hspec).
      exists o, w', ((cmd, c1) :: ran). rewrite Hrun, Hcmds.
      split; [reflexivity|]. split.
      { subst w1. cbn [commands]. now rewrite <- app_assoc. }
      apply Z.eqb_neq in Hrc.
      destruct rest as [|src2 rest'].
      * destruct Hspec as [-> ->]. exists c1. split; [reflexivity|].
        apply first_success_or_last_single.
      * destruct Hspec as (c & -> & Hfs). exists c. split; [reflexivity|].
        now apply first_success_or_last_next.
Qed.

Lemma pip_install_loop_cons package_name r allow_global ignore_hashes
      no_deps verbose text src rest c0 w :
  hash_text r package_name w text ->
  pip_install_loop (src :: rest) package_name r allow_global ignore_hashes
                   no_deps verbose c0 w
  = let ih := skip_hash_checking text ignore_hashes in
    let cmd := pip_command (which_pip allow_global)
                 (require_hashes ih (install_reqs_of r package_name))
                 (url src) no_deps in
    let w0 := if verbose then snd (echo_err ("$ " ++ cmd) w) else w in
    let c := process w0 cmd in
    let w1 := snd (delegator_run cmd w0) in
    if return_code c =? 0 then (Done c, w1)
    else pip_install_loop rest package_name r allow_global ih no_deps
                          verbose (Some c) w1.
Proof.
  intros Htext. unfold hash_text in Htext.
  cbn [pip_install_loop]. rewrite bind_eval.
  destruct (truthy r) eqn:Hr.
  - rewrite bind_eval. unfold read_file at 1. rewrite Htext.
    unfold ret at 1. cbv beta iota. fold (skip_hash_checking text ignore_hashes).
    rewrite bind_eval. destruct verbose.
    + cbn [echo_err echo_to]. rewrite bind_eval.
      unfold delegator_run. cbv beta iota zeta. cbn [snd].
      destruct (_ =? 0); reflexivity.
    + unfold ret at 1. cbv beta iota. rewrite bind_eval.
      unfold delegator_run. cbv beta iota zeta. cbn [snd].
      destruct (_ =? 0); reflexivity.
  - unfold ret at 1. cbv beta iota. rewrite <- Htext.
    fold (skip_hash_checking text ignore_hashes).
    rewrite bind_eval. destruct verbose.
    + cbn [echo_err echo_to]. rewrite bind_eval.
      unfold delegator_run. cbv beta iota zeta. cbn [snd].
      destruct (_ =? 0); reflexivity.
    + unfold ret at 1. cbv beta iota. rewrite bind_eval.
      unfold delegator_run. cbv beta iota zeta. cbn [snd].
      destruct (_ =? 0); reflexivity.
Qed.

Lemma pip_install_loop_spec package_name r allow_global no_deps verbose text :
  forall srcs ignore_hashes c0 w,
  hash_text r package_name w text ->
  exists o w' ran,
    pip_install_loop srcs package_name r allow_global ignore_hashes no_deps
                     verbose c0 w = (o, w')
    /\ commands w' = (commands w ++ ran)%list
    /\ files w' = files w
    /\ match srcs with
       | [] => ran = [] /\ o = match c0 with
                              | Some c => Done c
                              | None => Raised (UnboundLocalError "c")
                              end
       | _ => exists c,
           o = Done c
           /\ first_success_or_last
                (map (fun src =>
                        pip_command (which_pip allow_global)
                          (require_hashes
                             (skip_hash_checking text ignore_hashes)
                             (install_reqs_of r package_name))
                          (url src) no_deps) srcs)
                ran c
       end.
Proof.
  induction srcs as [|src rest IH]; intros ih c0 w Htext.
  - cbn [pip_install_loop]. destruct c0 as [c|].
    + exists (Done c), w, []. rewrite app_nil_r. repeat split.
    + exists (Raised (UnboundLocalError "c")), w, []. rewrite app_nil_r.
      repeat split.
  - rewrite (pip_install_loop_cons _ _ _ _ _ _ text) by assumption.
    cbv zeta.
    set (ih' := skip_hash_checking text ih).
    set (cmd := pip_command _ _ (url src) _).
    set (w0 := if verbose then _ else w).
    assert (Hw0 : commands w0 = commands w /\ files w0 = files w).
    { subst w0. destruct verbose; split; reflexivity. }
    destruct Hw0 as [Hc0 Hf0].
    set (c1 := process w0 cmd).
    set (w1 := snd (delegator_run cmd w0)).
    assert (Hw1 : commands w1 = (commands w ++ [(cmd, c1)])%list
                  /\ files w1 = files w).
    { subst w1. cbn. now rewrite Hc0, Hf0. }
    destruct Hw1 as [Hc1 Hf1].
    destruct (return_code c1 =? 0) eqn:Hrc.
    + exists (Done c1), w1, [(cmd, c1)]. repeat split; try assumption.
      exists c1. split; [reflexivity|].
      apply first_success_or_last_stop. now apply Z.eqb_eq.
    + assert (Htext1 : hash_text r package_name w1 text).
      { unfold hash_text in *. now rewrite Hf1. }
      destruct (IH ih' (Some c1) w1 Htext1)
        as (o & w' & ran & Hrun & Hcmds & Hfiles & Hspec).
      exists o, w', ((cmd, c1) :: ran). rewrite Hrun, Hcmds, Hfiles.
      split; [reflexivity|]. split; [now rewrite Hc1, <- app_assoc|].
      split; [assumption|].
      apply Z.eqb_neq in Hrc.
      destruct rest as [|src2 rest'].
      * destruct Hspec as [-> ->]. exists c1. split; [reflexivity|].
        apply first_success_or_last_single.
      * destruct Hspec as (c & -> & Hfs). exists c. split; [reflexivity|].
        subst ih'. rewrite skip_hash_checking_idem in Hfs.
        now apply first_success_or_last_next.
Qed.

Lemma get_set_same {V} (k : string) (v : V) (d : list (string * V)) :
  Dict.get k (Dict.set k v d) = Some v.
Proof.
  induction d as [|[k' v'] d IH]; cbn.
  - now rewrite String.eqb_refl.
  - destruct (String.eqb k k') eqn:Hk; cbn; rewrite Hk; [reflexivity | exact IH].
Qed.

Lemma requirement_file_truthy (w : World) :
  truthy (Some (requirement_file w)) = true.
Proof.
  unfold truthy, requirement_file.
  destruct tmp_dir; reflexivity.
Qed.

(** [# Create files for hash mode.] *)
Lemma make_requirement_file (package_name : string) (w : World) :
  (r <- mkstemp "pipenv-" "-requirement.txt" ;;
   open_w r ;;
   write r package_name ;;
   ret (Some r)) w
  = (Done (Some (requirement_file w)),
     mkWorld (Dict.set (requirement_file w) package_name
                (Dict.set (requirement_file w) EmptyString
                   (Dict.set (requirement_file w) EmptyString (files w))))
             (S (tmp_count w)) (commands w) (echoed w)).
Proof.
  unfold bind, mkstemp, open_w, write, ret. fold (requirement_file w).
  cbn [files]. rewrite get_set_same. reflexivity.
Qed.

(** The command [pip_install] runs for a source, letter by letter. *)
Lemma pip_install_command_text package_name allow_global ignore_hashes
      no_deps w src :
  pip_install_command package_name allow_global ignore_hashes no_deps w src
  = install_line (format_opt (which_pip allow_global))
                 (if no_deps then "--no-deps" else "")
                 (what_is_installed package_name ignore_hashes w) (url src).
Proof.
  unfold pip_install_command, install_line, what_is_installed, pip_command,
    named_inline, install_reqs_of, require_hashes.
  destruct ignore_hashes; cbn [orb negb].
  - reflexivity.
  - rewrite requirement_file_truthy. cbn [format_opt].
    destruct (Py.contains "--hash" package_name); cbn [negb];
      [now rewrite !append_assoc | reflexivity].
Qed.

Lemma pip_download_command_text package_name src :
  pip_download_command package_name (url src)
  = download_line (format_opt (which_pip false)) package_name (url src)
                  (download_location project).
Proof. reflexivity. Qed.

(** [pip_install] called with a package name and no requirement file. *)
Lemma pip_install_spec package_name allow_global ignore_hashes no_deps
      verbose w :
  sources project <> [] ->
  exists c w' ran,
    pip_install package_name None allow_global ignore_hashes no_deps verbose w
    = (Done c, w')
    /\ commands w' = (commands w ++ ran)%list
    /\ first_success_or_last
         (map (pip_install_command package_name allow_global ignore_hashes
                                   no_deps w)
              (sources project))
         ran c
    /\ (ignore_hashes = false ->
        Dict.get (requirement_file w) (files w') = Some package_name).
Proof.
  intros Hsrc. unfold pip_install. rewrite bind_eval.
  destruct ignore_hashes; cbn [negb andb].
  - unfold ret at 1. cbv beta iota.
    destruct (pip_install_loop_spec package_name None allow_global no_deps
                verbose (install_reqs_of None package_name)
                (sources project) true None w eq_refl)
      as (o & w' & ran & Hrun & Hcmds & _ & Hspec).
    destruct (sources project) as [|src rest]; [contradiction|].
    destruct Hspec as (c & -> & Hfs).
    exists c, w', ran. repeat split; try assumption; try discriminate.
    unfold pip_install_command. cbn [orb].
    unfold skip_hash_checking in Hfs.
    now destruct (negb (Py.contains "--hash" (install_reqs_of None package_name))).
  - rewrite make_requirement_file.
    set (w3 := mkWorld _ _ _ _).
    assert (Htext : hash_text (Some (requirement_file w)) package_name w3
                              package_name).
    { unfold hash_text. rewrite requirement_file_truthy.
      subst w3. cbn [files format_opt]. apply get_set_same. }
    destruct (pip_install_loop_spec package_name (Some (requirement_file w))
                allow_global no_deps verbose package_name
                (sources project) false None w3 Htext)
      as (o & w' & ran & Hrun & Hcmds & Hfiles & Hspec).
    destruct (sources project) as [|src rest]; [contradiction|].
    destruct Hspec as (c & -> & Hfs).
    exists c, w', ran. split; [assumption|]. split; [exact Hcmds|].
    split.
    + unfold pip_install_command. cbn [orb].
      unfold skip_hash_checking in Hfs.
      now destruct (negb (Py.contains "--hash" package_name)).
    + intros _. rewrite Hfiles. subst w3. cbn [files]. apply get_set_same.
Qed.

(** The same, with the commands spelled out. *)
Lemma pip_install_lines package_name allow_global ignore_hashes no_deps
      verbose w :
  sources project <> [] ->
  exists c w' ran,
    pip_install package_name None allow_global ignore_hashes no_deps verbose w
    = (Done c, w')
    /\ commands w' = (commands w ++ ran)%list
    /\ first_success_or_last
         (map (fun src =>
                 install_line (format_opt (which_pip allow_global))
                              (if no_deps then "--no-deps" else "")
                              (what_is_installed package_name ignore_hashes w)
                              (url src))
              (sources project))
         ran c
    /\ (ignore_hashes = false ->
        Dict.get (requirement_file w) (files w') = Some package_name).
Proof.
  intros Hsrc.
  destruct (pip_install_spec package_name allow_global ignore_hashes no_deps
              verbose w Hsrc) as (c & w' & ran & Hrun & Hcmds & Hfs & Hfile).
  exists c, w', ran. repeat split; try assumption.
  erewrite map_ext; [exact Hfs|].
  intros src. symmetry. apply pip_install_command_text.
Qed.

End SourceLoops.


(** C3.  With at least one configured source, [pip_install] (given a
    package argument) and [pip_download] run pip once per source in
    declared order, [install] or [download] pointed at the index of that
    source with [-i], stop at the first result whose exit code is zero and
    return it, and return the result of the last source when all fail.
    The command lines are spelled out: for [pip_install] the package, or
    the requirement file made for it, and for [pip_download] the package and
    the download directory. *)
Theorem source_fallback (E : Env) :
  sources project <> [] ->
  (forall package_name allow_global ignore_hashes no_deps verbose w,
      exists c w' ran,
        pip_install package_name None allow_global ignore_hashes no_deps
                    verbose w = (Done c, w')
        /\ commands w' = (commands w ++ ran)%list
        /\ first_success_or_last
             (map (fun src =>
                     dquote ++ format_opt (which_pip allow_global) ++ dquote
                     ++ " install " ++ (if no_deps then "--no-deps" else "")
                     ++ " "
                     ++ (if ignore_hashes
                         then if Py.startswith "-e " package_name
                              then " -e " ++ dquote
                                   ++ Py.item1 (Py.split "-e " package_name)
                                   ++ dquote
                              else " " ++ dquote ++ package_name ++ dquote
                         else if Py.contains "--hash" package_name
                              then " -r " ++ requirement_file w
                                   ++ " --require-hashes"
                              else " -r " ++ requirement_file w)
                     ++ " -i " ++ url src ++ " --exists-action w")%string
                  (sources project))
             ran c)
  /\ (forall package_name w,
        exists c w' ran,
          pip_download package_name w = (Done c, w')
          /\ commands w' = (commands w ++ ran)%list
          /\ first_success_or_last
               (map (fun src =>
                       dquote ++ format_opt (which_pip false) ++ dquote
                       ++ " download " ++ dquote ++ package_name ++ dquote
                       ++ " -i " ++ url src
                       ++ " -d " ++ download_location project)%string
                    (sources project))
               ran c).
Proof.
  intros Hsrc. split.
  - intros package_name allow_global ignore_hashes no_deps verbose w.
    destruct (pip_install_lines package_name allow_global ignore_hashes
                no_deps verbose w Hsrc)
      as (c & w' & ran & Hrun & Hcmds & Hfs & _).
    now exists c, w', ran.
  - intros package_name w. unfold pip_download.
    destruct (pip_download_loop_spec package_name (sources project) None w)
      as (o & w' & ran & Hrun & Hcmds & Hspec).
    destruct (sources project) as [|src rest]; [contradiction|].
    destruct Hspec as (c & -> & Hfs).
    now exists c, w', ran.
Qed.

(** C3, witness: the sample project has two sources, a mirror that is
    down and the index. *)
Lemma source_fallback_witness :
  (exists c w' ran,
      @pip_install Sample.env "alpha" None false true true false
                   Sample.empty_world = (Done c, w')
      /\ commands w' = (commands Sample.empty_world ++ ran)%list
      /\ first_success_or_last
           (map (fun src =>
                   dquote ++ "/venv/bin/pip" ++ dquote
                   ++ " install --no-deps  " ++ dquote ++ "alpha" ++ dquote
                   ++ " -i " ++ url src ++ " --exists-action w")%string
                [Sample.mirror; Sample.pypi])
           ran c)
  /\ (exists c w' ran,
        @pip_download Sample.env "alpha" Sample.empty_world = (Done c, w')
        /\ commands w' = (commands Sample.empty_world ++ ran)%list
        /\ first_success_or_last
             (map (fun src =>
                     dquote ++ "/venv/bin/pip" ++ dquote
                     ++ " download " ++ dquote ++ "alpha" ++ dquote
                     ++ " -i " ++ url src ++ " -d /downloads")%string
                  [Sample.mirror; Sample.pypi])
             ran c).
Proof.
  assert (Hsrc : @sources (@project Sample.env) <> []) by (cbn; discriminate).
  destruct (source_fallback Sample.env Hsrc) as [Hinstall Hdownload].
  split.
  - exact (Hinstall "alpha"%string false true true false Sample.empty_world).
  - exact (Hdownload "alpha"%string Sample.empty_world).
Defined.

(** The two runs of the specification's example: the first source fails and
    the second succeeds; both fail. *)
Example fallback_returns_second :
  fst (@pip_download Sample.env "alpha" Sample.empty_world)
  = Done (mkCmdResult 0 "ok" "")
  /\ commands (snd (@pip_download Sample.env "alpha" Sample.empty_world))
     = [((dquote ++ "/venv/bin/pip" ++ dquote ++ " download "
          ++ dquote ++ "alpha" ++ dquote
          ++ " -i https://mirror.example/simple -d /downloads")%string,
         mkCmdResult 2 "" "mirror down");
        ((dquote ++ "/venv/bin/pip" ++ dquote ++ " download "
          ++ dquote ++ "alpha" ++ dquote
          ++ " -i https://pypi.python.org/simple -d /downloads")%string,
         mkCmdResult 0 "ok" "")].
Proof. split; reflexivity. Qed.

Example fallback_returns_last_failure :
  fst (@pip_install Sample.env "beta" None false true true false Sample.empty_world)
  = Done (mkCmdResult 1 "Collecting beta (from -r /tmp/req.txt (line 1))"
                      "No matching distribution")
  /\ map (fun e => return_code (snd e))
         (commands (snd (@pip_install Sample.env "beta" None false true true
                                      false Sample.empty_world)))
     = [2; 1].
Proof. split; reflexivity. Qed.



(** The commands of that run. *)
Example missing_hash_commands :
  map fst (commands (snd (@pip_install Sample.env "alpha==1.2.3" None false
                                       false true false Sample.empty_world)))
  = [(dquote ++ "/venv/bin/pip" ++ dquote
      ++ " install --no-deps  -r /tmp/pipenv-0x-requirement.txt"
      ++ " -i https://mirror.example/simple --exists-action w")%string;
     (dquote ++ "/venv/bin/pip" ++ dquote
      ++ " install --no-deps  -r /tmp/pipenv-0x-requirement.txt"
      ++ " -i https://pypi.python.org/simple --exists-action w")%string].
Proof. reflexivity. Qed.

(* ===================================================================== *)
(** ** Installation of a plan                                             *)
(* ===================================================================== *)

Section Installation.
Context {E : Env}.

Lemma install_deps_list_cons dep ignore_hash rest allow_global no_deps
      verbose w :
  install_deps_list ((dep, ignore_hash) :: rest) allow_global no_deps verbose w
  = match pip_install dep None allow_global ignore_hash no_deps verbose w with
    | (Done c, w') =>
        if return_code c =? 0
        then install_deps_list rest allow_global no_deps verbose w'
        else (Exited (return_code c), report_failure c w')
    | (Exited code, w') => (Exited code, w')
    | (Raised e, w') => (Raised e, w')
    end.
Proof.
  cbn [install_deps_list]. rewrite bind_eval.
  destruct (pip_install _ _ _ _ _ _ w) as [[c|code|e] w']; try reflexivity.
  destruct (return_code c =? 0); cbn [negb]; [reflexivity|].
  unfold bind, echo, echo_to, sys_exit, report_failure.
  cbn [files tmp_count commands echoed]. now rewrite <- !app_assoc.
Qed.

(** Entries are handled one after the other, in the order of the plan. *)
Lemma install_deps_list_app allow_global no_deps verbose :
  forall pre post w w1,
    install_deps_list pre allow_global no_deps verbose w = (Done tt, w1) ->
    install_deps_list (pre ++ post) allow_global no_deps verbose w
    = install_deps_list post allow_global no_deps verbose w1.
Proof.
  induction pre as [|[dep ih] pre IH]; intros post w w1 Hpre.
  - cbn in Hpre. injection Hpre as <-. reflexivity.
  - change (((dep, ih) :: pre) ++ post)%list
      with ((dep, ih) :: (pre ++ post))%list.
    rewrite install_deps_list_cons in *.
    destruct (pip_install _ _ _ _ _ _ w) as [[c|code|e] w']; try discriminate.
    destruct (return_code c =? 0); [|discriminate].
    now apply IH.
Qed.

(** Entries installed one after the other are what the loop does on
    them. *)
Lemma install_deps_list_installed allow_global no_deps verbose :
  forall pre w w1,
    installed_in_order allow_global no_deps verbose pre w w1 ->
    install_deps_list pre allow_global no_deps verbose w = (Done tt, w1).
Proof.
  induction 1 as [w | dep ih rest w c w1 w2 Hrun Hrc _ IH]; [reflexivity|].
  rewrite install_deps_list_cons, Hrun.
  apply Z.eqb_eq in Hrc. now rewrite Hrc.
Qed.

End Installation.

(** C2.  Take any run of [do_install_dependencies] (not in requirements
    mode) whose plan is [pre ++ (dep, ignore_hash) :: post].  If the
    entries of [pre] are installed one after the other, in plan order, each
    with exit code zero, and pip then fails on [dep], the run ends there
    with [sys.exit] of pip's exit code.  The world it leaves is the one the
    failed [pip_install] left, files and commands alike, with three more
    lines on standard output: the error banner, pip's output (through
    [format_pip_output]) and pip's error text (through [format_pip_error]).
    So no command is run for the entries of [post], and what was installed
    for [pre] is not undone. *)
Theorem install_aborts_on_first_failure (E : Env) :
  forall dev only bare allow_global ignore_hashes skip_lock verbose w w0
         pre dep ignore_hash post w1 c w2,
    deps_list_of dev only bare false ignore_hashes skip_lock w
    = (Done (pre ++ (dep, ignore_hash) :: post)%list, w0) ->
    installed_in_order allow_global (negb skip_lock) verbose pre w0 w1 ->
    pip_install dep None allow_global ignore_hash (negb skip_lock) verbose w1
    = (Done c, w2) ->
    return_code c <> 0 ->
    exists w3,
      do_install_dependencies dev only bare false allow_global ignore_hashes
                              skip_lock verbose w
      = (Exited (return_code c), w3)
      /\ commands w3 = commands w2
      /\ files w3 = files w2
      /\ tmp_count w3 = tmp_count w2
      /\ echoed w3
         = (echoed w2
            ++ [(Stdout, crayons Red false "An error occured while installing!");
                (Stdout, crayons Blue false (format_pip_output (out c)));
                (Stdout, crayons Blue false (format_pip_error (err c)))])%list.
Proof.
  intros dev only bare allow_global ignore_hashes skip_lock verbose w w0
         pre dep ignore_hash post w1 c w2 Hplan Hpre Hdep Hrc.
  exists (report_failure c w2).
  split; [|repeat split].
  unfold do_install_dependencies. rewrite bind_eval, Hplan. cbv beta iota zeta.
  rewrite (install_deps_list_app _ _ _ _ _ _ _
             (install_deps_list_installed _ _ _ _ _ _ Hpre)).
  rewrite install_deps_list_cons, Hdep.
  apply Z.eqb_neq in Hrc. now rewrite Hrc.
Qed.

(** C2, witness: the locked project with the plan [alpha, beta, gamma],
    where pip fails on [beta].  The run exits with pip's code 1; two
    commands were run, for [alpha] and for [beta], none for [gamma]; the
    requirement files made for [alpha] and [beta] are still there. *)
Lemma install_aborts_on_first_failure_witness :
  exists w3,
    @do_install_dependencies Hashed.env false false false false false false
                             false false (Hashed.locked_world false)
    = (Exited 1, w3)
    /\ map (fun e => return_code (snd e)) (commands w3) = [0; 1]
    /\ map snd (filter (fun kv => Py.endswith "-requirement.txt" (fst kv))
                       (files w3))
       = ["alpha==1.0 --hash=sha256:alpha"; "beta==1.0 --hash=sha256:beta"]%string
    /\ echoed w3
       = [(Stdout, "Installing dependencies from Pipfile.lock...");
          (Stdout, "An error occured while installing!");
          (Stdout, "Collecting beta==1.0 ");
          (Stdout, "No matching distribution found for beta==1.0")]%string.
Proof.
  pose (w0 := snd (@deps_list_of Hashed.env false false false false false
                                 false (Hashed.locked_world false))).
  pose (w1 := snd (@pip_install Hashed.env "alpha==1.0 --hash=sha256:alpha"
                                None false false true false w0)).
  pose (c := mkCmdResult 1 "Collecting beta==1.0 (from -r req.txt (line 1))"
                         "No matching distribution found for beta==1.0").
  pose (w2 := snd (@pip_install Hashed.env "beta==1.0 --hash=sha256:beta"
                                None false false true false w1)).
  destruct (install_aborts_on_first_failure Hashed.env
              false false false false false false false
              (Hashed.locked_world false) w0
              [("alpha==1.0 --hash=sha256:alpha"%string, false)]
              "beta==1.0 --hash=sha256:beta"%string false
              [("gamma==1.0 --hash=sha256:gamma"%string, false)] w1 c w2)
    as (w3 & Hrun & Hcmds & Hfiles & _ & Hecho).
  - vm_compute. reflexivity.
  - apply (@installed_next Hashed.env false true false
             "alpha==1.0 --hash=sha256:alpha"%string false [] w0
             (mkCmdResult 0 "Successfully installed" "") w1 w1).
    + vm_compute. reflexivity.
    + reflexivity.
    + apply installed_none.
  - vm_compute. reflexivity.
  - cbn. discriminate.
  - exists w3. split; [exact Hrun|].
    rewrite Hcmds, Hfiles, Hecho. vm_compute. repeat split.
Defined.

(* ===================================================================== *)
(** ** Canonical serialisation                                            *)
(* ===================================================================== *)

Section KeyOrder.

Lemma key_leb_spec (a b : string) :
  Json.key_leb a b = true <-> a = b \/ String_as_OT.lt a b.
Proof.
  unfold Json.key_leb.
  destruct (String_as_OT.compare_spec a b) as [Heq|Hlt|Hgt].
  - split; [now left | reflexivity].
  - split; [now right | reflexivity].
  - split; [discriminate|].
    intros [->|Hlt].
    + exfalso. exact (StrictOrder_Irreflexive _ Hgt).
    + exfalso. apply (StrictOrder_Irreflexive a).
      exact (StrictOrder_Transitive _ _ _ Hlt Hgt).
Qed.

Lemma key_leb_total (a b : string) :
  Json.key_leb a b = false -> Json.key_leb b a = true.
Proof.
  unfold Json.key_leb.
  destruct (String_as_OT.compare_spec a b) as [Heq|Hlt|Hgt]; try discriminate.
  intros _.
  destruct (String_as_OT.compare_spec b a) as [Heq'|Hlt'|Hgt']; try reflexivity.
  exfalso. apply (StrictOrder_Irreflexive a).
  exact (StrictOrder_Transitive _ _ _ Hgt' Hgt).
Qed.

Lemma key_leb_trans (a b c : string) :
  Json.key_leb a b = true -> Json.key_leb b c = true -> Json.key_leb a c = true.
Proof.
  rewrite !key_leb_spec. intros [->|Hab] [->|Hbc]; auto.
  right. exact (StrictOrder_Transitive _ _ _ Hab Hbc).
Qed.

Lemma key_leb_antisym (a b : string) :
  Json.key_leb a b = true -> Json.key_leb b a = true -> a = b.
Proof.
  rewrite !key_leb_spec. intros [->|Hab] [Heq|Hba]; auto.
  exfalso. apply (StrictOrder_Irreflexive a).
  exact (StrictOrder_Transitive _ _ _ Hab Hba).
Qed.

End KeyOrder.

Section Sorting.

Lemma insert_item_perm x l : Permutation (x :: l) (Json.insert_item x l).
Proof.
  induction l as [|y l IH]; cbn; [reflexivity|].
  destruct (Json.key_leb (fst x) (fst y)); [reflexivity|].
  rewrite perm_swap. now constructor.
Qed.

Lemma sort_items_perm l : Permutation l (Json.sort_items l).
Proof.
  induction l as [|x l IH]; cbn; [constructor|].
  etransitivity; [|apply insert_item_perm]. now constructor.
Qed.

Lemma insert_item_sorted x l :
  StronglySorted items_le l -> StronglySorted items_le (Json.insert_item x l).
Proof.
  induction 1 as [|y l Hs IH Hy]; cbn.
  - constructor; constructor.
  - destruct (Json.key_leb (fst x) (fst y)) eqn:Hxy.
    + constructor; [now constructor|].
      constructor; [exact Hxy|].
      eapply Forall_impl; [|exact Hy].
      intros z Hz. unfold items_le in *. eapply key_leb_trans; eassumption.
    + constructor; [exact IH|].
      eapply Permutation_Forall; [apply insert_item_perm|].
      constructor; [|exact Hy].
      now apply key_leb_total.
Qed.

Lemma sort_items_sorted l : StronglySorted items_le (Json.sort_items l).
Proof.
  induction l as [|x l IH]; cbn; [constructor|]. now apply insert_item_sorted.
Qed.

(** Entries with distinct keys have one sorted arrangement. *)
Lemma sorted_unique (l1 l2 : list (string * string)) :
  StronglySorted items_le l1 -> StronglySorted items_le l2 ->
  NoDup (map fst l1) -> Permutation l1 l2 -> l1 = l2.
Proof.
  intros Hs1. revert l2.
  induction Hs1 as [|x l1 Hs1 IH Hx]; intros l2 Hs2 Hnd Hperm.
  - apply Permutation_nil in Hperm. now subst.
  - destruct Hs2 as [|y l2 Hs2 Hy].
    + apply Permutation_sym, Permutation_nil in Hperm. discriminate.
    + assert (Hxy : x = y).
      { assert (Hin_x : In x (y :: l2))
          by (eapply Permutation_in; [exact Hperm | now left]).
        assert (Hin_y : In y (x :: l1))
          by (eapply Permutation_in; [apply Permutation_sym; exact Hperm | now left]).
        destruct Hin_x as [->|Hin_x]; [reflexivity|].
        destruct Hin_y as [->|Hin_y]; [reflexivity|].
        rewrite Forall_forall in Hx, Hy.
        assert (Hk : fst x = fst y)
          by (apply key_leb_antisym; [apply Hx | apply Hy]; assumption).
        exfalso. inversion Hnd as [|? ? Hnotin _]; subst.
        apply Hnotin. rewrite Hk. now apply in_map. }
      subst y. f_equal. apply IH; try assumption.
      * now inversion Hnd.
      * eapply Permutation_cons_inv; exact Hperm.
Qed.

Lemma sort_items_canonical (l1 l2 : list (string * string)) :
  NoDup (map fst l1) -> Permutation l1 l2 ->
  Json.sort_items l1 = Json.sort_items l2.
Proof.
  intros Hnd Hperm. apply sorted_unique.
  - apply sort_items_sorted.
  - apply sort_items_sorted.
  - eapply Permutation_NoDup; [|exact Hnd].
    apply Permutation_map, sort_items_perm.
  - rewrite <- (sort_items_perm l1), <- (sort_items_perm l2). exact Hperm.
Qed.

End Sorting.

Section Canonical.

Lemma spaces_indentation level : Json.spaces (4 * level) = indentation level.
Proof.
  induction level as [|level IH]; [reflexivity|].
  replace (4 * S level)%nat with (S (S (S (S (4 * level))))) by lia.
  cbn [Json.spaces indentation]. now rewrite IH.
Qed.

Lemma render_block_block opening closing level items :
  Json.render_block opening closing level items
  = block opening closing level items.
Proof.
  unfold Json.render_block, block, Json.newline_indent, Py.join.
  destruct items as [|item items]; [reflexivity|].
  rewrite !spaces_indentation. now rewrite !append_assoc.
Qed.

Lemma key_le_leb {A B} (a : string * A) (b : string * B) :
  Json.key_leb (fst a) (fst b) = true
  <-> fst a = fst b \/ String_as_OT.lt (fst a) (fst b).
Proof. apply key_leb_spec. Qed.

(** Sorting the encoded entries arranges the entries themselves by key. *)
Lemma insert_item_entries (enc : json -> string) x entries :
  StronglySorted key_le entries ->
  exists entries',
    Permutation (x :: entries) entries'
    /\ StronglySorted key_le entries'
    /\ Json.insert_item (fst x, enc (snd x))
         (map (fun kv => (fst kv, enc (snd kv))) entries)
       = map (fun kv => (fst kv, enc (snd kv))) entries'.
Proof.
  induction 1 as [|y t Hsorted IH Hy]; cbn [map Json.insert_item].
  - exists [x]. repeat split; [reflexivity | constructor; constructor].
  - cbn [fst]. destruct (Json.key_leb (fst x) (fst y)) eqn:Hxy.
    + exists (x :: y :: t). split; [reflexivity|]. split; [|reflexivity].
      constructor; [now constructor|].
      constructor; [now apply key_leb_spec|].
      eapply Forall_impl; [|exact Hy].
      intros z Hz. unfold key_le in *.
      apply key_leb_spec. apply key_leb_spec in Hz.
      now apply (key_leb_trans _ (fst y)).
    + destruct IH as (t' & Hperm & Hsorted' & Heq).
      exists (y :: t'). split; [|split].
      * rewrite perm_swap. now constructor.
      * constructor; [exact Hsorted'|].
        eapply Permutation_Forall; [exact Hperm|].
        constructor; [|exact Hy].
        apply key_leb_spec. now apply key_leb_total.
      * now rewrite Heq.
Qed.

Lemma sort_items_entries (enc : json -> string) d :
  exists entries,
    Permutation d entries
    /\ StronglySorted key_le entries
    /\ Json.sort_items (map (fun kv => (fst kv, enc (snd kv))) d)
       = map (fun kv => (fst kv, enc (snd kv))) entries.
Proof.
  induction d as [|x d (entries & Hperm & Hsorted & Heq)].
  - exists []. repeat split; constructor.
  - destruct (insert_item_entries enc x entries Hsorted)
      as (entries' & Hperm' & Hsorted' & Heq').
    exists entries'. split; [|split; [exact Hsorted'|]].
    + rewrite <- Hperm'. now constructor.
    + cbn [map Json.sort_items fold_right].
      change (fold_right Json.insert_item [] ?l) with (Json.sort_items l).
      now rewrite Heq.
Qed.

(** [json.dumps] writes the canonical text. *)
Lemma encode_canonical :
  forall j level, canonical level j (Json.encode level j).
Proof.
  fix IH 1. intros j level.
  destruct j as [| b | n | s | l | d]; cbn [Json.encode].
  - constructor.
  - destruct b; constructor.
  - constructor.
  - constructor.
  - rewrite render_block_block. constructor.
    induction l as [|x l IHl]; cbn [map]; constructor; [apply IH | exact IHl].
  - assert (Hall : Forall (fun kv => canonical (S level) (snd kv)
                                       (Json.encode (S level) (snd kv))) d).
    { induction d as [|[k v] d IHd]; constructor; [apply IH | exact IHd]. }
    clear IH.
    destruct (sort_items_entries (Json.encode (S level)) d)
      as (entries & Hperm & Hsorted & Heq).
    rewrite Heq, render_block_block.
    apply (Permutation_Forall Hperm) in Hall.
    replace (map Json.render_item
               (map (fun kv => (fst kv, Json.encode (S level) (snd kv)))
                    entries))
      with (map (fun item =>
                   dquote ++ Json.escape (fst (fst item)) ++ dquote
                   ++ ": " ++ snd item)%string
                (combine entries
                   (map (fun kv => Json.encode (S level) (snd kv)) entries))).
    + apply canonical_dict; [exact Hperm | exact Hsorted |].
      clear Hperm Hsorted Heq.
      induction Hall as [|kv entries Hkv _ IHall]; cbn [map]; constructor;
        assumption.
    + clear. induction entries as [|kv entries IHe]; [reflexivity|].
      cbn [map combine]. rewrite IHe. f_equal.
      unfold Json.render_item, Json.encode_string. cbn [fst snd].
      now rewrite !append_assoc.
Qed.

End Canonical.

Lemma encode_equiv :
  forall j1 j2, json_equiv j1 j2 ->
  forall level, Json.encode level j1 = Json.encode level j2.
Proof.
  fix IH 3.
  intros j1 j2 H.
  destruct H as [ | b | n | s | l1 l2 Hl | d1 d1' d2 Hnd Hperm Hd ];
    intros level; try reflexivity.
  - cbn [Json.encode]. f_equal.
    induction Hl as [|a b l1 l2 Hab Hl IHl]; cbn [map]; [reflexivity|].
    f_equal; [apply IH; exact Hab | exact IHl].
  - cbn [Json.encode]. do 2 f_equal.
    set (enc := fun kv : string * json =>
                  (fst kv, Json.encode (S level) (snd kv))).
    assert (Hsame : map enc d1' = map enc d2).
    { clear Hperm Hnd.
      induction Hd as [|a b l1 l2 [Hk Hv] Hd IHd]; cbn [map]; [reflexivity|].
      f_equal; [|exact IHd].
      unfold enc. rewrite Hk. f_equal. apply IH. exact Hv. }
    rewrite <- Hsame.
    apply sort_items_canonical.
    + rewrite map_map. cbn [fst enc]. exact Hnd.
    + now apply Permutation_map.
Qed.

Lemma dumps_equiv (j1 j2 : json) :
  json_equiv j1 j2 -> Json.dumps j1 = Json.dumps j2.
Proof. intros H. now apply encode_equiv. Qed.

(* ===================================================================== *)
(** ** Lock synthesis                                                     *)
(* ===================================================================== *)

Section DictFacts.
Context {V : Type}.

Lemma get_set_other (k k' : string) (v : V) (d : list (string * V)) :
  String.eqb k k' = false -> Dict.get k (Dict.set k' v d) = Dict.get k d.
Proof.
  intros Hk. induction d as [|[k0 v0] d IH]; cbn.
  - now rewrite Hk.
  - destruct (String.eqb k' k0) eqn:Hk0; cbn.
    + apply String.eqb_eq in Hk0. subst k0. now rewrite Hk.
    + destruct (String.eqb k k0); [reflexivity | exact IH].
Qed.

Lemma set_set_same (k : string) (v1 v2 : V) (d : list (string * V)) :
  Dict.set k v2 (Dict.set k v1 d) = Dict.set k v2 d.
Proof.
  induction d as [|[k0 v0] d IH]; cbn.
  - now rewrite String.eqb_refl.
  - destruct (String.eqb k k0) eqn:Hk; cbn; rewrite Hk; [reflexivity|].
    now rewrite IH.
Qed.

Lemma get_absent (k : string) (d : list (string * V)) :
  ~ In k (Dict.keys d) -> Dict.get k d = None.
Proof.
  induction d as [|[k0 v0] d IH]; cbn; [reflexivity|]. intros Hnot.
  destruct (String.eqb k k0) eqn:Hk.
  - apply String.eqb_eq in Hk. subst. exfalso. apply Hnot. now left.
  - apply IH. intros Hin. apply Hnot. now right.
Qed.

Lemma get_filter (q : V -> bool) (k : string) (d : list (string * V)) :
  NoDup (Dict.keys d) ->
  Dict.get k (filter (fun kv => q (snd kv)) d)
  = match Dict.get k d with
    | Some v => if q v then Some v else None
    | None => None
    end.
Proof.
  induction d as [|[k0 v0] d IH]; cbn; [reflexivity|]. intros Hnd.
  inversion Hnd as [|? ? Hnotin Hnd']; subst.
  specialize (IH Hnd').
  destruct (String.eqb k k0) eqn:Hk.
  - apply String.eqb_eq in Hk. subst k0.
    destruct (q v0); cbn.
    + now rewrite String.eqb_refl.
    + rewrite IH, (get_absent k d Hnotin). reflexivity.
  - destruct (q v0); cbn; [rewrite Hk|]; exact IH.
Qed.

End DictFacts.

Section LockFacts.
Context {E : Env}.

Lemma add_dep_done no_hashes dep d :
  (no_hashes = false -> dep_hashes dep <> None) ->
  add_dep no_hashes dep d
  = Done (Dict.set (dep_name dep) (lock_entry no_hashes dep) d).
Proof.
  intros Hh. unfold add_dep, lock_entry. destruct no_hashes; cbn [negb].
  - reflexivity.
  - destruct (dep_hashes dep) as [h|]; [|now destruct (Hh eq_refl)].
    now rewrite set_set_same.
Qed.

Lemma add_deps_done no_hashes results :
  hashes_present no_hashes results ->
  forall d, add_deps no_hashes results d = Done (merged no_hashes results d).
Proof.
  unfold hashes_present.
  induction results as [|dep rest IH]; intros Hh d; [reflexivity|].
  cbn [add_deps merged fold_left]. rewrite add_dep_done.
  - cbn [obind]. apply IH. intros Hn. specialize (Hh Hn). now inversion Hh.
  - intros Hn. specialize (Hh Hn). now inversion Hh.
Qed.

Lemma get_merged no_hashes results k :
  forall d,
  Dict.get k (merged no_hashes results d)
  = match resolved_entry no_hashes results k with
    | Some e => Some e
    | None => Dict.get k d
    end.
Proof.
  unfold merged.
  induction results as [|dep rest IH]; intros d; [reflexivity|].
  cbn [fold_left resolved_entry]. rewrite IH. destruct (resolved_entry no_hashes rest k); [reflexivity|].
  destruct (String.eqb k (dep_name dep)) eqn:Hk.
  - apply String.eqb_eq in Hk. subst k. apply get_set_same.
  - now apply get_set_other.
Qed.

Lemma set_get_same {V} (k : string) (v : V) (d : list (string * V)) :
  Dict.get k d = Some v -> Dict.set k v d = d.
Proof.
  induction d as [|[k0 v0] d IH]; cbn; [discriminate|].
  destruct (String.eqb k k0) eqn:Hk.
  - intros [= ->]. reflexivity.
  - intros H. now rewrite IH.
Qed.

Lemma add_results_done section no_hashes results top d :
  hashes_present no_hashes results ->
  Dict.get section top = Some (JDict d) ->
  add_results section no_hashes results (JDict top)
  = Done (JDict (Dict.set section (JDict (merged no_hashes results d)) top)).
Proof.
  intros Hh Hsec. destruct results as [|dep rest].
  - cbn [add_results merged fold_left]. now rewrite set_get_same.
  - unfold add_results. cbn [Json.getitem]. rewrite Hsec. cbn [obind Json.dict_method].
    rewrite add_deps_done by assumption. reflexivity.
Qed.

Lemma synthesize_done no_hashes dev_results default_results markers
      top d0 v0 m0 :
  shell_is top d0 v0 m0 ->
  hashes_present no_hashes dev_results ->
  hashes_present no_hashes default_results ->
  synthesize no_hashes dev_results default_results markers
  = Done (JDict (synthesized no_hashes dev_results default_results markers
                             top d0 v0 m0)).
Proof.
  intros (Htop & Hd & Hv & Hm) Hhd Hhp.
  unfold synthesize, synthesized. rewrite Htop.
  unfold cleanup_section at 1. cbn [Json.getitem]. rewrite Hd.
  cbn [obind Json.dict_method Json.setitem]. fold (kept d0).
  set (top1 := Dict.set "default" (JDict (kept d0)) top).
  unfold cleanup_section. cbn [Json.getitem].
  assert (Hv1 : Dict.get "develop" top1 = Some (JDict v0))
    by (subst top1; now rewrite get_set_other).
  rewrite Hv1. cbn [obind Json.dict_method Json.setitem]. fold (kept v0).
  set (top2 := Dict.set "develop" (JDict (kept v0)) top1).
  rewrite (add_results_done "develop" no_hashes dev_results top2 (kept v0))
    by (try assumption; subst top2; apply get_set_same).
  cbn [obind].
  set (top3 := Dict.set "develop" _ top2).
  assert (Hd3 : Dict.get "default" top3 = Some (JDict (kept d0))).
  { subst top3 top2 top1. rewrite !get_set_other by reflexivity.
    apply get_set_same. }
  rewrite (add_results_done "default" no_hashes default_results top3 (kept d0))
    by assumption.
  cbn [obind].
  set (top4 := Dict.set "default" _ top3).
  assert (Hm4 : Dict.get "_meta" top4 = Some (JDict m0)).
  { subst top4 top3 top2 top1. now rewrite !get_set_other by reflexivity. }
  unfold set_markers. cbn [Json.getitem]. rewrite Hm4. reflexivity.
Qed.

Lemma do_lock_prepare_spec no_hashes verbose w dev_results default_results
      markers lockfile :
  resolves no_hashes verbose w dev_results default_results markers ->
  synthesize no_hashes dev_results default_results markers = Done lockfile ->
  do_lock_prepare no_hashes verbose w = (Done lockfile, after_prepare w).
Proof.
  intros (Hdev & Hdef & Hmark) Hsyn. unfold synthesize in Hsyn.
  destruct (cleanup_section "default" (_lockfile project)) as [l1|?|?] eqn:H1;
    cbn [obind] in Hsyn; try discriminate.
  destruct (cleanup_section "develop" l1) as [l2|?|?] eqn:H2;
    cbn [obind] in Hsyn; try discriminate.
  destruct (add_results "develop" no_hashes dev_results l2) as [l3|?|?] eqn:H3;
    cbn [obind] in Hsyn; try discriminate.
  destruct (add_results "default" no_hashes default_results l3) as [l4|?|?] eqn:H4;
    cbn [obind] in Hsyn; try discriminate.
  unfold do_lock_prepare, after_prepare.
  rewrite bind_eval. cbn [echo_err echo_to].
  rewrite bind_eval. unfold lift at 1. rewrite H1.
  rewrite bind_eval. unfold lift at 1. rewrite H2.
  rewrite bind_eval. cbn [echo_err echo_to snd] in Hdev. rewrite Hdev.
  rewrite bind_eval. unfold lift at 1. rewrite H3.
  rewrite bind_eval. cbn [echo_err echo_to].
  rewrite bind_eval. cbn [echo_err echo_to snd] in Hdef. rewrite Hdef.
  rewrite bind_eval. unfold lift at 1. rewrite H4.
  rewrite bind_eval. unfold delegator_run at 1. cbv zeta.
  rewrite bind_eval. unfold lift at 1.
  cbn [echo_err echo_to snd] in Hmark. rewrite Hmark.
  unfold lift. rewrite Hsyn. reflexivity.
Qed.

Lemma after_prepare_files w : files (after_prepare w) = files w.
Proof. reflexivity. Qed.

Lemma write_lockfile_steps (lockfile : json) (k : nat) (w : World) :
  exists w',
    run_steps (firstn k (write_lockfile lockfile)) w = (Done tt, w')
    /\ Dict.get (lockfile_location project) (files w')
       = written k lockfile (Dict.get (lockfile_location project) (files w))
    /\ (forall path, String.eqb path (lockfile_location project) = false ->
        Dict.get path (files w') = Dict.get path (files w))
    /\ commands w' = commands w /\ echoed w' = echoed w.
Proof.
  unfold write_lockfile.
  destruct k as [|[|[|k]]]; cbn [firstn run_steps].
  - exists w. repeat split.
  - eexists. rewrite bind_eval. cbn [open_w]. unfold ret.
    split; [reflexivity|]. cbn [files commands echoed written].
    split; [apply get_set_same|].
    split; [|split; reflexivity].
    intros path Hp. now apply get_set_other.
  - eexists. rewrite bind_eval. cbn [open_w].
    rewrite bind_eval. unfold write at 1. cbn [files].
    rewrite get_set_same. unfold ret.
    split; [reflexivity|]. cbn [files commands echoed written].
    split; [apply get_set_same|].
    split; [|split; reflexivity].
    intros path Hp. now rewrite !get_set_other.
  - eexists. rewrite bind_eval. cbn [open_w].
    rewrite bind_eval. unfold write at 1. cbn [files].
    rewrite get_set_same.
    rewrite bind_eval. unfold write at 1. cbn [files].
    rewrite get_set_same. destruct k; cbn [firstn run_steps]; unfold ret;
      (split; [reflexivity|]); cbn [files commands echoed written];
      (split; [apply get_set_same|]);
      (split; [|split; reflexivity]);
      intros path Hp; now rewrite !get_set_other.
Qed.

Lemma do_lock_spec no_hashes verbose w dev_results default_results markers
      lockfile :
  resolves no_hashes verbose w dev_results default_results markers ->
  synthesize no_hashes dev_results default_results markers = Done lockfile ->
  exists w',
    do_lock no_hashes verbose w = (Done tt, w')
    /\ Dict.get (lockfile_location project) (files w')
       = Some (Json.dumps lockfile ++ nl)%string
    /\ (forall path, String.eqb path (lockfile_location project) = false ->
        Dict.get path (files w') = Dict.get path (files w)).
Proof.
  intros Hres Hsyn. unfold do_lock.
  rewrite bind_eval, (do_lock_prepare_spec _ _ _ _ _ _ _ Hres Hsyn).
  destruct (write_lockfile_steps lockfile 3 (after_prepare w))
    as (w' & Hrun & Hlock & Hother & _).
  change (firstn 3 (write_lockfile lockfile)) with (write_lockfile lockfile)
    in Hrun.
  rewrite bind_eval, Hrun. cbn [echo_err echo_to].
  eexists. split; [reflexivity|]. cbn [files]. split; assumption.
Qed.

Lemma do_lock_interrupted_spec k no_hashes verbose w dev_results
      default_results markers lockfile :
  resolves no_hashes verbose w dev_results default_results markers ->
  synthesize no_hashes dev_results default_results markers = Done lockfile ->
  exists w',
    do_lock_interrupted k no_hashes verbose w = (Raised KeyboardInterrupt, w')
    /\ Dict.get (lockfile_location project) (files w')
       = written k lockfile (Dict.get (lockfile_location project) (files w))
    /\ (forall path, String.eqb path (lockfile_location project) = false ->
        Dict.get path (files w') = Dict.get path (files w)).
Proof.
  intros Hres Hsyn. unfold do_lock_interrupted.
  rewrite bind_eval, (do_lock_prepare_spec _ _ _ _ _ _ _ Hres Hsyn).
  destruct (write_lockfile_steps lockfile k (after_prepare w))
    as (w' & Hrun & Hlock & Hother & _).
  rewrite bind_eval, Hrun. unfold raise.
  exists w'. split; [reflexivity|]. split; assumption.
Qed.

Lemma dumps_dict_closes (d : list (string * json)) :
  exists body, Json.dumps (JDict d) = (body ++ "}")%string.
Proof.
  unfold Json.dumps. cbn [Json.encode]. unfold Json.render_block.
  destruct (map Json.render_item _) as [|item items].
  - now exists "{"%string.
  - eexists. rewrite <- !append_assoc. reflexivity.
Qed.

End LockFacts.

(** C5, as the code has it.  [do_lock] writes the lock file in place: it
    opens the destination for writing, which empties it, and writes the
    document and then a newline to it; no other path is written, so there is
    no temporary file and no rename.  A complete run leaves the whole
    artifact at the destination.  A run interrupted after [k] steps of the
    write leaves there what has been written so far: the previous content
    only for [k = 0], the empty text for [k = 1], the document without its
    final newline for [k = 2]. *)
Theorem lock_written_in_place (E : Env) :
  forall no_hashes verbose w dev_results default_results markers lockfile,
    resolves no_hashes verbose w dev_results default_results markers ->
    synthesize no_hashes dev_results default_results markers = Done lockfile ->
    (exists w',
        do_lock no_hashes verbose w = (Done tt, w')
        /\ Dict.get (lockfile_location project) (files w')
           = Some (Json.dumps lockfile ++ nl)%string
        /\ forall path, String.eqb path (lockfile_location project) = false ->
             Dict.get path (files w') = Dict.get path (files w))
    /\ forall k,
        exists w',
          do_lock_interrupted k no_hashes verbose w
          = (Raised KeyboardInterrupt, w')
          /\ Dict.get (lockfile_location project) (files w')
             = written k lockfile
                       (Dict.get (lockfile_location project) (files w))
          /\ forall path, String.eqb path (lockfile_location project) = false ->
               Dict.get path (files w') = Dict.get path (files w).
Proof.
  intros no_hashes verbose w dev_results default_results markers lockfile
         Hres Hsyn.
  split.
  - now apply (do_lock_spec _ _ _ _ _ _ _ Hres Hsyn).
  - intros k. now apply (do_lock_interrupted_spec k _ _ _ _ _ _ _ Hres Hsyn).
Qed.

(** C6, as the code has it.  The [default] and [develop] maps of the lock
    are the maps of the starting state, cleaned and then updated: an entry
    named by the resolution is the freshly pinned one; any other entry of
    the starting state survives unchanged when its value is a dictionary and
    is dropped otherwise.  Of [_meta] only [host-environment-markers] is
    rewritten, and every other top-level key is kept. *)
Theorem lock_sections_updated (E : Env) :
  forall no_hashes verbose w dev_results default_results markers top d0 v0 m0,
    resolves no_hashes verbose w dev_results default_results markers ->
    shell_is top d0 v0 m0 ->
    NoDup (Dict.keys d0) -> NoDup (Dict.keys v0) ->
    hashes_present no_hashes dev_results ->
    hashes_present no_hashes default_results ->
    exists lock w',
      do_lock no_hashes verbose w = (Done tt, w')
      /\ Dict.get (lockfile_location project) (files w')
         = Some (Json.dumps (JDict lock) ++ nl)%string
      /\ (exists d1,
             Dict.get "default" lock = Some (JDict d1)
             /\ forall k,
                 Dict.get k d1
                 = match resolved_entry no_hashes default_results k with
                   | Some e => Some e
                   | None => match Dict.get k d0 with
                             | Some v => if Json.is_dict v then Some v else None
                             | None => None
                             end
                   end)
      /\ (exists v1,
             Dict.get "develop" lock = Some (JDict v1)
             /\ forall k,
                 Dict.get k v1
                 = match resolved_entry no_hashes dev_results k with
                   | Some e => Some e
                   | None => match Dict.get k v0 with
                             | Some v => if Json.is_dict v then Some v else None
                             | None => None
                             end
                   end)
      /\ (exists m1,
             Dict.get "_meta" lock = Some (JDict m1)
             /\ Dict.get "host-environment-markers" m1 = Some markers
             /\ forall k, String.eqb k "host-environment-markers" = false ->
                   Dict.get k m1 = Dict.get k m0)
      /\ (forall k,
             String.eqb k "default" = false ->
             String.eqb k "develop" = false ->
             String.eqb k "_meta" = false ->
             Dict.get k lock = Dict.get k top).
Proof.
  intros no_hashes verbose w dev_results default_results markers top d0 v0 m0
         Hres Hshell Hnd0 Hndv Hhd Hhp.
  pose proof (synthesize_done no_hashes dev_results default_results markers
                top d0 v0 m0 Hshell Hhd Hhp) as Hsyn.
  destruct (do_lock_spec _ _ _ _ _ _ _ Hres Hsyn) as (w' & Hrun & Hfile & _).
  eexists. exists w'. split; [exact Hrun|]. split; [exact Hfile|].
  unfold synthesized. repeat split.
  - eexists. split.
    + rewrite get_set_other by reflexivity. apply get_set_same.
    + intros k. rewrite get_merged. unfold kept. now rewrite get_filter.
  - eexists. split.
    + rewrite !get_set_other by reflexivity. apply get_set_same.
    + intros k. rewrite get_merged. unfold kept. now rewrite get_filter.
  - eexists. split; [apply get_set_same|]. split; [apply get_set_same|].
    intros k Hk. now apply get_set_other.
  - intros k Hd Hv Hm. now rewrite !get_set_other.
Qed.

(** C4.  Two runs of [do_lock] for which the resolver returns the same
    results and the probe the same markers write the same bytes, whatever
    the worlds they start in.  The bytes are the canonical text of the
    document (keys in order, four spaces per level, [,] at the end of a
    line and [: ] after a key) followed by one newline after the closing
    brace; they do not depend on the order in which dictionary entries
    were inserted. *)
Theorem lock_is_reproducible (E : Env) :
  forall no_hashes verbose verbose' w w' dev_results default_results markers
         top d0 v0 m0,
    resolves no_hashes verbose w dev_results default_results markers ->
    resolves no_hashes verbose' w' dev_results default_results markers ->
    shell_is top d0 v0 m0 ->
    hashes_present no_hashes dev_results ->
    hashes_present no_hashes default_results ->
    exists lockfile text,
      synthesize no_hashes dev_results default_results markers = Done lockfile
      /\ text = (Json.dumps lockfile ++ nl)%string
      /\ (exists w1,
             do_lock no_hashes verbose w = (Done tt, w1)
             /\ Dict.get (lockfile_location project) (files w1) = Some text)
      /\ (exists w1',
             do_lock no_hashes verbose' w' = (Done tt, w1')
             /\ Dict.get (lockfile_location project) (files w1') = Some text)
      /\ (exists body, text = (body ++ "}" ++ nl)%string)
      /\ (forall lockfile',
             json_equiv lockfile lockfile' ->
             (Json.dumps lockfile' ++ nl)%string = text)
      /\ (exists document,
             text = (document ++ nl)%string
             /\ canonical 0 lockfile document).
Proof.
  intros no_hashes verbose verbose' w w' dev_results default_results markers
         top d0 v0 m0 Hres Hres' Hshell Hhd Hhp.
  pose proof (synthesize_done no_hashes dev_results default_results markers
                top d0 v0 m0 Hshell Hhd Hhp) as Hsyn.
  destruct (do_lock_spec _ _ _ _ _ _ _ Hres Hsyn) as (w1 & Hrun & Hfile & _).
  destruct (do_lock_spec _ _ _ _ _ _ _ Hres' Hsyn) as (w1' & Hrun' & Hfile' & _).
  eexists. eexists. split; [exact Hsyn|]. split; [reflexivity|].
  split; [now exists w1|]. split; [now exists w1'|]. split; [|split].
  - destruct (dumps_dict_closes
                (synthesized no_hashes dev_results default_results markers
                             top d0 v0 m0)) as (body & Hbody).
    exists body. now rewrite Hbody, append_assoc.
  - intros lockfile' Hequiv. f_equal. symmetry. now apply dumps_equiv.
  - eexists. split; [reflexivity|]. apply encode_canonical.
Qed.

(** The sample resolver and probe answer the same in every world. *)
Lemma resolves_anywhere (w : World) :
  @resolves Sample.env true false w Sample.results Sample.results
            Sample.markers.
Proof. repeat split. Qed.

Lemma sample_shell :
  @shell_is Sample.env Sample.top Sample.default Sample.develop Sample.meta.
Proof. repeat split. Qed.

Lemma no_hashes_needed : hashes_present true Sample.results.
Proof. intros H. discriminate. Qed.

(** C5, witness: the sample project, started with a lock file in place. *)
Lemma lock_written_in_place_witness :
  (exists w',
      @do_lock Sample.env true false (Sample.locked_world "changed")
      = (Done tt, w')
      /\ Dict.get "Pipfile.lock" (files w')
         = Some (Json.dumps Sample.lock ++ nl)%string)
  /\ (exists w',
         @do_lock_interrupted Sample.env 2 true false
                              (Sample.locked_world "changed")
         = (Raised KeyboardInterrupt, w')
         /\ Dict.get "Pipfile.lock" (files w')
            = Some (Json.dumps Sample.lock)).
Proof.
  destruct (lock_written_in_place Sample.env true false
              (Sample.locked_world "changed")
              Sample.results Sample.results Sample.markers
              Sample.lock (resolves_anywhere _) eq_refl)
    as [(w1 & Hrun & Hfile & _) Hint].
  split.
  - exists w1. now split.
  - destruct (Hint 2%nat) as (w2 & Hrun2 & Hfile2 & _).
    exists w2. now split.
Defined.

(** C5, as the claim states it, fails: interrupted right after the lock file
    has been opened, [do_lock] leaves it empty; the previous lock is gone. *)
Lemma do_lock_interrupted_loses_previous_lock :
  let w := Sample.locked_world "changed" in
  let w' := snd (@do_lock_interrupted Sample.env 1 true false w) in
  Dict.get "Pipfile.lock" (files w) = Some "LOCK abc"
  /\ fst (@do_lock_interrupted Sample.env 1 true false w)
     = Raised KeyboardInterrupt
  /\ Dict.get "Pipfile.lock" (files w') = Some ""
  /\ Dict.get "Pipfile.lock" (files w') <> Dict.get "Pipfile.lock" (files w)
  /\ Dict.keys (files w') = ["Pipfile"; "Pipfile.lock"].
Proof. cbv zeta. repeat split. vm_compute. discriminate. Qed.

(** C6, witness: the sample project.  [requests] is pinned afresh, the VCS
    entry [legacy], which the resolver did not return, is kept, and [pytest],
    whose value is a string, is dropped. *)
Lemma lock_sections_updated_witness :
  exists lock w',
    @do_lock Sample.env true false Sample.empty_world = (Done tt, w')
    /\ Dict.get "Pipfile.lock" (files w')
       = Some (Json.dumps (JDict lock) ++ nl)%string
    /\ (exists d1,
           Dict.get "default" lock = Some (JDict d1)
           /\ Dict.get "requests" d1
              = Some (JDict [("version", JStr "==2.18.4")])
           /\ Dict.get "legacy" d1
              = Some (JDict [("git", JStr "https://x/y.git")]))
    /\ (exists v1,
           Dict.get "develop" lock = Some (JDict v1)
           /\ Dict.get "pytest" v1 = None).
Proof.
  destruct (lock_sections_updated Sample.env true false Sample.empty_world
              Sample.results Sample.results Sample.markers
              Sample.top Sample.default Sample.develop
              Sample.meta
              (resolves_anywhere _) sample_shell)
    as (lock & w' & Hrun & Hfile & (d1 & Hd1 & Hdefault)
        & (v1 & Hv1 & Hdevelop) & _).
  - repeat constructor; cbn; intuition discriminate.
  - repeat constructor; cbn; intuition discriminate.
  - exact no_hashes_needed.
  - exact no_hashes_needed.
  - exists lock, w'. split; [exact Hrun|]. split; [exact Hfile|]. split.
    + exists d1. split; [exact Hd1|]. now rewrite !Hdefault.
    + exists v1. split; [exact Hv1|]. now rewrite Hdevelop.
Defined.

(** C6, as the claim states it, fails: the starting state holds the entry
    [legacy], the resolution does not name it, and it is in the [default]
    map of the lock that is written. *)
Lemma do_lock_keeps_unresolved_entry :
  let run := @do_lock Sample.env true false Sample.empty_world in
  ~ In "legacy" (map dep_name Sample.results)
  /\ fst run = Done tt
  /\ Dict.get "Pipfile.lock" (files (snd run))
     = Some (Json.dumps Sample.lock ++ nl)%string
  /\ obind (Json.getitem Sample.lock "default")
           (fun section => Json.getitem section "legacy")
     = Done (JDict [("git", JStr "https://x/y.git")]).
Proof.
  cbv zeta. split; [|repeat split].
  cbn. intros [H|[H|[]]]; discriminate.
Qed.

(** C4, witness: [do_lock] run twice in a row on the sample project. *)
Lemma lock_is_reproducible_witness :
  let w1 := snd (@do_lock Sample.env true false Sample.empty_world) in
  exists text,
    Dict.get "Pipfile.lock" (files w1) = Some text
    /\ Dict.get "Pipfile.lock"
                (files (snd (@do_lock Sample.env true false w1))) = Some text
    /\ (exists body, text = (body ++ "}" ++ nl)%string)
    /\ (exists document,
           text = (document ++ nl)%string
           /\ canonical 0 Sample.lock document).
Proof.
  cbv zeta.
  destruct (lock_is_reproducible Sample.env true false false
              Sample.empty_world
              (snd (@do_lock Sample.env true false Sample.empty_world))
              Sample.results Sample.results Sample.markers
              Sample.top Sample.default Sample.develop
              Sample.meta
              (resolves_anywhere _) (resolves_anywhere _)
              sample_shell no_hashes_needed
              no_hashes_needed)
    as (lockfile & text & Hsyn & _ & (wa & Hrun1 & Hfile1)
        & (wb & Hrun2 & Hfile2) & Hclose & _ & Hcanonical).
  assert (Hlock : lockfile = Sample.lock).
  { vm_compute in Hsyn. injection Hsyn as <-. reflexivity. }
  subst lockfile.
  exists text. rewrite Hrun2, Hrun1. cbn [snd]. now repeat split.
Defined.

(** The lock file of the sample project, byte for byte. *)
Example sample_lock_text :
  Dict.get "Pipfile.lock"
           (files (snd (@do_lock Sample.env true false Sample.empty_world)))
  = Some ("{" ++ nl
     ++ "    " ++ dquote ++ "_meta" ++ dquote ++ ": {" ++ nl
     ++ "        " ++ dquote ++ "hash" ++ dquote ++ ": {" ++ nl
     ++ "            " ++ dquote ++ "sha256" ++ dquote ++ ": "
                       ++ dquote ++ "abc" ++ dquote ++ nl
     ++ "        }," ++ nl
     ++ "        " ++ dquote ++ "host-environment-markers" ++ dquote
                   ++ ": {" ++ nl
     ++ "            " ++ dquote ++ "os_name" ++ dquote ++ ": "
                       ++ dquote ++ "posix" ++ dquote ++ nl
     ++ "        }," ++ nl
     ++ "        " ++ dquote ++ "requires" ++ dquote ++ ": {}" ++ nl
     ++ "    }," ++ nl
     ++ "    " ++ dquote ++ "default" ++ dquote ++ ": {" ++ nl
     ++ "        " ++ dquote ++ "certifi" ++ dquote ++ ": {" ++ nl
     ++ "            " ++ dquote ++ "version" ++ dquote ++ ": "
                       ++ dquote ++ "==2017.7.27" ++ dquote ++ nl
     ++ "        }," ++ nl
     ++ "        " ++ dquote ++ "legacy" ++ dquote ++ ": {" ++ nl
     ++ "            " ++ dquote ++ "git" ++ dquote ++ ": "
                       ++ dquote ++ "https://x/y.git" ++ dquote ++ nl
     ++ "        }," ++ nl
     ++ "        " ++ dquote ++ "requests" ++ dquote ++ ": {" ++ nl
     ++ "            " ++ dquote ++ "version" ++ dquote ++ ": "
                       ++ dquote ++ "==2.18.4" ++ dquote ++ nl
     ++ "        }" ++ nl
     ++ "    }," ++ nl
     ++ "    " ++ dquote ++ "develop" ++ dquote ++ ": {" ++ nl
     ++ "        " ++ dquote ++ "certifi" ++ dquote ++ ": {" ++ nl
     ++ "            " ++ dquote ++ "version" ++ dquote ++ ": "
                       ++ dquote ++ "==2017.7.27" ++ dquote ++ nl
     ++ "        }," ++ nl
     ++ "        " ++ dquote ++ "requests" ++ dquote ++ ": {" ++ nl
     ++ "            " ++ dquote ++ "version" ++ dquote ++ ": "
                       ++ dquote ++ "==2.18.4" ++ dquote ++ nl
     ++ "        }" ++ nl
     ++ "    }" ++ nl
     ++ "}" ++ nl)%string.
Proof. vm_compute. reflexivity. Qed.

(** The layout of [json.dump(..., indent=4, separators=(',', ': '),
    sort_keys=True)]: keys in order, four spaces per level, no space before
    a line break. *)
Example dumps_layout :
  Json.dumps (JDict [("b", JInt 1); ("a", JList [JNull; JStr "x"])])
  = ("{" ++ nl
     ++ "    " ++ dquote ++ "a" ++ dquote ++ ": [" ++ nl
     ++ "        null," ++ nl
     ++ "        " ++ dquote ++ "x" ++ dquote ++ nl
     ++ "    ]," ++ nl
     ++ "    " ++ dquote ++ "b" ++ dquote ++ ": 1" ++ nl
     ++ "}")%string.
Proof. reflexivity. Qed.

(** Two insertion orders of the same document. *)
Example dumps_ignores_insertion_order :
  Json.dumps (JDict [("b", JInt 1); ("a", JInt 2)])
  = Json.dumps (JDict [("a", JInt 2); ("b", JInt 1)]).
Proof.
  apply dumps_equiv.
  apply (equiv_dict _ [("a", JInt 2); ("b", JInt 1)]).
  - repeat constructor; cbn; intuition discriminate.
  - apply perm_swap.
  - repeat constructor.
Qed.

(* ===================================================================== *)
(** ** Further facts: [pip_install] and [pip_download]                    *)
(* ===================================================================== *)

Section PipInstallTrace.
Context {E : Env}.

(** What one run of the source loop leaves behind: the commands it ran, the
    lines it printed for them, and nothing else. *)
Lemma pip_install_loop_trace package_name r allow_global no_deps verbose text :
  forall srcs ignore_hashes c0 w,
  hash_text r package_name w text ->
  exists ran,
    let w' := snd (pip_install_loop srcs package_name r allow_global
                                    ignore_hashes no_deps verbose c0 w) in
    commands w' = (commands w ++ ran)%list
    /\ files w' = files w
    /\ tmp_count w' = tmp_count w
    /\ echoed w'
       = (echoed w
          ++ if verbose
             then map (fun e => (Stderr, ("$ " ++ fst e)%string)) ran
             else [])%list.
Proof.
  induction srcs as [|src rest IH]; intros ih c0 w Htext.
  - exists []. cbn [pip_install_loop]. destruct c0; cbn;
      rewrite !app_nil_r; destruct verbose; repeat split; now rewrite ?app_nil_r.
  - rewrite (pip_install_loop_cons _ _ _ _ _ _ text) by assumption.
    cbv zeta.
    set (ih' := skip_hash_checking text ih).
    set (cmd := pip_command _ _ (url src) _).
    set (w0 := if verbose then _ else w).
    set (c1 := process w0 cmd).
    set (w1 := snd (delegator_run cmd w0)).
    assert (Hw1 : commands w1 = (commands w ++ [(cmd, c1)])%list
                  /\ files w1 = files w
                  /\ tmp_count w1 = tmp_count w
                  /\ echoed w1
                     = (echoed w
                        ++ if verbose
                           then [(Stderr, ("$ " ++ cmd)%string)] else [])%list).
    { subst w1 c1 w0. destruct verbose; cbn; rewrite ?app_nil_r; repeat split. }
    destruct Hw1 as (Hc1 & Hf1 & Ht1 & He1).
    destruct (return_code c1 =? 0).
    + exists [(cmd, c1)]. cbn [snd].
      split; [exact Hc1|]. split; [exact Hf1|]. split; [exact Ht1|].
      rewrite He1. now destruct verbose.
    + assert (Htext1 : hash_text r package_name w1 text).
      { unfold hash_text in *. now rewrite Hf1. }
      destruct (IH ih' (Some c1) w1 Htext1) as (ran & Hcmds & Hfiles & Htmp & Hecho).
      exists ((cmd, c1) :: ran). cbv zeta in *.
      rewrite Hcmds, Hfiles, Htmp, Hecho, Hc1, He1.
      split; [now rewrite <- app_assoc|]. split; [exact Hf1|].
      split; [exact Ht1|].
      destruct verbose; rewrite <- app_assoc; reflexivity.
Qed.

End PipInstallTrace.

(** X1.  A hash-checked [pip_install] makes one temporary requirement
    file: a file that did not exist before the call, which after the call
    holds the package argument and nothing else, and which [pip_install]
    leaves behind whatever pip answers.  With [ignore_hashes=True]
    [pip_install] makes no temporary file. *)
Theorem pip_install_leaves_requirement_file (E : Env) :
  forall package_name allow_global no_deps verbose w,
    (let w' := snd (pip_install package_name None allow_global false no_deps
                                verbose w) in
     Dict.get (requirement_file w) (files w) = None
     /\ Dict.get (requirement_file w) (files w') = Some package_name
     /\ tmp_count w' = S (tmp_count w))
    /\ (let w' := snd (pip_install package_name None allow_global true no_deps
                                   verbose w) in
        tmp_count w' = tmp_count w).
Proof.
  intros package_name allow_global no_deps verbose w. split.
  - split; [apply tmp_fresh|].
    unfold pip_install. rewrite bind_eval. cbn [negb andb].
    rewrite make_requirement_file.
    set (w3 := mkWorld _ _ _ _).
    assert (Htext : hash_text (Some (requirement_file w)) package_name w3
                              package_name).
    { unfold hash_text. rewrite requirement_file_truthy.
      subst w3. cbn [files format_opt]. apply get_set_same. }
    destruct (pip_install_loop_trace package_name (Some (requirement_file w))
                allow_global no_deps verbose package_name (sources project)
                false None w3 Htext) as (ran & _ & Hfiles & Htmp & _).
    cbv zeta in *. rewrite Hfiles, Htmp. subst w3. cbn [files tmp_count].
    split; [apply get_set_same | reflexivity].
  - unfold pip_install. rewrite bind_eval. cbn [negb andb].
    unfold ret at 1. cbv beta iota.
    destruct (pip_install_loop_trace package_name None allow_global no_deps
                verbose (install_reqs_of None package_name) (sources project)
                true None w eq_refl) as (ran & _ & _ & Htmp & _).
    exact Htmp.
Qed.

(** The requirement file of [alpha==1.2.3] in the sample project. *)
Example requirement_file_of_alpha :
  files (snd (@pip_install Sample.env "alpha==1.2.3" None false false true
                           false Sample.empty_world))
  = [("/tmp/pipenv-0x-requirement.txt", "alpha==1.2.3")]%string.
Proof. reflexivity. Qed.

(** X2.  With [verbose] on, [pip_install] prints on the error stream one
    line [$ command] for every pip command it runs, in the order it runs
    them, and nothing else; with [verbose] off it prints nothing. *)
Theorem pip_install_verbose_echoes_commands (E : Env) :
  forall package_name allow_global ignore_hashes no_deps verbose w,
  exists ran,
    let w' := snd (pip_install package_name None allow_global ignore_hashes
                               no_deps verbose w) in
    commands w' = (commands w ++ ran)%list
    /\ echoed w'
       = (echoed w
          ++ if verbose
             then map (fun e => (Stderr, ("$ " ++ fst e)%string)) ran
             else [])%list.
Proof.
  intros package_name allow_global ignore_hashes no_deps verbose w.
  unfold pip_install. rewrite bind_eval.
  destruct ignore_hashes; cbn [negb andb].
  - unfold ret at 1. cbv beta iota.
    destruct (pip_install_loop_trace package_name None allow_global no_deps
                verbose (install_reqs_of None package_name) (sources project)
                true None w eq_refl) as (ran & Hcmds & _ & _ & Hecho).
    exists ran. now split.
  - rewrite make_requirement_file.
    set (w3 := mkWorld _ _ _ _).
    assert (Htext : hash_text (Some (requirement_file w)) package_name w3
                              package_name).
    { unfold hash_text. rewrite requirement_file_truthy.
      subst w3. cbn [files format_opt]. apply get_set_same. }
    destruct (pip_install_loop_trace package_name (Some (requirement_file w))
                allow_global no_deps verbose package_name (sources project)
                false None w3 Htext) as (ran & Hcmds & _ & _ & Hecho).
    exists ran. now split.
Qed.

(** X3.  Without any configured source neither function runs a command:
    both raise [UnboundLocalError] for the result variable [c];
    [pip_install] has by then already created its requirement file when
    hashes are checked. *)
Theorem no_source_is_unbound_result (E : Env) :
  sources project = [] ->
  forall package_name allow_global ignore_hashes no_deps verbose w,
    fst (pip_install package_name None allow_global ignore_hashes no_deps
                     verbose w) = Raised (UnboundLocalError "c")
    /\ commands (snd (pip_install package_name None allow_global ignore_hashes
                                  no_deps verbose w)) = commands w
    /\ tmp_count (snd (pip_install package_name None allow_global ignore_hashes
                                   no_deps verbose w))
       = (if ignore_hashes then tmp_count w else S (tmp_count w))
    /\ pip_download package_name w = (Raised (UnboundLocalError "c"), w).
Proof.
  intros Hsrc package_name allow_global ignore_hashes no_deps verbose w.
  unfold pip_install, pip_download. rewrite Hsrc.
  destruct ignore_hashes; cbn [negb andb].
  - repeat split.
  - rewrite bind_eval, make_requirement_file. repeat split.
Qed.

(** X3, witness: a project without sources. *)
Lemma no_source_is_unbound_result_witness :
  fst (@pip_install Offline.env "alpha" None false false true false
                    Sample.empty_world) = Raised (UnboundLocalError "c")
  /\ @pip_download Offline.env "alpha" Sample.empty_world
     = (Raised (UnboundLocalError "c"), Sample.empty_world).
Proof.
  destruct (no_source_is_unbound_result Offline.env eq_refl "alpha" false false
              true false Sample.empty_world) as (Hi & _ & _ & Hd).
  now split.
Defined.

(* ===================================================================== *)
(** ** Further facts: [do_install_dependencies]                           *)
(* ===================================================================== *)

Section InstallFacts.
Context {E : Env}.

Lemma pip_install_no_source package_name allow_global ignore_hashes no_deps
      verbose w :
  sources project = [] ->
  fst (pip_install package_name None allow_global ignore_hashes no_deps
                   verbose w) = Raised (UnboundLocalError "c").
Proof.
  intros Hsrc. unfold pip_install. rewrite Hsrc.
  destruct ignore_hashes; cbn [negb andb]; [reflexivity|].
  now rewrite bind_eval, make_requirement_file.
Qed.

Lemma pip_install_done_last package_name allow_global ignore_hashes no_deps
      verbose w c w' :
  pip_install package_name None allow_global ignore_hashes no_deps verbose w
  = (Done c, w') ->
  exists before cmd, commands w' = (before ++ [(cmd, c)])%list.
Proof.
  intros Hrun.
  destruct (sources project) as [|src rest] eqn:Hsrc.
  - pose proof (pip_install_no_source package_name allow_global
                  ignore_hashes no_deps verbose w Hsrc) as Hraise.
    rewrite Hrun in Hraise. discriminate.
  - assert (Hne : sources project <> []) by (rewrite Hsrc; discriminate).
    destruct (pip_install_spec package_name allow_global ignore_hashes no_deps
                verbose w Hne)
      as (c' & w'' & ran & Hrun' & Hcmds & Hfs & _).
    rewrite Hrun in Hrun'. injection Hrun' as <- <-.
    destruct Hfs as (failed & cmd & -> & _).
    exists (commands w ++ failed)%list, cmd. now rewrite Hcmds, app_assoc.
Qed.

Lemma install_deps_list_exit allow_global no_deps verbose :
  forall deps_list w code w',
    install_deps_list deps_list allow_global no_deps verbose w
    = (Exited code, w') ->
    code <> 0
    /\ exists before cmd c,
         commands w' = (before ++ [(cmd, c)])%list /\ return_code c = code.
Proof.
  induction deps_list as [|[dep ih] rest IH]; intros w code w' Hrun.
  - discriminate.
  - rewrite install_deps_list_cons in Hrun.
    destruct (pip_install _ _ _ _ _ _ w) as [[c|code1|e] w1] eqn:Hpip;
      try discriminate.
    + destruct (return_code c =? 0) eqn:Hrc.
      * now apply IH in Hrun.
      * injection Hrun as <- <-. apply Z.eqb_neq in Hrc. split; [exact Hrc|].
        destruct (pip_install_done_last _ _ _ _ _ _ _ _ Hpip)
          as (before & cmd & Hlast).
        exists before, cmd, c. now split.
    + exfalso.
      destruct (sources project) as [|src srcs] eqn:Hsrc.
      * pose proof (pip_install_no_source dep allow_global ih no_deps
                      verbose w Hsrc) as Hraise.
        rewrite Hpip in Hraise. discriminate.
      * assert (Hne : sources project <> []) by (rewrite Hsrc; discriminate).
        destruct (pip_install_spec dep allow_global ih no_deps verbose w Hne)
          as (c' & w'' & ran & Hrun' & _).
        rewrite Hpip in Hrun'. discriminate.
Qed.

Lemma install_deps_list_done allow_global no_deps verbose :
  forall deps_list w w',
    install_deps_list deps_list allow_global no_deps verbose w = (Done tt, w') ->
    deps_list <> [] ->
    exists before cmd c,
      commands w' = (before ++ [(cmd, c)])%list /\ return_code c = 0.
Proof.
  induction deps_list as [|[dep ih] rest IH]; intros w w' Hrun Hne.
  - contradiction.
  - rewrite install_deps_list_cons in Hrun.
    destruct (pip_install _ _ _ _ _ _ w) as [[c|code1|e] w1] eqn:Hpip;
      try discriminate.
    destruct (return_code c =? 0) eqn:Hrc; [|discriminate].
    destruct rest as [|next rest'].
    + cbn in Hrun. injection Hrun as <-.
      destruct (pip_install_done_last _ _ _ _ _ _ _ _ Hpip)
        as (before & cmd & Hlast).
      exists before, cmd, c. split; [exact Hlast | now apply Z.eqb_eq].
    + apply (IH _ _ Hrun). discriminate.
Qed.

End InstallFacts.

(** X4.  When the installation loop ends the run, the exit status is not
    zero and is the return code of the last pip command that was run; when
    the loop completes a non-empty plan, the last pip command returned
    zero. *)
Theorem install_exit_status_is_pip_status (E : Env) :
  forall deps_list allow_global no_deps verbose w w',
    (forall code,
        install_deps_list deps_list allow_global no_deps verbose w
        = (Exited code, w') ->
        code <> 0
        /\ exists before cmd c,
             commands w' = (before ++ [(cmd, c)])%list /\ return_code c = code)
    /\ (install_deps_list deps_list allow_global no_deps verbose w
        = (Done tt, w') ->
        deps_list <> [] ->
        exists before cmd c,
          commands w' = (before ++ [(cmd, c)])%list /\ return_code c = 0).
Proof.
  intros deps_list allow_global no_deps verbose w w'. split.
  - intros code. apply install_deps_list_exit.
  - apply install_deps_list_done.
Qed.

(** X4, witness: the plan [alpha, beta] of the sample project exits with
    pip's status 1 for [beta]; the plan [alpha] completes. *)
Lemma install_exit_status_is_pip_status_witness :
  (exists before cmd c,
      commands (snd (@install_deps_list Sample.env
                       [("alpha", true); ("beta", true)] false true false
                       Sample.empty_world))
      = (before ++ [(cmd, c)])%list /\ return_code c = 1)
  /\ (exists before cmd c,
         commands (snd (@install_deps_list Sample.env [("alpha", true)] false
                          true false Sample.empty_world))
         = (before ++ [(cmd, c)])%list /\ return_code c = 0).
Proof.
  split.
  - destruct (install_exit_status_is_pip_status Sample.env
                [("alpha", true); ("beta", true)] false true false
                Sample.empty_world
                (snd (@install_deps_list Sample.env
                        [("alpha", true); ("beta", true)] false true false
                        Sample.empty_world))) as [Hexit _].
    exact (proj2 (Hexit 1 eq_refl)).
  - destruct (install_exit_status_is_pip_status Sample.env
                [("alpha", true)] false true false Sample.empty_world
                (snd (@install_deps_list Sample.env [("alpha", true)] false
                        true false Sample.empty_world))) as [_ Hdone].
    apply (Hdone eq_refl). discriminate.
Defined.

Section RequirementsMode.
Context {E : Env}.

Lemma pure_step_ret {A} (a : A) : pure_step (ret a : M A).
Proof. intros w. split; [reflexivity | discriminate]. Qed.

Lemma pure_step_lift {A} (o : Outcome A) :
  (forall code, o <> Exited code) -> pure_step (lift o : M A).
Proof. intros Ho w. split; [reflexivity | exact Ho]. Qed.

Lemma pure_step_bound {A} var (x : option A) : pure_step (bound var x).
Proof. intros w. destruct x; (split; [reflexivity | discriminate]). Qed.

Lemma pure_step_isfile path : pure_step (isfile path).
Proof. intros w. split; [reflexivity | discriminate]. Qed.

Lemma pure_step_read_file path : pure_step (read_file path).
Proof.
  intros w. unfold read_file.
  destruct (Dict.get path (files w)); (split; [reflexivity | discriminate]).
Qed.

Lemma pure_step_bind {A B} (m : M A) (k : A -> M B) :
  pure_step m -> (forall a, pure_step (k a)) -> pure_step (bind m k).
Proof.
  intros Hm Hk w. rewrite bind_eval.
  destruct (Hm w) as [Hw Hne]. destruct (m w) as [[a|code|e] w1]; cbn in *.
  - subst w1. apply Hk.
  - now contradiction (Hne code).
  - subst w1. split; [reflexivity | discriminate].
Qed.

Lemma prints_once_bind {A B} (m : M A) (k : A -> M B) :
  pure_step m -> (forall a, prints_once_and_exits (k a)) ->
  prints_once_and_exits (bind m k).
Proof.
  intros Hm Hk w. rewrite bind_eval.
  destruct (Hm w) as [Hw Hne]. destruct (m w) as [[a|code|e] w1]; cbn in *.
  - subst w1. apply Hk.
  - now contradiction (Hne code).
  - subst w1. left. now exists e.
Qed.

Lemma getitem_no_exit j k code : Json.getitem j k <> Exited code.
Proof.
  destruct j as [| | | | |d]; cbn; try discriminate.
  destruct (Dict.get k d); discriminate.
Qed.

Lemma get_no_exit j k default code : Json.get j k default <> Exited code.
Proof.
  destruct j as [| | | | |d]; cbn; try discriminate.
  destruct (Dict.get k d); discriminate.
Qed.

Lemma update_item_no_exit x code : Json.update_item x <> Exited code.
Proof.
  unfold Json.update_item.
  repeat match goal with
         | |- context [match ?t with _ => _ end] => destruct t
         end; discriminate.
Qed.

Lemma update_items_no_exit items :
  forall d code, Json.update_items d items <> Exited code.
Proof.
  induction items as [|x rest IH]; intros d code; cbn [Json.update_items];
    [discriminate|].
  pose proof (update_item_no_exit x) as Hx.
  destruct (Json.update_item x) as [kv|c|e]; cbn [obind];
    [apply IH | now contradiction (Hx c) | discriminate].
Qed.

Lemma update_no_exit j o code : Json.update j o <> Exited code.
Proof.
  destruct j as [| | | | |d]; try discriminate.
  destruct o as [| | |s|l|o]; cbn [Json.update]; try discriminate.
  - pose proof (update_items_no_exit
                  (map (fun c => JStr (String c EmptyString)) (Py.chars s)) d)
      as Hs.
    destruct (Json.update_items d _) as [d'|c|e]; cbn [obind];
      [discriminate | now contradiction (Hs c) | discriminate].
  - pose proof (update_items_no_exit l d) as Hl.
    destruct (Json.update_items d l) as [d'|c|e]; cbn [obind];
      [discriminate | now contradiction (Hl c) | discriminate].
Qed.

Lemma dict_method_no_exit j code : Json.dict_method j <> Exited code.
Proof. destruct j; discriminate. Qed.

Lemma len_no_exit j code : Json.len j <> Exited code.
Proof. destruct j; discriminate. Qed.

Lemma loads_no_exit text code : loads text <> Exited code.
Proof. unfold loads. destruct (json_loads text); discriminate. Qed.

Lemma remove_hash_no_exit v code : remove_hash v <> Exited code.
Proof.
  destruct v as [| | |s|l|d]; cbn; try discriminate.
  - destruct (Py.contains "hash" s); discriminate.
  - destruct (existsb _ l); discriminate.
  - destruct (Dict.get "hash" d); discriminate.
Qed.

Lemma remove_hashes_no_exit d : forall code, remove_hashes d <> Exited code.
Proof.
  induction d as [|[k v] t IH]; intros code; cbn; [discriminate|].
  pose proof (remove_hash_no_exit v) as Hv.
  destruct (remove_hash v) as [v'|c|e]; cbn;
    [|now contradiction (Hv c)|discriminate].
  destruct (remove_hashes t) as [t'|c|e]; cbn;
    [discriminate|now contradiction (IH c)|discriminate].
Qed.

End RequirementsMode.

Section RequirementsRun.
Context {E : Env}.

(** With [bare] or [requirements] set, building the plan prints nothing
    and changes nothing. *)
Lemma deps_list_of_pure dev only bare requirements ignore_hashes skip_lock :
  (requirements || bare) = true ->
  pure_step (deps_list_of dev only bare requirements ignore_hashes skip_lock).
Proof.
  intros Hbare.
  unfold deps_list_of. cbv beta iota zeta.
  replace (if requirements then true else bare) with true
    by (destruct requirements, bare; try reflexivity; discriminate).
  cbn [negb].
  apply pure_step_bind; [apply pure_step_isfile|]. intros present.
  apply pure_step_bind.
  { destruct (skip_lock || only || negb present).
    - apply pure_step_ret.
    - apply pure_step_bind; [apply pure_step_ret|]. intros _.
      apply pure_step_bind; [apply pure_step_read_file|]. intros text.
      apply pure_step_bind;
        [apply pure_step_lift; intros; apply loads_no_exit|].
      intros j. apply pure_step_ret. }
  intros lockfile.
  apply pure_step_bind.
  { destruct (negb only); [|apply pure_step_ret].
    apply pure_step_bind; [apply pure_step_bound|]. intros l.
    apply pure_step_lift. intros; apply getitem_no_exit. }
  intros deps.
  apply pure_step_bind; [apply pure_step_bound|]. intros lock.
  apply pure_step_bind;
    [apply pure_step_lift; intros; apply get_no_exit|].
  intros vcs_deps.
  apply pure_step_bind.
  { destruct dev; [|apply pure_step_ret].
    apply pure_step_bind;
      [apply pure_step_lift; intros; apply dict_method_no_exit|]. intros _.
    apply pure_step_bind;
      [apply pure_step_lift; intros; apply getitem_no_exit|]. intros develop.
    apply pure_step_bind;
      [apply pure_step_lift; intros; apply update_no_exit|]. intros deps'.
    apply pure_step_bind;
      [apply pure_step_lift; intros; apply dict_method_no_exit|]. intros _.
    apply pure_step_bind;
      [apply pure_step_lift; intros; apply get_no_exit|]. intros develop_vcs.
    apply pure_step_bind;
      [apply pure_step_lift; intros; apply update_no_exit|]. intros vcs'.
    apply pure_step_ret. }
  intros both.
  apply pure_step_bind.
  { destruct ignore_hashes; [|apply pure_step_ret].
    apply pure_step_bind;
      [apply pure_step_lift; intros; apply dict_method_no_exit|]. intros d.
    apply pure_step_bind;
      [apply pure_step_lift; intros; apply remove_hashes_no_exit|]. intros d'.
    apply pure_step_ret. }
  intros deps'.
  apply pure_step_bind;
    [apply pure_step_lift; intros; apply len_no_exit|].
  intros n. apply pure_step_ret.
Qed.

(** The plan cannot be built when [lockfile] was never assigned. *)
Lemma deps_list_of_unbound dev only bare requirements ignore_hashes skip_lock
      w :
  (requirements || bare) = true ->
  skip_lock = true \/ only = true
  \/ Dict.get (lockfile_location project) (files w) = None ->
  deps_list_of dev only bare requirements ignore_hashes skip_lock w
  = (Raised (UnboundLocalError "lockfile"), w).
Proof.
  intros Hbare Hpipfile.
  unfold deps_list_of. cbv beta iota zeta.
  replace (if requirements then true else bare) with true
    by (destruct requirements, bare; try reflexivity; discriminate).
  rewrite bind_eval. unfold lockfile_exists, isfile.
  assert (Hcond : (skip_lock || only
                   || negb match Dict.get (lockfile_location project) (files w)
                           with Some _ => true | None => false end) = true).
  { destruct Hpipfile as [-> | [-> | ->]]; [reflexivity| |].
    - now rewrite orb_true_r.
    - now rewrite orb_true_r. }
  rewrite bind_eval, Hcond. cbn [negb]. unfold ret at 1. rewrite bind_eval.
  destruct only; reflexivity.
Qed.

(** In requirements mode the plan is built, printed, and the process
    exits. *)
Lemma requirements_mode_run dev only bare allow_global ignore_hashes
      skip_lock verbose w :
  (exists e,
      deps_list_of dev only bare true ignore_hashes skip_lock w
      = (Raised e, w)
      /\ do_install_dependencies dev only bare true allow_global
                                 ignore_hashes skip_lock verbose w
         = (Raised e, w))
  \/ (exists deps_list,
         deps_list_of dev only bare true ignore_hashes skip_lock w
         = (Done deps_list, w)
         /\ do_install_dependencies dev only bare true allow_global
                                    ignore_hashes skip_lock verbose w
            = (Exited 0, with_line w (Py.join nl (map fst deps_list)))).
Proof.
  destruct (deps_list_of_pure dev only bare true ignore_hashes skip_lock
              eq_refl w) as [Hw Hne].
  unfold do_install_dependencies. rewrite bind_eval.
  destruct (deps_list_of dev only bare true ignore_hashes skip_lock w)
    as [[deps_list|code|e] w1]; cbn [fst snd] in *; subst w1.
  - right. exists deps_list. split; reflexivity.
  - now contradiction (Hne code).
  - left. exists e. split; reflexivity.
Qed.

Lemma requirements_mode_prints_once dev only bare allow_global ignore_hashes
      skip_lock verbose :
  prints_once_and_exits
    (do_install_dependencies dev only bare true allow_global ignore_hashes
                             skip_lock verbose).
Proof.
  intros w.
  destruct (requirements_mode_run dev only bare allow_global ignore_hashes
              skip_lock verbose w) as [(e & _ & Hrun)|(deps_list & _ & Hrun)].
  - left. now exists e.
  - right. eexists. exact Hrun.
Qed.

End RequirementsRun.

(** X5.  [do_install_dependencies(requirements=True)] never runs a
    command and never installs.  It ends either with an exception raised
    while the plan is built, the world untouched, or with exit status 0
    after one call of [click.echo] on standard output, with no banner
    before it; the text of that call is the requirement strings of the
    whole plan, in plan order, joined by newlines. *)
Theorem requirements_mode_only_prints (E : Env) :
  forall dev only bare allow_global ignore_hashes skip_lock verbose w,
    (exists e,
        deps_list_of dev only bare true ignore_hashes skip_lock w
        = (Raised e, w)
        /\ do_install_dependencies dev only bare true allow_global
                                   ignore_hashes skip_lock verbose w
           = (Raised e, w))
    \/ (exists deps_list,
           deps_list_of dev only bare true ignore_hashes skip_lock w
           = (Done deps_list, w)
           /\ do_install_dependencies dev only bare true allow_global
                                      ignore_hashes skip_lock verbose w
              = (Exited 0,
                 mkWorld (files w) (tmp_count w) (commands w)
                         (echoed w
                          ++ [(Stdout, Py.join nl (map fst deps_list))]))).
Proof. intros. apply requirements_mode_run. Qed.

(** The requirements of the locked project with hashes, as printed. *)
Example requirements_mode_prints_plan :
  @do_install_dependencies Hashed.env false false false true false false
                           false false (Hashed.locked_world false)
  = (Exited 0,
     with_line (Hashed.locked_world false)
       ("alpha==1.0 --hash=sha256:alpha" ++ nl
        ++ "beta==1.0 --hash=sha256:beta" ++ nl
        ++ "gamma==1.0 --hash=sha256:gamma")).
Proof. vm_compute. reflexivity. Qed.

(** X6.  With [bare] or [requirements] set, [do_install_dependencies]
    assigns [lockfile] only when it reads [Pipfile.lock]: under
    [skip_lock], under [only], or when there is no lock file, it raises
    [UnboundLocalError] for [lockfile] and changes nothing. *)
Theorem bare_install_without_lock_is_unbound (E : Env) :
  forall dev only bare requirements allow_global ignore_hashes skip_lock
         verbose w,
    (requirements || bare) = true ->
    skip_lock = true \/ only = true
    \/ Dict.get (lockfile_location project) (files w) = None ->
    do_install_dependencies dev only bare requirements allow_global
                            ignore_hashes skip_lock verbose w
    = (Raised (UnboundLocalError "lockfile"), w).
Proof.
  intros dev only bare requirements allow_global ignore_hashes skip_lock
         verbose w Hbare Hpipfile.
  unfold do_install_dependencies.
  now rewrite bind_eval, deps_list_of_unbound.
Qed.

(** X6, witness: [requirements] without a lock file, in the sample
    project. *)
Lemma bare_install_without_lock_is_unbound_witness :
  @do_install_dependencies Sample.env false false false true false false
                           false false Sample.empty_world
  = (Raised (UnboundLocalError "lockfile"), Sample.empty_world).
Proof.
  apply (bare_install_without_lock_is_unbound Sample.env).
  - reflexivity.
  - right. right. reflexivity.
Defined.

(* ===================================================================== *)
(** ** Further facts: [format_pip_output]                                 *)
(* ===================================================================== *)

Section Lines.

Lemma prefix_cons (x y : ascii) (a b : string) :
  String.prefix (String x a) (String y b)
  = if ascii_dec x y then String.prefix a b else false.
Proof. reflexivity. Qed.

Lemma prefix_app_l (sub a b : string) :
  String.prefix sub a = true -> String.prefix sub (a ++ b) = true.
Proof.
  revert a. induction sub as [|x sub IH]; intros a H.
  - apply prefix_nil.
  - destruct a as [|y a]; [discriminate|].
    change (String y a ++ b)%string with (String y (a ++ b)).
    rewrite prefix_cons in *. destruct (ascii_dec x y); [|discriminate].
    now apply IH.
Qed.

Lemma prefix_take (sub : string) :
  forall n s, String.prefix sub (Py.take n s) = true ->
              String.prefix sub s = true.
Proof.
  induction sub as [|x sub IH]; intros n s H.
  - apply prefix_nil.
  - destruct n as [|n], s as [|y s]; try discriminate.
    cbn [Py.take] in H. rewrite prefix_cons in *.
    destruct (ascii_dec x y); [|discriminate]. now apply (IH n).
Qed.

Lemma prefix_app_sep (sub a b : string) (c : ascii) :
  Py.contains (String c "") sub = false ->
  String.prefix sub (a ++ String c b) = true -> String.prefix sub a = true.
Proof.
  revert a. induction sub as [|x sub IH]; intros a Hc H.
  - apply prefix_nil.
  - cbn [Py.contains] in Hc. rewrite prefix_char in Hc.
    apply orb_false_iff in Hc as [Hx Hsub].
    destruct a as [|y a].
    + change ("" ++ String c b)%string with (String c b) in H.
      rewrite prefix_cons in H. destruct (ascii_dec x c) as [->|]; [|discriminate].
      now rewrite Ascii.eqb_refl in Hx.
    + change (String y a ++ String c b)%string
        with (String y (a ++ String c b)) in H.
      rewrite prefix_cons in *. destruct (ascii_dec x y); [|discriminate].
      now apply IH.
Qed.

Lemma contains_prefix (sub s : string) :
  String.prefix sub s = true -> Py.contains sub s = true.
Proof. intros H. destruct s; cbn [Py.contains]; now rewrite H. Qed.

Lemma contains_tail (sub : string) (c : ascii) (s : string) :
  Py.contains sub s = true -> Py.contains sub (String c s) = true.
Proof. intros H. cbn [Py.contains]. rewrite H. apply orb_true_r. Qed.

Lemma contains_app_l (sub a b : string) :
  Py.contains sub a = true -> Py.contains sub (a ++ b) = true.
Proof.
  induction a as [|y a IH]; intros H.
  - cbn [Py.contains] in H. rewrite orb_false_r in H.
    apply contains_prefix. now apply (prefix_app_l sub "" b).
  - cbn [Py.contains] in H. apply orb_true_iff in H as [H|H].
    + apply contains_prefix. now apply prefix_app_l.
    + change (String y a ++ b)%string with (String y (a ++ b)).
      apply contains_tail. now apply IH.
Qed.

Lemma contains_app_r (sub a b : string) :
  Py.contains sub b = true -> Py.contains sub (a ++ b) = true.
Proof.
  intros H. induction a as [|y a IH]; [exact H|].
  change (String y a ++ b)%string with (String y (a ++ b)).
  now apply contains_tail.
Qed.

Lemma contains_app_sep (sub a b : string) (c : ascii) :
  Py.contains (String c "") sub = false ->
  Py.contains sub (a ++ String c b) = true ->
  Py.contains sub a = true \/ Py.contains sub b = true.
Proof.
  intros Hc. induction a as [|y a IH]; intros H.
  - change ("" ++ String c b)%string with (String c b) in H.
    cbn [Py.contains] in H. apply orb_true_iff in H as [H|H]; [|now right].
    left. apply contains_prefix.
    now apply (prefix_app_sep sub "" b c).
  - change (String y a ++ String c b)%string
      with (String y (a ++ String c b)) in H.
    cbn [Py.contains] in H. apply orb_true_iff in H as [H|H].
    + left. apply contains_prefix.
      now apply (prefix_app_sep sub (String y a) b c).
    + destruct (IH H) as [Ha|Hb]; [left; now apply contains_tail | now right].
Qed.

Lemma find_none (sub : string) :
  forall s, Py.find sub s = None <-> Py.contains sub s = false.
Proof.
  induction s as [|c s IH]; cbn [Py.find Py.contains].
  - destruct (String.prefix sub ""); [split; discriminate | tauto].
  - destruct (String.prefix sub (String c s)); [split; discriminate|].
    cbn [orb]. rewrite <- IH. destruct (Py.find sub s); cbn;
      split; congruence.
Qed.

Lemma take_before_first (sub : string) :
  sub <> EmptyString ->
  forall s i, Py.find sub s = Some i ->
              Py.contains sub (Py.take i s) = false.
Proof.
  intros Hsub. induction s as [|c s IH]; intros i H.
  - cbn [Py.find] in H. destruct sub; [contradiction | discriminate].
  - cbn [Py.find] in H.
    destruct (String.prefix sub (String c s)) eqn:Hpre.
    + injection H as <-. cbn. destruct sub; [contradiction | reflexivity].
    + destruct (Py.find sub s) as [j|] eqn:Hfind; [|discriminate].
      injection H as <-. cbn [Py.take Py.contains].
      rewrite (IH j eq_refl), orb_false_r.
      destruct (String.prefix sub (String c (Py.take j s))) eqn:Hp;
        [|reflexivity].
      apply (prefix_take sub (S j) (String c s)) in Hp. congruence.
Qed.

Lemma split_go_not_nil (sep : string) :
  forall s skip cur, Py.split_go sep skip cur s <> [].
Proof.
  induction s as [|c s IH]; intros skip cur; cbn [Py.split_go];
    [discriminate|].
  destruct skip; [|apply IH].
  destruct (String.prefix sep (String c s)); [discriminate | apply IH].
Qed.

Lemma concat_cons (sep x : string) (l : list string) :
  l <> [] -> String.concat sep (x :: l) = (x ++ sep ++ String.concat sep l)%string.
Proof. destruct l; [contradiction | reflexivity]. Qed.

Lemma prefix_nl (c : ascii) (s : string) :
  String.prefix nl (String c s) = Ascii.eqb (ascii_of_nat 10) c.
Proof. apply prefix_char. Qed.

(** Joining the lines of a text gives the text back. *)
Lemma join_split_go (s : string) :
  forall cur, Py.join nl (Py.split_go nl 0 cur s) = (cur ++ s)%string.
Proof.
  unfold Py.join. induction s as [|c s IH]; intros cur; cbn [Py.split_go].
  - cbn. now rewrite append_nil_r.
  - rewrite prefix_nl. destruct (Ascii.eqb (ascii_of_nat 10) c) eqn:Hc.
    + apply Ascii.eqb_eq in Hc as <-.
      rewrite concat_cons by apply split_go_not_nil.
      change (String.length nl - 1)%nat with 0%nat. now rewrite IH.
    + rewrite IH, append_assoc. reflexivity.
Qed.

Lemma join_split (s : string) : Py.join nl (Py.split nl s) = s.
Proof. apply (join_split_go s ""). Qed.

(** A line of a text holds only what the text holds. *)
Lemma split_go_piece (sub : string) (s : string) :
  forall cur line,
    In line (Py.split_go nl 0 cur s) ->
    Py.contains sub line = true -> Py.contains sub (cur ++ s) = true.
Proof.
  induction s as [|c s IH]; intros cur line Hin Hsub; cbn [Py.split_go] in Hin.
  - destruct Hin as [<-|[]]. now rewrite append_nil_r.
  - rewrite prefix_nl in Hin.
    destruct (Ascii.eqb (ascii_of_nat 10) c).
    + destruct Hin as [<-|Hin]; [now apply contains_app_l|].
      apply contains_app_r, contains_tail.
      exact (IH "" line Hin Hsub).
    + replace (cur ++ String c s)%string with ((cur ++ String c "") ++ s)%string
        by apply append_assoc.
      now apply (IH _ line).
Qed.

(** The marker does not span two lines. *)
Lemma contains_join (sub : string) :
  sub <> EmptyString ->
  Py.contains nl sub = false ->
  forall l, Py.contains sub (Py.join nl l) = true ->
            exists line, In line l /\ Py.contains sub line = true.
Proof.
  intros Hne Hsub. unfold Py.join.
  induction l as [|x l IH]; intros H.
  - cbn in H. destruct sub; [contradiction | discriminate].
  - destruct l as [|y l].
    + exists x. split; [now left | exact H].
    + rewrite concat_cons in H by discriminate.
      apply contains_app_sep in H; [|exact Hsub].
      destruct H as [H|H].
      * exists x. split; [now left | exact H].
      * destruct (IH H) as (line & Hin & Hline).
        exists line. split; [now right | exact Hline].
Qed.

End Lines.

Section FormatOutput.

Lemma format_pip_output_line_clean (line : string) :
  Py.contains "(from -r" (format_pip_output_line line) = false.
Proof.
  unfold format_pip_output_line.
  destruct (Py.find "(from -r" line) as [i|] eqn:Hfind.
  - apply take_before_first with (s := line); [discriminate | exact Hfind].
  - now apply find_none.
Qed.

Lemma format_pip_output_clean (text : string) :
  Py.contains "(from -r" (format_pip_output text) = false.
Proof.
  destruct (Py.contains "(from -r" (format_pip_output text)) eqn:H;
    [|reflexivity].
  apply contains_join in H; [|discriminate|reflexivity].
  destruct H as (line & Hin & Hline).
  apply in_map_iff in Hin as (l0 & <- & _).
  now rewrite format_pip_output_line_clean in Hline.
Qed.

Lemma format_pip_output_fixed (text : string) :
  Py.contains "(from -r" text = false -> format_pip_output text = text.
Proof.
  intros H. unfold format_pip_output.
  rewrite <- (join_split text) at 2. f_equal.
  rewrite <- (map_id (Py.split nl text)) at 2.
  apply map_ext_in. intros line Hin. unfold format_pip_output_line.
  destruct (Py.find "(from -r" line) as [i|] eqn:Hfind; [|reflexivity].
  exfalso.
  assert (Hline : Py.contains "(from -r" line = true).
  { destruct (Py.contains "(from -r" line) eqn:Hc; [reflexivity|].
    apply find_none in Hc. congruence. }
  pose proof (split_go_piece "(from -r" text "" line Hin Hline) as Hc.
  change ("" ++ text)%string with text in Hc. congruence.
Qed.

End FormatOutput.

(** X7.  The text returned by [format_pip_output] never holds the marker
    [(from -r], and formatting it once more changes nothing. *)
Theorem format_pip_output_removes_marker :
  forall text,
    Py.contains "(from -r" (format_pip_output text) = false
    /\ format_pip_output (format_pip_output text) = format_pip_output text.
Proof.
  intros text. split.
  - apply format_pip_output_clean.
  - apply format_pip_output_fixed, format_pip_output_clean.
Qed.

(** X8.  [format_pip_output] returns a text without the marker [(from -r]
    as it is: nothing else of pip's output is touched, whatever the line
    ends. *)
Theorem format_pip_output_keeps_unmarked :
  forall text,
    Py.contains "(from -r" text = false -> format_pip_output text = text.
Proof. intros text H. now apply format_pip_output_fixed. Qed.

(** X8, witness: two lines of pip output and an empty last line. *)
Lemma format_pip_output_keeps_unmarked_witness :
  format_pip_output
    ("Collecting alpha" ++ nl ++ "  Saved ./alpha-1.0.tar.gz" ++ nl)
  = ("Collecting alpha" ++ nl ++ "  Saved ./alpha-1.0.tar.gz" ++ nl)%string.
Proof.
  apply format_pip_output_keeps_unmarked. reflexivity.
Defined.

(* ===================================================================== *)
(** ** Further facts: [parse_install_output]                              *)
(* ===================================================================== *)

Section SectionsOfOutput.
Context {E : Env}.

Lemma scan_lines_app names name lines :
  scan_lines names name lines = (names ++ scan_lines [] name lines)%list.
Proof.
  induction lines as [|line rest IH]; cbn [scan_lines].
  - now rewrite app_nil_r.
  - destruct (parse_saved line); [reflexivity | exact IH].
Qed.

Lemma scan_lines_short name lines :
  (List.length (scan_lines [] name lines) <= 1)%nat.
Proof.
  induction lines as [|line rest IH]; cbn [scan_lines]; [cbn; lia|].
  destruct (parse_saved line); [cbn; lia | exact IH].
Qed.

Lemma scan_lines_first names name before line after file :
  (forall l, In l before -> parse_saved l = None) ->
  parse_saved line = Some file ->
  scan_lines names name (before ++ line :: after)
  = (names ++ [(saved_fname file, name)])%list.
Proof.
  intros Hbefore Hline. induction before as [|b before IH]; cbn [scan_lines app].
  - now rewrite Hline.
  - rewrite (Hbefore b) by now left.
    apply IH. intros l Hl. apply Hbefore. now right.
Qed.

Lemma parse_section_app names section :
  parse_section names section = (names ++ parse_section [] section)%list.
Proof. unfold parse_section. apply scan_lines_app. Qed.

Lemma fold_parse_section sections :
  forall names,
    fold_left parse_section sections names
    = (names ++ flat_map (parse_section []) sections)%list.
Proof.
  induction sections as [|sec rest IH]; intros names; cbn [fold_left flat_map].
  - now rewrite app_nil_r.
  - rewrite IH, (parse_section_app names sec), app_assoc. reflexivity.
Qed.

End SectionsOfOutput.

(** X9.  [parse_install_output] treats the pieces between two
    [Collecting ] independently and in order, and takes at most one pair
    from each: the first line of the piece that, stripped, reads
    [Saved <file>] or [Using cached <file>] gives the pair, whatever
    follows it in the piece.  The pair holds the last component of the
    file's path, a leading [./] removed and percent escapes decoded, and the
    name on the first line of the piece, cut at the first parenthesis and
    the first semicolon, stripped and normalised.  Stripping, decoding and
    normalising are those of the interpreter and the libraries in use. *)
Theorem parse_install_output_one_pair_per_section (E : Env) :
  forall output,
    parse_install_output output
    = flat_map (parse_section []) (Py.split "Collecting " output)
    /\ (forall section, (List.length (parse_section [] section) <= 1)%nat)
    /\ (forall section before line after file,
           Py.split nl section = (before ++ line :: after)%list ->
           (forall l, In l before ->
              parse_field "Saved " (Py.strip_by is_space l) = None
              /\ parse_field "Using cached " (Py.strip_by is_space l) = None) ->
           parse_field "Saved " (Py.strip_by is_space line) = Some file
           \/ (parse_field "Saved " (Py.strip_by is_space line) = None
               /\ parse_field "Using cached " (Py.strip_by is_space line)
                  = Some file) ->
           parse_section [] section
           = [(unquote
                 (if Py.startswith "./"
                       (Py.item_last (Py.split (os_sep os) file))
                  then Py.drop 2 (Py.item_last (Py.split (os_sep os) file))
                  else Py.item_last (Py.split (os_sep os) file)),
               pep423_name
                 (Py.strip_by is_space
                    (Py.item0
                       (Py.split ";"
                          (Py.item0
                             (Py.split "(" (Py.item0 (Py.split nl section))))))))]).
Proof.
  intros output. split; [|split].
  - unfold parse_install_output. exact (fold_parse_section _ []).
  - intros section. unfold parse_section. apply scan_lines_short.
  - intros section before line after file Hsplit Hbefore Hline.
    unfold parse_section. rewrite Hsplit at 2.
    apply (scan_lines_first []).
    + intros l Hl. destruct (Hbefore l Hl) as [Hsaved Hcached].
      unfold parse_saved, strip. now rewrite Hsaved.
    + unfold parse_saved, strip.
      destruct Hline as [-> | [-> ->]]; reflexivity.
Qed.

(** X9, witness: a piece with two [Saved] lines gives the first file. *)
Lemma parse_install_output_one_pair_per_section_witness :
  @parse_section Sample.env []
    ("alpha" ++ nl ++ "  Saved ./a-1.0.tar.gz" ++ nl
             ++ "  Saved ./b-2.0.tar.gz")
  = [("a-1.0.tar.gz", "alpha")].
Proof.
  destruct (parse_install_output_one_pair_per_section Sample.env "")
    as (_ & _ & Hfirst).
  apply (Hfirst ("alpha" ++ nl ++ "  Saved ./a-1.0.tar.gz" ++ nl
                         ++ "  Saved ./b-2.0.tar.gz")%string
                ["alpha"] "  Saved ./a-1.0.tar.gz" ["  Saved ./b-2.0.tar.gz"]
                "./a-1.0.tar.gz").
  - reflexivity.
  - intros l [<-|[]]. split; reflexivity.
  - left. reflexivity.
Defined.

(* ===================================================================== *)
(** ** Further facts: [do_lock]                                           *)
(* ===================================================================== *)

(** X10.  When the resolver raises, for the development packages or,
    these being resolved, for the packages, [do_lock] ends there with that
    exception: it has printed its progress lines, one or two, and nothing
    else; it has run no command, so the marker probe is not reached; and
    it has not opened the lock file, no file having been written. *)
Theorem do_lock_fails_before_writing (E : Env) :
  forall no_hashes verbose w top d0 v0 m0,
    shell_is top d0 v0 m0 ->
    (forall e,
        resolve_deps (convert_deps_to_pip (dev_packages project))
                     (sources project) verbose (negb no_hashes)
                     (mkWorld (files w) (tmp_count w) (commands w)
                        (echoed w
                         ++ [(Stderr, locking_message "[dev-packages]")]))
        = Raised e ->
        do_lock no_hashes verbose w
        = (Raised e,
           mkWorld (files w) (tmp_count w) (commands w)
                   (echoed w ++ [(Stderr, locking_message "[dev-packages]")])))
    /\ (forall dev_results e,
           resolve_deps (convert_deps_to_pip (dev_packages project))
                        (sources project) verbose (negb no_hashes)
                        (mkWorld (files w) (tmp_count w) (commands w)
                           (echoed w
                            ++ [(Stderr, locking_message "[dev-packages]")]))
           = Done dev_results ->
           hashes_present no_hashes dev_results ->
           resolve_deps (convert_deps_to_pip (packages project))
                        (sources project) false (negb no_hashes)
                        (mkWorld (files w) (tmp_count w) (commands w)
                           ((echoed w
                             ++ [(Stderr, locking_message "[dev-packages]")])
                            ++ [(Stderr, locking_message "[packages]")]))
           = Raised e ->
           do_lock no_hashes verbose w
           = (Raised e,
              mkWorld (files w) (tmp_count w) (commands w)
                      ((echoed w
                        ++ [(Stderr, locking_message "[dev-packages]")])
                       ++ [(Stderr, locking_message "[packages]")]))).
Proof.
  intros no_hashes verbose w top d0 v0 m0 (Htop & Hd & Hv & Hm).
  assert (H1 : cleanup_section "default" (_lockfile project)
               = Done (JDict (Dict.set "default" (JDict (kept d0)) top))).
  { rewrite Htop. unfold cleanup_section. cbn [Json.getitem]. rewrite Hd.
    reflexivity. }
  assert (H2 : cleanup_section "develop"
                 (JDict (Dict.set "default" (JDict (kept d0)) top))
               = Done (JDict (Dict.set "develop" (JDict (kept v0))
                                (Dict.set "default" (JDict (kept d0)) top)))).
  { unfold cleanup_section. cbn [Json.getitem].
    rewrite get_set_other by reflexivity. rewrite Hv. reflexivity. }
  split.
  - intros e Hdev.
    unfold do_lock. rewrite bind_eval. unfold do_lock_prepare.
    rewrite bind_eval. cbn [echo_err echo_to].
    rewrite bind_eval. unfold lift at 1. rewrite H1.
    rewrite bind_eval. unfold lift at 1. rewrite H2.
    rewrite bind_eval. rewrite Hdev. reflexivity.
  - intros dev_results e Hdev Hhashes Hdef.
    unfold do_lock. rewrite bind_eval. unfold do_lock_prepare.
    rewrite bind_eval. cbn [echo_err echo_to].
    rewrite bind_eval. unfold lift at 1. rewrite H1.
    rewrite bind_eval. unfold lift at 1. rewrite H2.
    rewrite bind_eval. rewrite Hdev.
    rewrite bind_eval. unfold lift at 1.
    rewrite (add_results_done "develop" no_hashes dev_results _ (kept v0))
      by (try assumption; apply get_set_same).
    rewrite bind_eval. cbn [echo_err echo_to files tmp_count commands echoed].
    rewrite bind_eval. rewrite Hdef. reflexivity.
Qed.

(** X10, witness: the resolver cannot reach the network; the lock file of
    the project stays as it was. *)
Lemma do_lock_fails_before_writing_witness :
  @do_lock Offline.env true false (Sample.locked_world "changed")
  = (Raised (IOError "network"),
     mkWorld [("Pipfile", "changed"); ("Pipfile.lock", "LOCK abc")] 0 []
             [(Stderr, "Locking [dev-packages] dependencies...")]).
Proof.
  assert (Hshell : @shell_is Offline.env Sample.top Sample.default
                             Sample.develop Sample.meta)
    by (repeat split).
  exact (proj1 (do_lock_fails_before_writing Offline.env true false
                  (Sample.locked_world "changed") Sample.top Sample.default
                  Sample.develop Sample.meta Hshell)
               (IOError "network") eq_refl).
Defined.

(* ===================================================================== *)
(** ** Further facts: [do_init]                                           *)
(* ===================================================================== *)

Lemma ret_eval {S A} (a : A) (s : S) : ret a s = (Done a, s).
Proof. reflexivity. Qed.

(** X11.  Every call that [do_init] makes is one its options allow:
    [do_lock] is not called under [skip_lock] and gets the caller's
    [no_hashes]; the project location is not shown in [requirements]
    mode; the activation hint is not given under [allow_global]; the
    installation gets [dev], [requirements], [allow_global], [skip_lock]
    and [verbose] as they were passed; and the virtualenv is only removed
    with the message that creation was aborted. *)
Theorem do_init_calls_follow_options (E : Env) (C : Callees) :
  forall dev requirements allow_global ignore_hashes no_hashes ignore_pipfile
         skip_lock verbose s,
  exists new,
    calls (snd (do_init dev requirements allow_global ignore_hashes no_hashes
                        ignore_pipfile skip_lock verbose s))
    = (calls s ++ new)%list
    /\ Forall (allowed_by_options dev requirements allow_global no_hashes
                                  skip_lock verbose) new.
Proof.
  intros dev requirements allow_global ignore_hashes no_hashes ignore_pipfile
         skip_lock verbose.
  change (only_calls (allowed_by_options dev requirements allow_global
                                         no_hashes skip_lock verbose)
            (do_init dev requirements allow_global ignore_hashes no_hashes
                     ignore_pipfile skip_lock verbose)).
  unfold do_init, do_init_prelude, do_init_relock, do_init_install.
  apply only_calls_bind; [|intros ?].
  { apply only_calls_bind; [now apply only_calls_call|intros ?].
    apply only_calls_bind; [|intros ?].
    { destruct requirements; cbn [negb];
        [apply only_calls_ret | now apply only_calls_call]. }
    apply only_calls_bind; [apply only_calls_in_world|intros venv].
    destruct (negb venv); [|apply only_calls_ret].
    apply only_calls_except; [now apply only_calls_call|].
    apply only_calls_bind; [now apply only_calls_call|intros ?].
    apply only_calls_exit. }
  apply only_calls_bind; [|intros ?].
  { apply only_calls_bind; [apply only_calls_in_world|intros present].
    apply only_calls_bind; [|intros ?].
    { destruct skip_lock; [rewrite andb_false_r; apply only_calls_ret|].
      destruct (present && negb ignore_pipfile && negb false);
        [|apply only_calls_ret].
      apply only_calls_bind; [apply only_calls_in_world|intros text].
      apply only_calls_bind; [apply only_calls_lift|intros lockfile].
      apply only_calls_bind; [apply only_calls_in_world|intros p].
      apply only_calls_bind; [apply only_calls_lift|intros recorded].
      destruct (negb (eq_str recorded (pipfile_hash p)));
        [|apply only_calls_ret].
      apply only_calls_bind; [apply only_calls_in_world|intros ?].
      now apply only_calls_call. }
    apply only_calls_bind; [apply only_calls_in_world|intros present'].
    destruct skip_lock; [rewrite andb_false_r; apply only_calls_ret|].
    destruct (negb present' && negb false); [|apply only_calls_ret].
    apply only_calls_bind; [apply only_calls_in_world|intros ?].
    now apply only_calls_call. }
  apply only_calls_bind; [|intros ?].
  { apply only_calls_call. cbn. tauto. }
  destruct allow_global; cbn [negb];
    [apply only_calls_ret | now apply only_calls_call].
Qed.

(** X12.  When there is no virtualenv and its creation is interrupted
    from the keyboard, [do_init] removes the virtualenv directory, with
    the message that creation was aborted, and exits with status 1; it
    neither locks nor installs. *)
Theorem do_init_interrupted_creation (E : Env) (C : Callees) :
  forall dev requirements allow_global ignore_hashes no_hashes ignore_pipfile
         skip_lock verbose s,
    (forall w, virtualenv_exists project w = false) ->
    (forall w, fst (callee Call_ensure_pipfile w) = Done tt) ->
    (forall w, fst (callee (Call_do_where false) w) = Done tt) ->
    (forall w, fst (callee Call_do_create_virtualenv w)
               = Raised KeyboardInterrupt) ->
    (forall w, fst (callee (Call_cleanup_virtualenv false) w) = Done tt) ->
    fst (do_init dev requirements allow_global ignore_hashes no_hashes
                 ignore_pipfile skip_lock verbose s) = Exited 1
    /\ calls (snd (do_init dev requirements allow_global ignore_hashes
                           no_hashes ignore_pipfile skip_lock verbose s))
       = (calls s
          ++ Call_ensure_pipfile
          :: (if requirements then [] else [Call_do_where false])
          ++ [Call_do_create_virtualenv; Call_cleanup_virtualenv false])%list.
Proof.
  intros dev requirements allow_global ignore_hashes no_hashes ignore_pipfile
         skip_lock verbose [w log] Hvenv Hpipfile Hwhere Hcreate Hcleanup.
  unfold do_init, do_init_prelude.
  rewrite !bind_eval, call_eval, Hpipfile.
  set (w1 := snd (callee Call_ensure_pipfile w)).
  rewrite bind_eval.
  destruct requirements; cbn [negb app].
  - rewrite ret_eval.
    rewrite bind_eval, in_world_eval. cbn [fst snd]. rewrite Hvenv. cbn [negb].
    unfold except_KeyboardInterrupt. rewrite call_eval, Hcreate.
    rewrite bind_eval, call_eval, Hcleanup. unfold sys_exit.
    cbn [fst snd calls].
    split; [reflexivity|]. rewrite <- !app_assoc. reflexivity.
  - rewrite call_eval, Hwhere.
    rewrite bind_eval, in_world_eval. cbn [fst snd]. rewrite Hvenv. cbn [negb].
    unfold except_KeyboardInterrupt. rewrite call_eval, Hcreate.
    rewrite bind_eval, call_eval, Hcleanup. unfold sys_exit.
    cbn [fst snd calls].
    split; [reflexivity|]. rewrite <- !app_assoc. reflexivity.
Qed.

(** X12, witness: the sample project, which has no virtualenv, with
    Ctrl-C during its creation. *)
Lemma do_init_interrupted_creation_witness :
  fst (@do_init Offline.env Interrupted.cli false false false false true
                false false false (mkInitState Sample.empty_world []))
  = Exited 1
  /\ calls (snd (@do_init Offline.env Interrupted.cli false false false false
                          true false false false
                          (mkInitState Sample.empty_world [])))
     = [Call_ensure_pipfile; Call_do_where false; Call_do_create_virtualenv;
        Call_cleanup_virtualenv false].
Proof.
  apply (do_init_interrupted_creation Offline.env Interrupted.cli
           false false false false true false false false
           (mkInitState Sample.empty_world []));
    intros w; reflexivity.
Defined.

(* ===================================================================== *)
(** ** Further facts: [proper_case_section]                               *)
(* ===================================================================== *)

Section DictKeys.
Context {V : Type}.

Lemma get_in (k : string) (v : V) (d : list (string * V)) :
  Dict.get k d = Some v -> In k (Dict.keys d).
Proof.
  induction d as [|[k0 v0] d IH]; cbn; [discriminate|].
  destruct (String.eqb k k0) eqn:Hk.
  - apply String.eqb_eq in Hk. now left.
  - intros H. right. now apply IH.
Qed.

Lemma in_get (k : string) (d : list (string * V)) :
  In k (Dict.keys d) -> exists v, Dict.get k d = Some v.
Proof.
  induction d as [|[k0 v0] d IH]; cbn; [contradiction|].
  intros Hin. destruct (String.eqb k k0) eqn:Hk; [now exists v0|].
  destruct Hin as [->|Hin]; [now rewrite String.eqb_refl in Hk | now apply IH].
Qed.

Lemma in_keys_set (k k' : string) (v : V) (d : list (string * V)) :
  In k' (Dict.keys (Dict.set k v d)) <-> k' = k \/ In k' (Dict.keys d).
Proof.
  induction d as [|[k0 v0] d IH]; cbn.
  - intuition.
  - destruct (String.eqb k k0) eqn:Hk; cbn.
    + apply String.eqb_eq in Hk. subst. intuition.
    + rewrite IH. intuition.
Qed.

Lemma nodup_set (k : string) (v : V) (d : list (string * V)) :
  NoDup (Dict.keys d) -> NoDup (Dict.keys (Dict.set k v d)).
Proof.
  induction d as [|[k0 v0] d IH]; cbn; intros Hnd.
  - constructor; [intros [] | constructor].
  - inversion Hnd as [|? ? Hnotin Hnd']; subst.
    destruct (String.eqb k k0) eqn:Hk; cbn.
    + now constructor.
    + constructor; [|now apply IH].
      intros Hin. apply in_keys_set in Hin as [->|Hin]; [|contradiction].
      now rewrite String.eqb_refl in Hk.
Qed.

Lemma in_keys_del (k k' : string) (d : list (string * V)) :
  In k' (Dict.keys (Dict.del k d)) -> In k' (Dict.keys d).
Proof.
  induction d as [|[k0 v0] d IH]; cbn; [tauto|].
  destruct (String.eqb k k0); cbn; [tauto|]. intuition.
Qed.

Lemma in_keys_del_other (k k' : string) (d : list (string * V)) :
  k' <> k -> In k' (Dict.keys d) -> In k' (Dict.keys (Dict.del k d)).
Proof.
  intros Hne. induction d as [|[k0 v0] d IH]; cbn; [tauto|].
  destruct (String.eqb k k0) eqn:Hk; cbn.
  - apply String.eqb_eq in Hk. subst k0. intros [->|H]; [contradiction|exact H].
  - intuition.
Qed.

Lemma nodup_del (k : string) (d : list (string * V)) :
  NoDup (Dict.keys d) -> NoDup (Dict.keys (Dict.del k d)).
Proof.
  induction d as [|[k0 v0] d IH]; cbn; intros Hnd; [constructor|].
  inversion Hnd as [|? ? Hnotin Hnd']; subst.
  destruct (String.eqb k k0); cbn; [assumption|].
  constructor; [|now apply IH].
  intros Hin. apply Hnotin. now apply in_keys_del in Hin.
Qed.

Lemma get_del_other (k k' : string) (d : list (string * V)) :
  String.eqb k' k = false -> Dict.get k' (Dict.del k d) = Dict.get k' d.
Proof.
  intros Hne. induction d as [|[k0 v0] d IH]; cbn; [reflexivity|].
  destruct (String.eqb k k0) eqn:Hk; cbn.
  - apply String.eqb_eq in Hk. subst k0. now rewrite Hne.
  - destruct (String.eqb k' k0); [reflexivity | exact IH].
Qed.

Lemma get_del_same (k : string) (d : list (string * V)) :
  NoDup (Dict.keys d) -> Dict.get k (Dict.del k d) = None.
Proof.
  induction d as [|[k0 v0] d IH]; cbn; intros Hnd; [reflexivity|].
  inversion Hnd as [|? ? Hnotin Hnd']; subst.
  destruct (String.eqb k k0) eqn:Hk; cbn.
  - apply String.eqb_eq in Hk. subst k0. now apply get_absent.
  - rewrite Hk. now apply IH.
Qed.

Lemma length_set (k : string) (v : V) (d : list (string * V)) :
  (List.length (Dict.set k v d) <= S (List.length d))%nat.
Proof.
  induction d as [|[k0 v0] d IH]; cbn; [lia|].
  destruct (String.eqb k k0); cbn; lia.
Qed.

Lemma length_del (k : string) (v : V) (d : list (string * V)) :
  Dict.get k d = Some v -> S (List.length (Dict.del k d)) = List.length d.
Proof.
  induction d as [|[k0 v0] d IH]; cbn; [discriminate|].
  destruct (String.eqb k k0); cbn; [reflexivity|].
  intros H. now rewrite IH.
Qed.

End DictKeys.

Section Recasing.
Variable proper_case : string -> option string.
Variable proper_names : list string.

(** One round of the loop, for a name that is a key of the section. *)
Lemma recase_step (dep : string) (v : json) (st : Casing) :
  existsb (String.eqb dep) proper_names = false ->
  Dict.get dep (entries st) = Some v ->
  recase proper_case dep st
  = (Done tt,
     if String.eqb (proper_name proper_case proper_names dep) dep then st
     else mkCasing (Dict.del dep (Dict.set (proper_name proper_case proper_names dep) v (entries st)))
                   (registered st ++ [proper_name proper_case proper_names dep]) true).
Proof.
  intros Hunknown Hget. unfold recase, proper_name.
  rewrite Hunknown.
  destruct (proper_case dep) as [new_casing|];
    [|now rewrite String.eqb_refl].
  destruct (String.eqb new_casing dep) eqn:Hsame; cbn [negb]; [reflexivity|].
  unfold bind, set_changed_values, register_proper_name, section_getitem,
    section_setitem, section_delitem.
  cbn [entries registered changed_values]. rewrite Hget.
  cbn [entries registered changed_values].
  rewrite get_set_other, Hget; [reflexivity|].
  now rewrite String.eqb_sym.
Qed.

Lemma recased_cons (dep : string) (rest : list string) :
  recased proper_case proper_names (dep :: rest)
  = ((if String.eqb (proper_name proper_case proper_names dep) dep then [] else [proper_name proper_case proper_names dep])
     ++ recased proper_case proper_names rest)%list.
Proof.
  unfold recased. cbn [filter].
  destruct (String.eqb (proper_name proper_case proper_names dep) dep); reflexivity.
Qed.

(** The loop never fails on the keys of the section. *)
Lemma recase_each_done :
  forall deps st,
    NoDup deps ->
    NoDup (Dict.keys (entries st)) ->
    (forall k, In k deps ->
               In k (Dict.keys (entries st))
               /\ existsb (String.eqb k) proper_names = false) ->
    exists st',
      recase_each proper_case deps st = (Done tt, st')
      /\ NoDup (Dict.keys (entries st'))
      /\ registered st' = (registered st ++ recased proper_case proper_names deps)%list
      /\ changed_values st'
         = (changed_values st
            || match recased proper_case proper_names deps with [] => false | _ => true end)
      /\ (List.length (entries st') <= List.length (entries st))%nat
      /\ (recased proper_case proper_names deps = [] -> entries st' = entries st).
Proof.
  induction deps as [|dep rest IH]; intros st Hdeps Hnd Hkeys.
  - exists st. cbn. rewrite app_nil_r, orb_false_r. repeat split; auto.
  - inversion Hdeps as [|? ? Hnotin Hrest]; subst.
    destruct (Hkeys dep (or_introl eq_refl)) as [Hin Hunknown].
    destruct (in_get dep _ Hin) as [v Hget].
    cbn [recase_each]. rewrite bind_eval.
    rewrite (recase_step dep v st Hunknown Hget), recased_cons.
    destruct (String.eqb (proper_name proper_case proper_names dep) dep) eqn:Hsame.
    + apply IH; [assumption | assumption |].
      intros k Hk. apply Hkeys. now right.
    + set (st1 := mkCasing _ _ true).
      assert (Hnd1 : NoDup (Dict.keys (entries st1))).
      { cbn [st1 entries]. now apply nodup_del, nodup_set. }
      assert (Hkeys1 : forall k, In k rest ->
                 In k (Dict.keys (entries st1))
                 /\ existsb (String.eqb k) proper_names = false).
      { intros k Hk. destruct (Hkeys k (or_intror Hk)) as [Hink Hunk].
        split; [|exact Hunk]. cbn [st1 entries].
        apply in_keys_del_other; [intros ->; contradiction|].
        apply in_keys_set. now right. }
      destruct (IH st1 Hrest Hnd1 Hkeys1)
        as (st' & Hrun & Hnd' & Hreg & Hchanged & Hlen & _).
      exists st'. split; [exact Hrun|]. split; [exact Hnd'|].
      split; [|split; [|split]].
      * rewrite Hreg. cbn [st1 registered]. now rewrite <- app_assoc.
      * rewrite Hchanged. cbn [st1 changed_values app]. now rewrite orb_true_r.
      * cbn [st1 entries] in Hlen.
        assert (Hdel : Dict.get dep (Dict.set (proper_name proper_case proper_names dep) v (entries st))
                       = Some v).
        { rewrite get_set_other; [exact Hget|].
          now rewrite String.eqb_sym. }
        pose proof (length_del dep v _ Hdel) as Hl.
        pose proof (length_set (proper_name proper_case proper_names dep) v (entries st)). lia.
      * discriminate.
Qed.

(** The names under which the entries are found while [deps] remain. *)
Lemma current_name_keep (dep : string) (rest : list string) (k : string) :
  String.eqb k dep = false ->
  current_name proper_case proper_names (dep :: rest) k
  = current_name proper_case proper_names rest k.
Proof. intros Hk. unfold current_name. cbn [existsb]. now rewrite Hk. Qed.

Lemma existsb_eqb_false (k : string) (l : list string) :
  ~ In k l -> existsb (String.eqb k) l = false.
Proof.
  intros Hnot. destruct (existsb (String.eqb k) l) eqn:H; [|reflexivity].
  apply existsb_exists in H as (x & Hx & Heq).
  apply String.eqb_eq in Heq. now subst.
Qed.

Lemma existsb_eqb_true (k : string) (l : list string) :
  In k l -> existsb (String.eqb k) l = true.
Proof.
  intros Hin. apply existsb_exists. exists k. split; [exact Hin|].
  apply String.eqb_refl.
Qed.

Section Renaming.
Variable section0 : list (string * json).
Hypothesis fresh :
  forall k, In k (Dict.keys section0) ->
            proper_name proper_case proper_names k = k \/ ~ In (proper_name proper_case proper_names k) (Dict.keys section0).
Hypothesis distinct :
  forall k1 k2, In k1 (Dict.keys section0) -> In k2 (Dict.keys section0) ->
                proper_name proper_case proper_names k1 = proper_name proper_case proper_names k2 -> k1 = k2.

Lemma recase_each_renames :
  forall deps st,
    NoDup deps ->
    NoDup (Dict.keys (entries st)) ->
    (forall k, In k deps ->
               In k (Dict.keys section0)
               /\ existsb (String.eqb k) proper_names = false) ->
    (forall k v, Dict.get k section0 = Some v ->
                 Dict.get (current_name proper_case proper_names deps k)
                          (entries st) = Some v) ->
    (forall k' v, Dict.get k' (entries st) = Some v ->
                  exists k, current_name proper_case proper_names deps k = k'
                            /\ Dict.get k section0 = Some v) ->
    let st' := snd (recase_each proper_case deps st) in
    (forall k v, Dict.get k section0 = Some v ->
                 Dict.get (proper_name proper_case proper_names k) (entries st') = Some v)
    /\ (forall k' v, Dict.get k' (entries st') = Some v ->
                     exists k, proper_name proper_case proper_names k = k'
                               /\ Dict.get k section0 = Some v).
Proof.
  induction deps as [|dep rest IH]; intros st Hdeps Hnd Hkeys Hto Hfrom.
  - cbn. split; [exact Hto | exact Hfrom].
  - inversion Hdeps as [|? ? Hnotin Hrest]; subst.
    destruct (Hkeys dep (or_introl eq_refl)) as [Hin0 Hunknown].
    destruct (in_get dep _ Hin0) as [v Hget0].
    assert (Hcur : current_name proper_case proper_names (dep :: rest) dep
                   = dep).
    { unfold current_name. cbn [existsb]. now rewrite String.eqb_refl. }
    assert (Hget : Dict.get dep (entries st) = Some v).
    { rewrite <- Hcur at 1. now apply Hto. }
    assert (Hcur' : current_name proper_case proper_names rest dep
                    = proper_name proper_case proper_names dep).
    { unfold current_name. now rewrite existsb_eqb_false. }
    cbn [recase_each]. rewrite bind_eval.
    rewrite (recase_step dep v st Hunknown Hget).
    destruct (String.eqb (proper_name proper_case proper_names dep) dep) eqn:Hsame.
    + apply String.eqb_eq in Hsame.
      assert (Hsamecur : forall k,
                 current_name proper_case proper_names rest k
                 = current_name proper_case proper_names (dep :: rest) k).
      { intros k. destruct (String.eqb k dep) eqn:Hk.
        - apply String.eqb_eq in Hk. subst k. now rewrite Hcur, Hcur'.
        - now rewrite current_name_keep. }
      apply IH; [assumption | assumption | | |].
      * intros k Hk. apply Hkeys. now right.
      * intros k vk Hk. rewrite Hsamecur. now apply Hto.
      * intros k' vk Hk'. destruct (Hfrom k' vk Hk') as (k & Hk & Hv).
        exists k. now rewrite Hsamecur.
    + set (new := proper_name proper_case proper_names dep) in *.
      assert (Hnewdep : String.eqb dep new = false)
        by now rewrite String.eqb_sym.
      assert (Hnewfresh : ~ In new (Dict.keys section0)).
      { destruct (fresh dep Hin0) as [Heq|Hnot]; [|exact Hnot].
        fold new in Heq. rewrite Heq, String.eqb_refl in Hsame. discriminate. }
      set (st1 := mkCasing _ _ true).
      apply IH; [assumption | | | |].
      * cbn [st1 entries]. now apply nodup_del, nodup_set.
      * intros k Hk. apply Hkeys. now right.
      * intros k vk Hk. cbn [st1 entries].
        pose proof (get_in _ _ _ Hk) as Hkin.
        destruct (String.eqb k dep) eqn:Hkdep.
        { apply String.eqb_eq in Hkdep. subst k.
          rewrite Hcur'. fold new.
          rewrite get_del_other by (now rewrite String.eqb_sym).
          rewrite get_set_same. congruence. }
        assert (Hc : current_name proper_case proper_names rest k
                     = current_name proper_case proper_names (dep :: rest) k)
          by (symmetry; now apply current_name_keep).
        specialize (Hto k vk Hk). rewrite <- Hc in Hto.
        set (c := current_name proper_case proper_names rest k) in *.
        assert (Hcdep : String.eqb c dep = false).
        { apply String.eqb_neq. intros Heq. unfold c, current_name in Heq.
          destruct (existsb (String.eqb k) rest) eqn:Hex.
          - subst k. now rewrite String.eqb_refl in Hkdep.
          - destruct (fresh k Hkin) as [Hk'|Hk'].
            + rewrite Hk' in Heq. subst k.
              now rewrite String.eqb_refl in Hkdep.
            + apply Hk'. now rewrite Heq. }
        assert (Hcnew : String.eqb c new = false).
        { apply String.eqb_neq. intros Heq. unfold c, current_name in Heq.
          destruct (existsb (String.eqb k) rest) eqn:Hex.
          - apply Hnewfresh. now rewrite <- Heq.
          - apply (distinct k dep Hkin Hin0) in Heq. subst k.
            now rewrite String.eqb_refl in Hkdep. }
        rewrite get_del_other by exact Hcdep.
        now rewrite get_set_other by exact Hcnew.
      * intros k' vk Hk'. cbn [st1 entries] in Hk'.
        destruct (String.eqb k' dep) eqn:Hk'dep.
        { apply String.eqb_eq in Hk'dep. subst k'.
          rewrite get_del_same in Hk' by now apply nodup_set.
          discriminate. }
        rewrite get_del_other in Hk' by exact Hk'dep.
        destruct (String.eqb k' new) eqn:Hk'new.
        { apply String.eqb_eq in Hk'new. subst k'.
          rewrite get_set_same in Hk'. injection Hk' as <-.
          exists dep. now split. }
        rewrite get_set_other in Hk' by exact Hk'new.
        destruct (Hfrom k' vk Hk') as (k & Hk & Hv).
        exists k. split; [|exact Hv].
        rewrite <- Hk. symmetry. apply current_name_keep.
        apply String.eqb_neq. intros ->. rewrite Hcur in Hk. subst k'.
        now rewrite String.eqb_refl in Hk'dep.
Qed.

End Renaming.

Lemma unknown_names_nodup (section : list (string * json)) :
  NoDup (Dict.keys section) -> NoDup (unknown_names proper_names section).
Proof. intros Hnd. now apply NoDup_filter. Qed.

Lemma unknown_names_in (section : list (string * json)) (k : string) :
  In k (unknown_names proper_names section) ->
  In k (Dict.keys section) /\ existsb (String.eqb k) proper_names = false.
Proof.
  intros Hin. apply filter_In in Hin as [Hin Hb].
  split; [exact Hin | now apply negb_true_iff].
Qed.

Lemma current_name_start (section : list (string * json)) (k : string) :
  In k (Dict.keys section) ->
  current_name proper_case proper_names (unknown_names proper_names section) k
  = k.
Proof.
  intros Hin. unfold current_name, proper_name.
  destruct (existsb (String.eqb k) (unknown_names proper_names section))
    eqn:Hex; [reflexivity|].
  destruct (existsb (String.eqb k) proper_names) eqn:Hp; [reflexivity|].
  assert (Hunknown : In k (unknown_names proper_names section)).
  { apply filter_In. split; [exact Hin | now rewrite Hp]. }
  apply existsb_eqb_true in Hunknown. congruence.
Qed.

(** X13.  On a section whose keys are distinct, [proper_case_section]
    never fails: the [KeyError] of [section[dep]] and of
    [del section[dep]] cannot happen.  It registers, in the order of the
    section, the proper names of the keys that are spelled differently,
    returns [True] exactly when there is one, never makes the section
    longer, and leaves it untouched when it returns [False]. *)
Theorem proper_case_section_never_fails (section : list (string * json))
        (names : list string) (changed : bool) :
  NoDup (Dict.keys section) ->
  exists st,
    proper_case_section proper_case proper_names
                        (mkCasing section names changed)
    = (Done (changed_values st), st)
    /\ registered st = (names ++ recased proper_case proper_names (unknown_names proper_names section))%list
    /\ changed_values st
       = match recased proper_case proper_names (unknown_names proper_names section) with [] => false | _ => true end
    /\ (List.length (entries st) <= List.length section)%nat
    /\ (changed_values st = false -> entries st = section).
Proof.
  intros Hnd. unfold proper_case_section.
  rewrite bind_eval. cbn [set_changed_values entries registered].
  rewrite bind_eval. cbn [entries].
  destruct (recase_each_done (unknown_names proper_names section)
              (mkCasing section names false)
              (unknown_names_nodup section Hnd) Hnd
              (unknown_names_in section))
    as (st & Hrun & _ & Hreg & Hchanged & Hlen & Hsame).
  rewrite bind_eval, Hrun. exists st.
  cbn [entries registered changed_values orb] in *.
  split; [reflexivity|]. split; [exact Hreg|]. split; [exact Hchanged|].
  split; [exact Hlen|].
  intros Hfalse. apply Hsame. rewrite Hchanged in Hfalse.
  destruct (recased proper_case proper_names (unknown_names proper_names section)); [reflexivity | discriminate].
Qed.

(** X14.  When the proper names of the keys are distinct and none of
    them, unless it is the key itself, is a key of the section,
    [proper_case_section] renames: every value of the section is found
    under the proper name of its key, and the section holds nothing
    else. *)
Theorem proper_case_section_renames (section : list (string * json))
        (names : list string) (changed : bool) :
  NoDup (Dict.keys section) ->
  (forall k, In k (Dict.keys section) ->
             proper_name proper_case proper_names k = k
             \/ ~ In (proper_name proper_case proper_names k)
                     (Dict.keys section)) ->
  (forall k1 k2, In k1 (Dict.keys section) -> In k2 (Dict.keys section) ->
                 proper_name proper_case proper_names k1
                 = proper_name proper_case proper_names k2 -> k1 = k2) ->
  let st := snd (proper_case_section proper_case proper_names
                                     (mkCasing section names changed)) in
  (forall k v, Dict.get k section = Some v ->
               Dict.get (proper_name proper_case proper_names k) (entries st)
               = Some v)
  /\ (forall k' v, Dict.get k' (entries st) = Some v ->
                   exists k, proper_name proper_case proper_names k = k'
                             /\ Dict.get k section = Some v).
Proof.
  intros Hnd Hfresh Hdistinct.
  pose proof (recase_each_renames section Hfresh Hdistinct
                (unknown_names proper_names section)
                (mkCasing section names false)
                (unknown_names_nodup section Hnd) Hnd) as Hloop.
  cbn [entries] in Hloop.
  assert (Hkeys : forall k, In k (unknown_names proper_names section) ->
             In k (Dict.keys section)
             /\ existsb (String.eqb k) proper_names = false)
    by apply unknown_names_in.
  assert (Hto : forall k v, Dict.get k section = Some v ->
             Dict.get (current_name proper_case proper_names
                         (unknown_names proper_names section) k) section
             = Some v).
  { intros k v Hk. rewrite current_name_start; [exact Hk|].
    now apply get_in in Hk. }
  assert (Hfrom : forall k' v, Dict.get k' section = Some v ->
             exists k, current_name proper_case proper_names
                         (unknown_names proper_names section) k = k'
                       /\ Dict.get k section = Some v).
  { intros k' v Hk'. exists k'. split; [|exact Hk'].
    apply current_name_start. now apply get_in in Hk'. }
  specialize (Hloop Hkeys Hto Hfrom).
  unfold proper_case_section.
  rewrite bind_eval. cbn [set_changed_values entries registered].
  rewrite bind_eval. cbn [entries]. rewrite bind_eval.
  destruct (recase_each proper_case (unknown_names proper_names section)
              (mkCasing section names false)) as [[[]|code|e] st1];
    exact Hloop.
Qed.

End Recasing.

(** X13, witness: a section with [django], known to the index as
    [Django], and [flask], which the index does not know. *)
Lemma proper_case_section_never_fails_witness :
  exists st,
    proper_case_section
      (fun k => if String.eqb k "django" then Some "Django"%string else None)
      ["requests"%string]
      (mkCasing [("django"%string, JStr "*"); ("requests"%string, JStr "*");
                 ("flask"%string, JStr "*")] [] false)
    = (Done true, st)
    /\ registered st = ["Django"%string].
Proof.
  destruct (proper_case_section_never_fails
              (fun k => if String.eqb k "django" then Some "Django"%string
                        else None)
              ["requests"%string]
              [("django"%string, JStr "*"); ("requests"%string, JStr "*");
               ("flask"%string, JStr "*")] [] false)
    as (st & Hrun & Hreg & Hchanged & _).
  { repeat constructor; cbn; intuition discriminate. }
  exists st. split.
  - eapply eq_trans; [exact Hrun|].
    apply (f_equal (fun b => (Done b, st))). exact Hchanged.
  - exact Hreg.
Defined.

(** X14, witness: the same section. *)
Lemma proper_case_section_renames_witness :
  Dict.get "Django"
    (entries
       (snd (proper_case_section
               (fun k => if String.eqb k "django" then Some "Django"%string
                         else None)
               ["requests"%string]
               (mkCasing [("django"%string, JStr "*");
                          ("requests"%string, JStr ">=2");
                          ("flask"%string, JStr "*")] [] false))))
  = Some (JStr "*").
Proof.
  refine (proj1 (proper_case_section_renames
                   (fun k => if String.eqb k "django" then Some "Django"%string
                             else None)
                   ["requests"%string]
                   [("django"%string, JStr "*"); ("requests"%string, JStr ">=2");
                    ("flask"%string, JStr "*")] [] false _ _ _)
                "django"%string (JStr "*") eq_refl).
  - repeat constructor; cbn; intuition discriminate.
  - intros k [<-|[<-|[<-|[]]]]; cbn.
    + right. intuition discriminate.
    + now left.
    + now left.
  - intros k1 k2 [<-|[<-|[<-|[]]]] [<-|[<-|[<-|[]]]]; cbn;
      intros H; try reflexivity; discriminate.
Defined.

(* ===================================================================== *)
(** ** Further facts: [do_purge]                                          *)
(* ===================================================================== *)

Section PurgeLoop.

Lemma firstn_prefix {A} (l1 r : list A) :
  firstn (List.length l1) (l1 ++ r) = l1.
Proof. induction l1 as [|x l1 IH]; cbn; [now destruct r | now rewrite IH]. Qed.

Lemma skipn_prefix {A} (l1 r : list A) :
  skipn (List.length l1) (l1 ++ r) = r.
Proof. induction l1 as [|x l1 IH]; cbn; [reflexivity | exact IH]. Qed.

Lemma firstn_prefix_S {A} (l1 : list A) (x : A) (r : list A) :
  firstn (S (List.length l1)) (l1 ++ x :: r) = (l1 ++ [x])%list.
Proof.
  induction l1 as [|y l1 IH]; [reflexivity|].
  change (firstn (S (List.length (y :: l1))) ((y :: l1) ++ x :: r))
    with (y :: firstn (S (List.length l1)) (l1 ++ x :: r)).
  now rewrite IH.
Qed.

Lemma skipn_prefix_S {A} (l1 : list A) (x : A) (r : list A) :
  skipn (S (List.length l1)) (l1 ++ x :: r) = r.
Proof. induction l1 as [|y l1 IH]; [reflexivity | exact IH]. Qed.

Lemma firstn_prefix_S_nil {A} (l1 : list A) :
  firstn (S (List.length l1)) l1 = l1.
Proof. apply firstn_all2. lia. Qed.

(** The loop that deletes while it enumerates, read off the list. *)
Lemma purge_scan_from (package_name : string) :
  forall fuel i installed,
    (List.length installed - i <= fuel)%nat ->
    purge_scan fuel package_name i installed
    = (firstn i installed ++ purge_pass package_name (skipn i installed))%list.
Proof.
  induction fuel as [|fuel IH]; intros i installed Hfuel.
  - cbn [purge_scan].
    rewrite skipn_all2, firstn_all2 by lia. cbn. now rewrite app_nil_r.
  - cbn [purge_scan].
    destruct (nth_error installed i) as [package|] eqn:Hnth.
    + apply nth_error_split in Hnth as (pre & post & -> & <-).
      rewrite firstn_prefix, skipn_prefix. cbn [purge_pass].
      rewrite length_app in Hfuel. cbn [List.length] in Hfuel.
      destruct (Py.startswith package_name package).
      * unfold del_at. rewrite firstn_prefix, skipn_prefix_S.
        rewrite IH by (rewrite length_app; lia).
        destruct post as [|next post'].
        -- rewrite !app_nil_r, firstn_prefix_S_nil, skipn_all2 by lia.
           cbn [purge_pass]. now rewrite app_nil_r.
        -- rewrite firstn_prefix_S, skipn_prefix_S, <- app_assoc.
           reflexivity.
      * rewrite IH by (rewrite length_app; cbn [List.length]; lia).
        rewrite firstn_prefix_S, skipn_prefix_S, <- app_assoc. reflexivity.
    + apply nth_error_None in Hnth.
      rewrite skipn_all2, firstn_all2 by lia. cbn. now rewrite app_nil_r.
Qed.

(** Induction that follows [purge_pass], which goes on one or two entries
    further. *)
Lemma purge_pass_ind (package_name : string) (P : list string -> Prop) :
  P [] ->
  (forall package,
      Py.startswith package_name package = true -> P [package]) ->
  (forall package next rest,
      Py.startswith package_name package = true ->
      P rest -> P (package :: next :: rest)) ->
  (forall package rest,
      Py.startswith package_name package = false ->
      P rest -> P (package :: rest)) ->
  forall installed, P installed.
Proof.
  intros Hnil Hlast Hdrop Hkeep installed.
  assert (H : P installed /\ forall package, P (package :: installed)).
  { induction installed as [|next rest [IH1 IH2]].
    - split; [exact Hnil|]. intros package.
      destruct (Py.startswith package_name package) eqn:Hbad;
        [now apply Hlast | now apply Hkeep].
    - split; [apply IH2|]. intros package.
      destruct (Py.startswith package_name package) eqn:Hbad;
        [now apply Hdrop | apply Hkeep; [exact Hbad | apply IH2]]. }
  apply H.
Qed.

Lemma wanted_not_bad (package_name package : string) :
  In package_name BAD_PACKAGES ->
  Py.startswith package_name package = true -> wanted package = false.
Proof.
  intros Hin Hbad. unfold wanted.
  destruct (forallb _ BAD_PACKAGES) eqn:Hall; [|reflexivity].
  rewrite forallb_forall in Hall. specialize (Hall _ Hin).
  now rewrite Hbad in Hall.
Qed.

Lemma purge_pass_wanted (package_name : string) :
  In package_name BAD_PACKAGES ->
  forall installed,
    filter wanted (purge_pass package_name installed) = filter wanted installed.
Proof.
  intros Hin.
  apply (purge_pass_ind package_name
           (fun l => filter wanted (purge_pass package_name l)
                     = filter wanted l)).
  - reflexivity.
  - intros package Hbad. cbn [purge_pass filter]. rewrite Hbad.
    now rewrite (wanted_not_bad _ _ Hin Hbad).
  - intros package next rest Hbad IH. cbn [purge_pass]. rewrite Hbad.
    cbn [filter]. rewrite (wanted_not_bad _ _ Hin Hbad), IH. reflexivity.
  - intros package rest Hgood IH. cbn [purge_pass]. rewrite Hgood.
    cbn [filter]. now rewrite IH.
Qed.

Lemma purge_pass_incl (package_name : string) :
  forall installed, incl (purge_pass package_name installed) installed.
Proof.
  apply (purge_pass_ind package_name
           (fun l => incl (purge_pass package_name l) l)).
  - apply incl_refl.
  - intros package Hbad. cbn [purge_pass]. rewrite Hbad. apply incl_nil_l.
  - intros package next rest Hbad IH. cbn [purge_pass]. rewrite Hbad.
    apply incl_tl, incl_cons; [now left | now apply incl_tl].
  - intros package rest Hgood IH. cbn [purge_pass]. rewrite Hgood.
    apply incl_cons; [now left | now apply incl_tl].
Qed.

Lemma purge_names_wanted (names : list string) :
  incl names BAD_PACKAGES ->
  forall installed,
    let purged :=
      fold_left (fun installed package_name =>
                   purge_scan (List.length installed) package_name 0 installed)
                names installed in
    filter wanted purged = filter wanted installed /\ incl purged installed.
Proof.
  induction names as [|package_name names IH]; intros Hnames installed.
  - split; [reflexivity | apply incl_refl].
  - cbn [fold_left].
    rewrite (purge_scan_from package_name _ 0 installed) by lia.
    cbn [firstn skipn app].
    destruct (IH (fun n Hn => Hnames n (or_intror Hn))
                 (purge_pass package_name installed)) as [Hwanted Hincl].
    split.
    + cbv zeta in Hwanted. rewrite Hwanted. apply purge_pass_wanted.
      apply Hnames. now left.
    + eapply incl_tran; [exact Hincl | apply purge_pass_incl].
Qed.

End PurgeLoop.

(** X15.  In the loop of [do_purge] that deletes entries of [installed]
    while enumerating it, the entry that follows a deleted one moves into
    its place and is never looked at: a pass drops an entry that starts
    with the name and keeps the next one, whatever it is. *)
Theorem purge_scan_skips_next :
  forall package_name installed fuel,
    (List.length installed <= fuel)%nat ->
    purge_scan fuel package_name 0 installed
    = purge_pass package_name installed.
Proof.
  intros package_name installed fuel Hfuel.
  rewrite purge_scan_from by lia. reflexivity.
Qed.

(** X15, witness: [pipenv] follows [pip] in the output of [pip freeze] and
    survives the pass for [pip], although it starts with [pip]. *)
Lemma purge_scan_skips_next_witness :
  purge_scan 3 "pip" 0 ["pip==9.0.1"; "pipenv==8.2.7"; "requests==2.18.4"]
  = ["pipenv==8.2.7"; "requests==2.18.4"]%string.
Proof.
  rewrite (purge_scan_skips_next "pip"
             ["pip==9.0.1"; "pipenv==8.2.7"; "requests==2.18.4"]%string 3)
    by (cbn; lia).
  reflexivity.
Defined.

(** X16.  Without [downloads], [do_purge] runs two commands, whatever
    their return codes, and returns: [pip freeze], and then one
    [pip uninstall ... -y] whose arguments are entries of the freeze
    output, separated by single spaces.  The arguments hold, in the order
    of the freeze output, every entry that starts with none of
    [BAD_PACKAGES], and nothing that the freeze output does not hold. *)
Theorem do_purge_uninstalls_wanted (E : Env) (rmtree : string -> M unit) :
  forall bare allow_global w,
  exists freeze c installed,
    fst (do_purge rmtree bare false allow_global w) = Done tt
    /\ commands (snd (do_purge rmtree bare false allow_global w))
       = (commands w
          ++ [((dquote ++ format_opt (which_pip allow_global) ++ dquote
                ++ " freeze")%string, freeze);
              ((dquote ++ format_opt (which_pip allow_global) ++ dquote
                ++ " uninstall " ++ String.concat " " installed
                ++ " -y")%string, c)])%list
    /\ freeze
       = process w (dquote ++ format_opt (which_pip allow_global) ++ dquote
                    ++ " freeze")%string
    /\ filter wanted installed
       = filter wanted (split_whitespace is_space (out freeze))
    /\ incl installed (split_whitespace is_space (out freeze)).
Proof.
  intros bare allow_global w.
  set (freeze := process w (freeze_command allow_global)).
  destruct (purge_names_wanted BAD_PACKAGES (incl_refl _)
              (split_whitespace is_space (out freeze))) as [Hwanted Hincl].
  fold (purge_bad_packages (split_whitespace is_space (out freeze))) in Hwanted, Hincl.
  set (installed := purge_bad_packages (split_whitespace is_space (out freeze))) in *.
  assert (Hrun : exists c w',
             do_purge rmtree bare false allow_global w = (Done tt, w')
             /\ commands w'
                = (commands w
                   ++ [(freeze_command allow_global, freeze);
                       (uninstall_command allow_global installed, c)])%list).
  { unfold do_purge, bind, ret, echo, echo_to, delegator_run.
    cbn [fst snd commands files tmp_count echoed].
    fold freeze. fold installed.
    destruct bare; cbn [negb commands files tmp_count echoed];
      eexists; eexists;
      (split; [reflexivity|]); cbn [commands files];
      now rewrite <- app_assoc. }
  destruct Hrun as (c & w' & Hrun & Hcommands).
  exists freeze, c, installed. rewrite Hrun. cbn [fst snd].
  split; [reflexivity|]. split; [exact Hcommands|].
  split; [reflexivity|]. split; assumption.
Qed.

(** The purge of a virtualenv that holds [pip], [pipenv] and
    [requests]: the entry after a dropped one is not looked at, so
    [pipenv] is uninstalled with [requests]. *)
Example do_purge_commands :
  let env :=
    {| os := Posix;
       project := Sample.the_project;
       process := fun _ cmd =>
         if Py.endswith " freeze" cmd
         then mkCmdResult 0 ("pip==9.0.1" ++ nl ++ "pipenv==8.2.7" ++ nl
                             ++ "requests==2.18.4" ++ nl) ""
         else mkCmdResult 0 "" "";
       tmp_dir := "/tmp/";
       tmp_random := Sample.the_tmp_random;
       tmp_fresh := Sample.the_tmp_fresh "/tmp/";
       find_executable := fun _ => None;
       crayons := fun _ _ text => text;
       pep423_name := fun name => name;
       convert_deps_to_pip := fun _ => [];
       split_vcs := fun j => j;
       shellquote := fun text => text;
       resolve_deps := fun _ _ _ _ _ => Done [];
       pep508checker_file := "pep508checker.py";
       json_loads := fun _ => None;
       pipfile_hash := fun _ => "";
       is_space := Py.bytes_isspace;
       is_digit := Py.bytes_isdigit;
       unquote := Py.bytes_unquote |} in
  map fst (commands (snd (@do_purge env (fun _ => ret tt) true false false
                                    Sample.empty_world)))
  = [(dquote ++ "/venv/bin/pip" ++ dquote ++ " freeze")%string;
     (dquote ++ "/venv/bin/pip" ++ dquote
      ++ " uninstall pipenv==8.2.7 requests==2.18.4 -y")%string].
Proof. vm_compute. reflexivity. Qed.

(* ===================================================================== *)
(** ** Further facts: the text of the lock file                           *)
(* ===================================================================== *)

Section PlainText.

Lemma plain_app (a b : string) : plain (a ++ b) = plain a && plain b.
Proof.
  induction a as [|c a IH]; [reflexivity|].
  change (plain (String c a ++ b)) with (plain_char c && plain (a ++ b)).
  change (plain (String c a)) with (plain_char c && plain a).
  now rewrite IH, andb_assoc.
Qed.

Lemma plain_join (sep : string) (l : list string) :
  plain sep = true -> Forall (fun s => plain s = true) l ->
  plain (Py.join sep l) = true.
Proof.
  intros Hsep Hl. unfold Py.join.
  induction Hl as [|x l Hx Hl IH]; [reflexivity|].
  destruct l as [|y l]; [exact Hx|].
  rewrite concat_cons by discriminate.
  now rewrite !plain_app, Hx, Hsep, IH.
Qed.

Lemma plain_spaces (n : nat) : plain (Json.spaces n) = true.
Proof. induction n as [|n IH]; [reflexivity | exact IH]. Qed.

Lemma plain_newline_indent (level : nat) :
  plain (Json.newline_indent level) = true.
Proof.
  unfold Json.newline_indent. rewrite plain_app, plain_spaces. reflexivity.
Qed.

Lemma plain_hex_digit (n : nat) :
  (n < 16)%nat -> plain_char (Json.hex_digit n) = true.
Proof.
  intros Hn. do 16 (destruct n as [|n]; [reflexivity|]). lia.
Qed.

Lemma plain_escape_char (c : ascii) : plain (Json.escape_char c) = true.
Proof.
  unfold Json.escape_char. cbv zeta.
  destruct (nat_of_ascii c =? 34)%nat; [reflexivity|].
  destruct (nat_of_ascii c =? 92)%nat; [reflexivity|].
  destruct (nat_of_ascii c =? 10)%nat; [reflexivity|].
  destruct (nat_of_ascii c =? 13)%nat; [reflexivity|].
  destruct (nat_of_ascii c =? 9)%nat; [reflexivity|].
  destruct (nat_of_ascii c =? 12)%nat; [reflexivity|].
  destruct (nat_of_ascii c =? 8)%nat; [reflexivity|].
  destruct ((32 <=? nat_of_ascii c) && (nat_of_ascii c <=? 126))%nat eqn:Hp.
  - unfold plain, plain_char. cbn [Py.chars list_ascii_of_string forallb].
    now rewrite Hp, orb_true_r.
  - pose proof (nat_ascii_bounded c) as Hc.
    rewrite plain_app.
    change (plain backslash) with true. cbn [andb].
    rewrite plain_app. change (plain "u00") with true. cbn [andb].
    unfold plain. cbn [Py.chars list_ascii_of_string forallb].
    rewrite !plain_hex_digit; [reflexivity | |].
    + apply Nat.mod_upper_bound. lia.
    + apply Nat.Div0.div_lt_upper_bound. lia.
Qed.

Lemma plain_escape (s : string) : plain (Json.escape s) = true.
Proof.
  induction s as [|c s IH]; [reflexivity|].
  cbn [Json.escape]. now rewrite plain_app, plain_escape_char, IH.
Qed.

Lemma plain_encode_string (s : string) : plain (Json.encode_string s) = true.
Proof.
  unfold Json.encode_string. rewrite !plain_app, plain_escape. reflexivity.
Qed.

Lemma plain_uint (d : Decimal.uint) :
  plain (NilEmpty.string_of_uint d) = true.
Proof. induction d; cbn; auto. Qed.

Lemma plain_str_of_int (n : Z) : plain (Py.str_of_int n) = true.
Proof.
  unfold Py.str_of_int, NilEmpty.string_of_int.
  destruct (Z.to_int n); [apply plain_uint|].
  change (plain (String "-" (NilEmpty.string_of_uint d)) = true).
  unfold plain. cbn [Py.chars list_ascii_of_string forallb].
  apply plain_uint.
Qed.

Lemma plain_render_block (opening closing : string) (level : nat)
      (items : list string) :
  plain opening = true -> plain closing = true ->
  Forall (fun s => plain s = true) items ->
  plain (Json.render_block opening closing level items) = true.
Proof.
  intros Ho Hc Hitems. unfold Json.render_block.
  destruct items as [|item items]; [now rewrite plain_app, Ho, Hc|].
  rewrite !plain_app, Ho, Hc, !plain_newline_indent, plain_join;
    [reflexivity | | exact Hitems].
  now rewrite plain_app, plain_newline_indent.
Qed.

Lemma plain_render_item (kv : string * string) :
  plain (snd kv) = true -> plain (Json.render_item kv) = true.
Proof.
  intros Hv. unfold Json.render_item.
  now rewrite !plain_app, plain_encode_string, Hv.
Qed.

Lemma plain_encode : forall (j : json) (level : nat),
    plain (Json.encode level j) = true.
Proof.
  fix IH 1. intros j level. destruct j as [| [|] | n | s | l | d];
    cbn [Json.encode]; try reflexivity.
  - apply plain_str_of_int.
  - apply plain_encode_string.
  - apply plain_render_block; [reflexivity | reflexivity |].
    induction l as [|x l IHl]; constructor; [apply IH | exact IHl].
  - apply plain_render_block; [reflexivity | reflexivity |].
    apply Forall_map.
    assert (Hitems : Forall (fun kv : string * string => plain (snd kv) = true)
                       (map (fun kv => (fst kv, Json.encode (S level) (snd kv)))
                            d)).
    { induction d as [|[k v] d IHd]; constructor; [apply IH | exact IHd]. }
    eapply Forall_impl; [intros kv; apply plain_render_item|].
    eapply Permutation_Forall; [|exact Hitems].
    apply sort_items_perm.
Qed.

End PlainText.

(** X17.  The lock file that a completed [do_lock] leaves is plain 7-bit
    ASCII whatever the names, versions, hashes and markers hold: every
    character of it is a printing character or the newline, any other
    character of a string being written as an escape. *)
Theorem lock_text_is_plain_ascii (E : Env) :
  forall no_hashes verbose w,
    fst (do_lock no_hashes verbose w) = Done tt ->
    exists text,
      Dict.get (lockfile_location project)
               (files (snd (do_lock no_hashes verbose w))) = Some text
      /\ plain text = true.
Proof.
  intros no_hashes verbose w. unfold do_lock. rewrite bind_eval.
  destruct (do_lock_prepare no_hashes verbose w) as [[lockfile|code|e] w1];
    [|discriminate|discriminate].
  intros _.
  destruct (write_lockfile_steps lockfile 3 w1) as (w' & Hrun & Hlock & _).
  change (firstn 3 (write_lockfile lockfile)) with (write_lockfile lockfile)
    in Hrun.
  rewrite bind_eval, Hrun. cbn [echo_err echo_to fst snd files].
  exists (Json.dumps lockfile ++ nl)%string. split; [exact Hlock|].
  rewrite plain_app. unfold Json.dumps. now rewrite plain_encode.
Qed.

(** X17, witness: the sample project. *)
Lemma lock_text_is_plain_ascii_witness :
  exists text,
    Dict.get "Pipfile.lock"
             (files (snd (@do_lock Sample.env true false Sample.empty_world)))
    = Some text
    /\ plain text = true.
Proof.
  apply (lock_text_is_plain_ascii Sample.env true false Sample.empty_world).
  vm_compute. reflexivity.
Defined.

(** X18.  With [requirements] set, [do_init] never returns to its caller
    when the installation step is [do_install_dependencies]: that step
    ends the process or raises, so neither the activation hint nor
    anything the caller does after [do_init] is reached. *)
Theorem do_init_requirements_never_returns (E : Env) (C : Callees) :
  (forall dev allow_global ignore_hashes skip_lock verbose,
      callee (Call_do_install_dependencies dev true allow_global ignore_hashes
                                           skip_lock verbose)
      = do_install_dependencies dev false false true allow_global
                                ignore_hashes skip_lock verbose) ->
  forall dev allow_global ignore_hashes no_hashes ignore_pipfile skip_lock
         verbose s,
    fst (do_init dev true allow_global ignore_hashes no_hashes ignore_pipfile
                 skip_lock verbose s) <> Done tt.
Proof.
  intros Hinstall dev allow_global ignore_hashes no_hashes ignore_pipfile
         skip_lock verbose s.
  unfold do_init. rewrite bind_eval.
  destruct (do_init_prelude true s) as [[[]|code|e] s1]; try discriminate.
  rewrite bind_eval.
  destruct (do_init_relock no_hashes ignore_pipfile skip_lock s1)
    as [[[]|code|e] [w2 log2]]; try discriminate.
  unfold do_init_install. rewrite bind_eval, call_eval, Hinstall.
  destruct (requirements_mode_prints_once dev false false allow_global false
              skip_lock verbose w2) as [(e & ->)|(text & ->)];
    discriminate.
Qed.

(** X18, witness: the sample project, whose lock file is up to date. *)
Lemma do_init_requirements_never_returns_witness :
  fst (@do_init Sample.env Sample.cli true true false false true false false
                false Sample.fresh_state) <> Done tt.
Proof.
  apply (do_init_requirements_never_returns Sample.env Sample.cli).
  reflexivity.
Defined.

(* ===================================================================== *)
(** ** Further facts: [parse_download_fname] on source archives           *)
(* ===================================================================== *)

Section Splitext.
Context {E : Env}.

Lemma rfind_char_go_app (c : ascii) (a b : string) :
  forall i best,
    Py.rfind_char_go c i best (a ++ b)
    = Py.rfind_char_go c (i + Z.of_nat (String.length a))
                       (Py.rfind_char_go c i best a) b.
Proof.
  induction a as [|d a IH]; intros i best.
  - cbn. now rewrite Z.add_0_r.
  - cbn [append Py.rfind_char_go String.length]. rewrite IH.
    f_equal. lia.
Qed.

Lemma rfind_char_go_absent (c : ascii) (b : string) :
  forallb (fun d => negb (Ascii.eqb c d)) (Py.chars b) = true ->
  forall i best, Py.rfind_char_go c i best b = best.
Proof.
  induction b as [|d b IH]; intros Hb i best; [reflexivity|].
  cbn in Hb. apply andb_true_iff in Hb as [Hd Hb].
  cbn [Py.rfind_char_go]. apply negb_true_iff in Hd. rewrite Hd.
  now apply IH.
Qed.

Lemma rfind_char_go_bound (c : ascii) (a : string) :
  forall i best,
    (best < i)%Z ->
    (best <= Py.rfind_char_go c i best a < i + Z.of_nat (String.length a))%Z.
Proof.
  induction a as [|d a IH]; intros i best Hbest.
  - cbn. lia.
  - cbn [Py.rfind_char_go String.length].
    destruct (Ascii.eqb c d).
    + specialize (IH (i + 1)%Z i ltac:(lia)). lia.
    + specialize (IH (i + 1)%Z best ltac:(lia)). lia.
Qed.

Lemma rfind_char_bound (c : ascii) (a : string) :
  (-1 <= Py.rfind_char c a < Z.of_nat (String.length a))%Z.
Proof.
  unfold Py.rfind_char.
  pose proof (rfind_char_go_bound c a 0 (-1) ltac:(lia)). lia.
Qed.

Lemma rfind_char_app_absent (c : ascii) (a b : string) :
  forallb (fun d => negb (Ascii.eqb c d)) (Py.chars b) = true ->
  Py.rfind_char c (a ++ b) = Py.rfind_char c a.
Proof.
  intros Hb. unfold Py.rfind_char.
  now rewrite rfind_char_go_app, rfind_char_go_absent.
Qed.

(** The last dot of [stem ++ "." ++ e] when [e] has no dot. *)
Lemma rfind_dot (stem e : string) :
  forallb (fun d => negb (Ascii.eqb "." d)) (Py.chars e) = true ->
  Py.rfind_char "." (stem ++ String "." e) = Z.of_nat (String.length stem).
Proof.
  intros He. unfold Py.rfind_char. rewrite rfind_char_go_app.
  cbn [Py.rfind_char_go]. rewrite Ascii.eqb_refl.
  now rewrite rfind_char_go_absent.
Qed.

Lemma drop_app_le (a b : string) :
  forall k, (k <= String.length a)%nat ->
            Py.drop k (a ++ b) = (Py.drop k a ++ b)%string.
Proof.
  induction a as [|d a IH]; intros k Hk.
  - cbn in Hk. now replace k with 0%nat by lia.
  - destruct k as [|k]; [reflexivity|].
    cbn [append Py.drop]. apply IH. cbn in Hk. lia.
Qed.

Lemma drop_length (a b : string) : Py.drop (String.length a) (a ++ b) = b.
Proof. induction a as [|d a IH]; [now destruct b | exact IH]. Qed.

Lemma take_length (a b : string) : Py.take (String.length a) (a ++ b) = a.
Proof.
  induction a as [|d a IH]; [now destruct b|]. cbn. now rewrite IH.
Qed.

Lemma take_drop_rest (a b : string) :
  forall k, (k <= String.length a)%nat ->
            Py.take (String.length a - k) (Py.drop k (a ++ b)) = Py.drop k a.
Proof.
  induction a as [|d a IH]; intros k Hk.
  - cbn in Hk. replace k with 0%nat by lia. reflexivity.
  - destruct k as [|k].
    + cbn [Py.drop]. rewrite Nat.sub_0_r.
      apply (take_length (String d a) b).
    + cbn [append Py.drop String.length]. cbn in Hk.
      replace (S (String.length a) - S k)%nat
        with (String.length a - k)%nat by lia.
      apply IH. lia.
Qed.

(** [sepIndex] of [os.path.splitext]. *)
Lemma sep_index_cases (p : string) :
  exists sepIndex,
    match os_altsep os with
    | Some a => Z.max (Py.rfind_char (os_sep_char os) p) (Py.rfind_char a p)
    | None => Py.rfind_char (os_sep_char os) p
    end = sepIndex
    /\ (-1 <= sepIndex < Z.of_nat (String.length p))%Z.
Proof.
  eexists. split; [reflexivity|].
  pose proof (rfind_char_bound (os_sep_char os) p).
  destruct (os_altsep os) as [a|]; [|assumption].
  pose proof (rfind_char_bound a p). lia.
Qed.

Lemma no_sep_absent (b : string) :
  no_sep os b = true ->
  forallb (fun d => negb (Ascii.eqb (os_sep_char os) d)) (Py.chars b) = true
  /\ forall a, os_altsep os = Some a ->
               forallb (fun d => negb (Ascii.eqb a d)) (Py.chars b) = true.
Proof.
  unfold no_sep, is_sep. intros Hb. rewrite forallb_forall in Hb.
  split.
  - apply forallb_forall. intros d Hd. specialize (Hb d Hd).
    apply negb_true_iff, orb_false_iff in Hb as [Hb _].
    now rewrite Hb.
  - intros a Ha. apply forallb_forall. intros d Hd. specialize (Hb d Hd).
    rewrite Ha in Hb.
    apply negb_true_iff, orb_false_iff in Hb as [_ Hb].
    now rewrite Hb.
Qed.

Lemma sep_index_app (p b : string) :
  no_sep os b = true ->
  match os_altsep os with
  | Some a => Z.max (Py.rfind_char (os_sep_char os) (p ++ b))
                    (Py.rfind_char a (p ++ b))
  | None => Py.rfind_char (os_sep_char os) (p ++ b)
  end
  = match os_altsep os with
    | Some a => Z.max (Py.rfind_char (os_sep_char os) p) (Py.rfind_char a p)
    | None => Py.rfind_char (os_sep_char os) p
    end.
Proof.
  intros Hb. destruct (no_sep_absent b Hb) as [Hsep Halt].
  rewrite (rfind_char_app_absent _ p b Hsep).
  destruct (os_altsep os) as [a|]; [|reflexivity].
  now rewrite (rfind_char_app_absent a p b (Halt a eq_refl)).
Qed.

(** [os.path.splitext] cuts at the last dot, when the extension holds
    neither a dot nor a separator and the last component of the stem is
    not made of dots only. *)
Lemma splitext_ext (stem e : string) :
  forallb (fun d => negb (Ascii.eqb "." d)) (Py.chars e) = true ->
  no_sep os (String "." e) = true ->
  (forall k, (k <= String.length stem)%nat ->
             (Z.of_nat k
              = match os_altsep os with
                | Some a => Z.max (Py.rfind_char (os_sep_char os) stem)
                                  (Py.rfind_char a stem)
                | None => Py.rfind_char (os_sep_char os) stem
                end + 1)%Z ->
             existsb (fun c => negb (Ascii.eqb c "."))
                     (Py.chars (Py.drop k stem)) = true) ->
  splitext (stem ++ String "." e) = (stem, String "." e).
Proof.
  intros He Hsep Hlast. unfold splitext. cbv zeta.
  rewrite (sep_index_app stem (String "." e) Hsep), (rfind_dot stem e He).
  destruct (sep_index_cases stem) as (sepIndex & Hindex & Hbound).
  rewrite Hindex in *.
  replace (sepIndex <? Z.of_nat (String.length stem))%Z with true
    by (symmetry; apply Z.ltb_lt; lia).
  unfold Py.slice. rewrite Nat2Z.id.
  replace (Z.to_nat (Z.of_nat (String.length stem) - (sepIndex + 1)))
    with (String.length stem - Z.to_nat (sepIndex + 1))%nat by lia.
  rewrite take_drop_rest by lia.
  rewrite (Hlast (Z.to_nat (sepIndex + 1))) by lia.
  now rewrite take_length, drop_length.
Qed.

Lemma existsb_chars_app_r (f : ascii -> bool) (a b : string) :
  existsb f (Py.chars b) = true -> existsb f (Py.chars (a ++ b)) = true.
Proof.
  intros Hb. induction a as [|d a IH]; [exact Hb|].
  change (existsb f (Py.chars (String d a ++ b)))
    with (f d || existsb f (Py.chars (a ++ b))).
  rewrite IH. apply orb_true_r.
Qed.

Lemma length_append (a b : string) :
  String.length (a ++ b) = (String.length a + String.length b)%nat.
Proof. induction a as [|d a IH]; cbn; [reflexivity | now rewrite IH]. Qed.

Lemma endswith_app (stem suf : string) :
  Py.endswith suf (stem ++ suf) = true.
Proof.
  unfold Py.endswith. rewrite length_append.
  replace (String.length stem + String.length suf - String.length suf)%nat
    with (String.length stem) by lia.
  rewrite drop_length, String.eqb_refl, andb_true_r.
  apply Nat.leb_le. lia.
Qed.

Lemma sep_index_stem (name version : string) :
  no_sep os version = true ->
  match os_altsep os with
  | Some a =>
      Z.max (Py.rfind_char (os_sep_char os) (name ++ "-" ++ version))
            (Py.rfind_char a (name ++ "-" ++ version))
  | None => Py.rfind_char (os_sep_char os) (name ++ "-" ++ version)
  end
  = match os_altsep os with
    | Some a => Z.max (Py.rfind_char (os_sep_char os) name)
                      (Py.rfind_char a name)
    | None => Py.rfind_char (os_sep_char os) name
    end.
Proof.
  intros Hv. apply sep_index_app.
  change ("-" ++ version)%string with (String "-" version).
  unfold no_sep in *. cbn [Py.chars list_ascii_of_string forallb].
  fold (Py.chars version). rewrite Hv, andb_true_r.
  unfold is_sep. destruct os; reflexivity.
Qed.

End Splitext.

(** The version found in the name of a source archive. *)
Lemma sdist_version (E : Env) :
  forall name version,
    no_sep os version = true ->
    parse_download_fname (name ++ "-" ++ version ++ ".tar.gz") name
    = ignore_post_release version.
Proof.
  intros name version Hv.
  unfold parse_download_fname, fname_version. cbv zeta.
  set (stem := (name ++ "-" ++ version)%string).
  assert (Hlast : forall k ext,
             no_sep os ext = true ->
             (k <= String.length (stem ++ ext))%nat ->
             (Z.of_nat k
              = match os_altsep os with
                | Some a =>
                    Z.max (Py.rfind_char (os_sep_char os) (stem ++ ext))
                          (Py.rfind_char a (stem ++ ext))
                | None => Py.rfind_char (os_sep_char os) (stem ++ ext)
                end + 1)%Z ->
             existsb (fun c => negb (Ascii.eqb c "."))
                     (Py.chars (Py.drop k (stem ++ ext))) = true).
  { intros k ext Hext _ Hk.
    rewrite (sep_index_app stem ext Hext) in Hk.
    unfold stem in Hk. rewrite (sep_index_stem name version Hv) in Hk.
    destruct (sep_index_cases name) as (sepIndex & Hindex & Hbound).
    rewrite Hindex in Hk.
    unfold stem. rewrite !append_assoc.
    rewrite drop_app_le by lia.
    apply existsb_chars_app_r. reflexivity. }
  assert (Hgz : splitext (name ++ "-" ++ version ++ ".tar.gz")
                = ((stem ++ ".tar")%string, ".gz"%string)).
  { replace (name ++ "-" ++ version ++ ".tar.gz")%string
      with ((stem ++ ".tar") ++ String "." "gz")%string
      by (unfold stem; now rewrite !append_assoc).
    apply splitext_ext.
    - reflexivity.
    - unfold no_sep, is_sep. destruct os; reflexivity.
    - intros k Hk Hindex. apply (Hlast k ".tar"%string); [|exact Hk|exact Hindex].
      unfold no_sep, is_sep. destruct os; reflexivity. }
  assert (Htar : splitext (stem ++ ".tar") = (stem, ".tar"%string)).
  { change (stem ++ ".tar")%string with (stem ++ String "." "tar")%string.
    apply splitext_ext.
    - reflexivity.
    - unfold no_sep, is_sep. destruct os; reflexivity.
    - intros k Hk Hindex.
      specialize (Hlast k EmptyString eq_refl).
      rewrite (append_nil_r stem) in Hlast. exact (Hlast Hk Hindex). }
  rewrite Hgz. cbn [fst snd].
  change (String.eqb ".gz" ".whl") with false. cbv iota.
  rewrite endswith_app, Htar. cbn [fst].
  unfold stem.
  replace (String.length name + 1)%nat
    with (String.length (name ++ "-")) by apply length_append.
  rewrite <- append_assoc. now rewrite drop_length.
Qed.

(** X19.  For a source archive named [<name>-<version>.tar.gz], with a
    version that holds no path separator, [parse_download_fname] returns
    the version as it is when the version holds no dash, and otherwise cuts
    it at its first dash exactly when the text between that dash and the
    next dash (or the end) is not empty and consists of digits of the
    interpreter's [str.isdigit].  The name may hold dashes and dots. *)
Theorem parse_download_fname_sdist (E : Env) :
  forall name version,
    no_sep os version = true ->
    (Py.contains "-" version = false ->
     parse_download_fname (name ++ "-" ++ version ++ ".tar.gz") name
     = version)
    /\ (forall a seg rest,
           version = (a ++ "-" ++ seg ++ rest)%string ->
           Py.contains "-" a = false ->
           Py.contains "-" seg = false ->
           rest = EmptyString \/ String.prefix "-" rest = true ->
           parse_download_fname (name ++ "-" ++ version ++ ".tar.gz") name
           = if match seg with
                | EmptyString => false
                | _ => forallb is_digit (Py.chars seg)
                end
             then a else version).
Proof.
  intros name version Hv. rewrite (sdist_version E name version Hv). split.
  - apply ignore_post_release_no_dash.
  - intros a seg rest -> Ha Hseg Hrest.
    now apply ignore_post_release_dash.
Qed.

(** X19, witness: a dashed name, and a version with an implicit post
    release. *)
Lemma parse_download_fname_sdist_witness :
  @parse_download_fname Sample.env "python-dateutil-2.6.1-1.tar.gz"
                        "python-dateutil" = "2.6.1"%string.
Proof.
  destruct (parse_download_fname_sdist Sample.env "python-dateutil" "2.6.1-1"
              eq_refl) as [_ Hdash].
  apply (Hdash "2.6.1" "1" "")%string;
    [reflexivity | reflexivity | reflexivity | now left].
Defined.

(* ===================================================================== *)
(** ** Further facts: [activate_virtualenv]                               *)
(* ===================================================================== *)

Section Escaping.

Lemma prefix_space (c : ascii) (s : string) :
  String.prefix " " (String c s) = Ascii.eqb " " c.
Proof. apply prefix_char. Qed.

(** ["\ "] starts a text exactly when the text starts with a backslash
    followed by a space. *)
Lemma prefix_escaped_space (c : ascii) (s : string) :
  String.prefix (backslash ++ " ") (String c s)
  = Ascii.eqb (ascii_of_nat 92) c && String.prefix " " s.
Proof.
  change (backslash ++ " ")%string with (String (ascii_of_nat 92) " ").
  rewrite prefix_cons.
  destruct (ascii_dec (ascii_of_nat 92) c) as [<-|Hne].
  - now rewrite Ascii.eqb_refl.
  - apply Ascii.eqb_neq in Hne. now rewrite Hne.
Qed.

(** An escaped text does not start with a space. *)
Lemma escaped_no_leading_space (s : string) :
  String.prefix " " (Py.replace_go " " (backslash ++ " ") 0 s) = false.
Proof.
  destruct s as [|c s]; [reflexivity|].
  cbn [Py.replace_go]. rewrite prefix_space.
  destruct (Ascii.eqb " " c) eqn:Hc; [reflexivity|].
  now rewrite prefix_space.
Qed.

Lemma unescape_escape (s : string) :
  Py.replace_go (backslash ++ " ") " " 0
                (Py.replace_go " " (backslash ++ " ") 0 s) = s.
Proof.
  induction s as [|c s IH]; [reflexivity|].
  cbn [Py.replace_go]. rewrite prefix_space.
  destruct (Ascii.eqb " " c) eqn:Hc.
  - apply Ascii.eqb_eq in Hc. subst c.
    change (String.length " " - 1)%nat with 0%nat.
    change ((backslash ++ " ") ++ Py.replace_go " " (backslash ++ " ") 0 s)%string
      with (String (ascii_of_nat 92)
              (String " " (Py.replace_go " " (backslash ++ " ") 0 s))).
    cbn [Py.replace_go]. rewrite prefix_escaped_space, Ascii.eqb_refl.
    cbn [andb]. rewrite prefix_space, Ascii.eqb_refl.
    change (String.length (backslash ++ " ") - 1)%nat with 1%nat.
    cbn [Py.replace_go]. now rewrite IH.
  - cbn [Py.replace_go]. rewrite prefix_escaped_space.
    rewrite escaped_no_leading_space, andb_false_r. now rewrite IH.
Qed.

End Escaping.

(** X20.  [activate_virtualenv] needs [SHELL] in the environment, also
    when [source] is off and the shell does not matter; otherwise it
    names the [activate] script under the virtualenv, with every space of
    the path escaped by a backslash: reading the escapes back gives the
    location of the virtualenv. *)
Theorem activate_virtualenv_escapes_location (E : Env)
        (environ : list (string * string)) :
  (Dict.get "SHELL" environ = None ->
   forall source,
     activate_virtualenv environ source = Raised (KeyError "SHELL"))
  /\ (forall shell,
         Dict.get "SHELL" environ = Some shell ->
         exists path suffix,
           activate_virtualenv environ false
           = Done (path ++ "/bin/activate")%string
           /\ activate_virtualenv environ true
              = Done ("source " ++ path ++ "/bin/activate" ++ suffix)%string
           /\ Py.replace (backslash ++ " ") " " path
              = virtualenv_location project).
Proof.
  split.
  - intros Hshell source. unfold activate_virtualenv, environ_getitem.
    now rewrite Hshell.
  - intros shell Hshell. unfold activate_virtualenv, environ_getitem.
    rewrite Hshell. cbn [obind].
    eexists. eexists. split; [reflexivity|]. split; [reflexivity|].
    apply unescape_escape.
Qed.

(** X20, witness: no [SHELL], and the fish shell. *)
Lemma activate_virtualenv_escapes_location_witness :
  @activate_virtualenv Sample.env [] false = Raised (KeyError "SHELL")
  /\ exists path suffix,
       @activate_virtualenv Sample.env [("SHELL"%string, "/usr/bin/fish"%string)]
                            true
       = Done ("source " ++ path ++ "/bin/activate" ++ suffix)%string
       /\ Py.replace (backslash ++ " ") " " path
          = virtualenv_location (@project Sample.env).
Proof.
  split.
  - apply (proj1 (activate_virtualenv_escapes_location Sample.env [])).
    reflexivity.
  - destruct (proj2 (activate_virtualenv_escapes_location Sample.env
                       [("SHELL"%string, "/usr/bin/fish"%string)])
                    "/usr/bin/fish"%string eq_refl)
      as (path & suffix & _ & Hsource & Hpath).
    now exists path, suffix.
Defined.
